(** * Semantic memory of the chat assistant: a model of the TypeScript sources

    The development follows three classes of the repository:

    - [EmbeddingsService] (text to vector, through an HTTP backend),
    - [VectorStore] (sql.js table [memories], cosine scan, persistence),
    - [MemoryService] (the orchestrator built from the two).

    TypeScript's [number] is kept behind the interface [NumOps], which is
    implemented by IEEE binary64 ([binary64], what a JavaScript engine
    computes, executable).  [async]/[await] is read
    sequentially: every [await] in these classes is immediately awaited, so
    a method is a state transformer that either returns or throws. *)

From Stdlib Require Import ZArith List Ascii String Lia Sorting Permutation.
From Stdlib Require Import Floats.
From stdpp Require Import base gmap strings list sorting pretty.

Local Open Scope Z_scope.
Local Open Scope string_scope.
Local Open Scope list_scope.

(** ** JavaScript numbers *)

(** The operations on [number] that the sources use: [+ - * /],
    [Math.sqrt], [===], [<] and [>=]; and [Number.isFinite], by which
    [JSON.stringify] tells the numbers it writes from those it writes as
    [null]. *)
Record NumOps : Type := {
  num :> Type;
  num_zero : num;
  num_add : num -> num -> num;
  num_sub : num -> num -> num;
  num_mul : num -> num -> num;
  num_div : num -> num -> num;
  Math_sqrt : num -> num;
  num_eqb : num -> num -> bool;
  num_ltb : num -> num -> bool;
  num_geb : num -> num -> bool;
  Number_isFinite : num -> bool
}.

Declare Scope js_scope.
Delimit Scope js_scope with js.
Notation "x + y" := (num_add _ x y) : js_scope.
Notation "x - y" := (num_sub _ x y) : js_scope.
Notation "x * y" := (num_mul _ x y) : js_scope.
Notation "x / y" := (num_div _ x y) : js_scope.
Notation "x === y" := (num_eqb _ x y) (at level 70, no associativity) : js_scope.
Notation "x <? y" := (num_ltb _ x y) : js_scope.
Notation "x >=? y" := (num_geb _ x y) (at level 70, no associativity) : js_scope.

(** IEEE 754 binary64, the arithmetic of a JavaScript engine. *)
Definition binary64 : NumOps := {|
  num := float;
  num_zero := 0%float;
  num_add := PrimFloat.add;
  num_sub := PrimFloat.sub;
  num_mul := PrimFloat.mul;
  num_div := PrimFloat.div;
  Math_sqrt := PrimFloat.sqrt;
  num_eqb := PrimFloat.eqb;
  num_ltb := PrimFloat.ltb;
  num_geb := fun x y => PrimFloat.leb y x;
  Number_isFinite := PrimFloat.is_finite
|}.

(** The order laws a comparator-based sort relies on, for the values that
    are numbers ([x === x], which fails of [NaN] only): a value that passes
    a [>=] test is one; on them [<] is a strict total order up to [===],
    [>=] is its complement, and the sign of a difference agrees with it. *)
Class NumOrder (N : NumOps) : Prop := {
  geb_number : forall x t : N, (x >=? t)%js = true -> (x === x)%js = true;
  ltb_irrefl : forall x : N, (x <? x)%js = false;
  ltb_trans : forall x y z : N,
    (x <? y)%js = true -> (y <? z)%js = true -> (x <? z)%js = true;
  ltb_connex : forall x y : N,
    (x === x)%js = true -> (y === y)%js = true ->
    (x <? y)%js = false -> (y <? x)%js = false -> (x === y)%js = true;
  eqb_ltb_l : forall x y z : N,
    (x === y)%js = true -> (x <? z)%js = (y <? z)%js;
  eqb_ltb_r : forall x y z : N,
    (x === y)%js = true -> (z <? x)%js = (z <? y)%js;
  geb_ltb : forall x y : N,
    (x === x)%js = true -> (y === y)%js = true ->
    (x >=? y)%js = negb (x <? y)%js;
  sub_positive : forall x y : N,
    (x === x)%js = true -> (y === y)%js = true ->
    (num_zero N <? y - x)%js = (x <? y)%js
}.

(** ** Thrown values and completions *)

(** What a [throw] of these classes carries: an [Error] with its message,
    the [RangeError] of [Date.prototype.toISOString], or the plain
    [ApiError] object that [EmbeddingsService.handleError] builds (kept by
    its [code]). *)
Inductive thrown : Type :=
  | Error (message : string)
  | RangeError (message : string)
  | ApiError (code : string).

(** Interpolation of a caught value in a template literal: an [Error]
    prints its name and message, a plain object prints as below. *)
Definition String_of_thrown (e : thrown) : string :=
  match e with
  | Error message => "Error: " ++ message
  | RangeError message => "RangeError: " ++ message
  | ApiError _ => "[object Object]"
  end.

Inductive completion (A : Type) : Type :=
  | Normal (value : A)
  | Throw (e : thrown).
Arguments Normal {A} value.
Arguments Throw {A} e.

(** ** Cosine similarity *)

Section Cosine.
Context {N : NumOps}.

(** [VectorStore.calculateCosineSimilarity]: the two loops run over the
    indices of [a]; with equal lengths they visit the pairs of [zip a b]. *)
Definition calculateCosineSimilarity (a b : list N) : completion N :=
  if negb (Nat.eqb (length a) (length b)) then
    Throw (Error "Vector dimensions must match for similarity calculation")
  else
    let dotProduct :=
      fold_left (fun acc '(x, y) => acc + x * y)%js (zip a b) (num_zero N) in
    let '(magnitudeA, magnitudeB) :=
      fold_left (fun '(mA, mB) '(x, y) => (mA + x * x, mB + y * y)%js)
                (zip a b) (num_zero N, num_zero N) in
    let magnitudeA := Math_sqrt N magnitudeA in
    let magnitudeB := Math_sqrt N magnitudeB in
    if (magnitudeA === num_zero N)%js || (magnitudeB === num_zero N)%js then
      Normal (num_zero N)
    else
      Normal (dotProduct / (magnitudeA * magnitudeB))%js.

End Cosine.

(** ** Arrays *)

Section Arrays.
Context {A : Type}.

(** [Array.prototype.slice(0, limit)] for an integer [limit]: a negative
    [limit] counts from the end. *)
Definition Array_slice0 (l : list A) (limit : Z) : list A :=
  if (limit <? 0)%Z
  then firstn (Z.to_nat (Z.max (Z.of_nat (length l) + limit) 0)) l
  else firstn (Z.to_nat limit) l.

Context {N : NumOps}.

(** [Array.prototype.sort(comparefn)] is stable (ECMAScript 2019, and
    every Node release the package accepts): an element moves behind a later
    one only when [comparefn] of the two is positive.  Insertion from the
    right is the stable sort used as its model. *)
Fixpoint sort_insert (comparefn : A -> A -> N) (x : A) (l : list A) : list A :=
  match l with
  | [] => [x]
  | y :: l' =>
      if (num_zero N <? comparefn x y)%js
      then y :: sort_insert comparefn x l'
      else x :: y :: l'
  end.

Definition Array_sort (comparefn : A -> A -> N) (l : list A) : list A :=
  fold_right (sort_insert comparefn) [] l.

End Arrays.

(** ** Strings and optional values *)

Definition LF : string := String (Ascii.ascii_of_nat 10) EmptyString.

(** [s || null], [s || undefined] and [if (s)] on an optional string: the
    empty string counts as absent. *)
Definition or_null (s : option string) : option string :=
  match s with
  | Some v => if String.eqb v "" then None else Some v
  | None => None
  end.

(** How sql.js reads a [TEXT] column back ([sqlite3_column_text] through
    [UTF8ToString]): the text up to its first NUL character. *)
Fixpoint UTF8ToString (s : string) : string :=
  match s with
  | EmptyString => EmptyString
  | String c s' =>
      if Ascii.eqb c Ascii.zero then EmptyString
      else String c (UTF8ToString s')
  end.

(** The values found in a [Record<string, any>]: [undefined], [null] and
    strings (the display name is the one value the repository puts there). *)
Inductive jsval : Type :=
  | JUndefined
  | JNull
  | JString (s : string).

#[global] Instance jsval_eq_dec : EqDecision jsval.
Proof. solve_decision. Defined.

(** The value as the optional string it stands for under [v && ...]. *)
Definition truthy_string (v : jsval) : option string :=
  match v with
  | JString s => or_null (Some s)
  | JUndefined | JNull => None
  end.

(** [JSON.parse(JSON.stringify(m))] on such an object: a key whose value is
    [undefined] is not written. *)
Definition JSON_roundtrip (m : gmap string jsval) : gmap string jsval :=
  filter (fun kv => kv.2 <> JUndefined) m.

(** ** Data model ([src/types/index.ts]) *)

Section Model.
Context {N : NumOps}.

(** The part of [Config] that the memory classes read. *)
Record Config : Type := {
  embeddingsProvider : string;
  embeddingsModel : string;
  databasePath : string;
  maxMemoryResults : Z;
  similarityThreshold : N
}.

Record MemoryEntry : Type := {
  id : option Z;
  timestamp : Z;
  userInput : string;
  botResponse : string;
  embedding : list N;
  channelId : option string;
  userId : option string;
  userName : option string;
  metadata : option (gmap string jsval)
}.

Record MemorySearchResult : Type := {
  entry : MemoryEntry;
  similarity : N
}.

(** [{ ...entry, id }] *)
Definition with_id (e : MemoryEntry) (i : Z) : MemoryEntry :=
  {| id := Some i; timestamp := timestamp e; userInput := userInput e;
     botResponse := botResponse e; embedding := embedding e;
     channelId := channelId e; userId := userId e; userName := userName e;
     metadata := metadata e |}.

(** [JSON.parse(JSON.stringify(x))] on one element of a [number[]]: a
    finite number is written by the shortest numeral that reads back as the
    same double, except that [-0] is written [0]; [NaN] and the infinities
    are written [null].  A [null] element is kept as the number that the
    arithmetic of [calculateCosineSimilarity] reads it as, [+0]. *)
Definition JSON_number (x : N) : N :=
  if Number_isFinite N x
  then if (x === num_zero N)%js then num_zero N else x
  else num_zero N.

(** ** The table [memories]

    A row of the table created by [createTables].  The two [TEXT] columns
    that hold JSON are kept by the value [JSON.parse] reads from them:
    [col_embedding] is the parsed array, [col_metadata] the parsed object.
    [None] is SQL [NULL]. *)
Record Row : Type := {
  col_id : Z;
  col_timestamp : Z;
  col_user_input : string;
  col_bot_response : string;
  col_embedding : list N;
  col_channel_id : option string;
  col_user_id : option string;
  col_user_name : option string;
  col_metadata : option (gmap string jsval)
}.

(** The database image: the rows in rowid order and the [AUTOINCREMENT]
    counter that SQLite keeps in [sqlite_sequence]. *)
Record Database : Type := {
  memories : list Row;
  sqlite_sequence : Z
}.

Definition empty_database : Database :=
  {| memories := []; sqlite_sequence := 0 |}.

(** The rowid an [INTEGER PRIMARY KEY AUTOINCREMENT] column gets: one more
    than the largest rowid the table has ever held. *)
Definition next_rowid (db : Database) : Z :=
  Z.max (sqlite_sequence db) (fold_right Z.max 0 (map col_id (memories db))) + 1.

(** [INSERT INTO memories (...) VALUES (?, ?, ?, ?, ?, ?, ?, ?)] with the
    parameters [storeMemory] binds, followed by [last_insert_rowid()].  The
    embedding and the metadata are bound as their [JSON.stringify] text. *)
Definition INSERT_INTO_memories (e : MemoryEntry) (db : Database) : Z * Database :=
  let rowid := next_rowid db in
  let row :=
    {| col_id := rowid;
       col_timestamp := timestamp e;
       col_user_input := userInput e;
       col_bot_response := botResponse e;
       col_embedding := map JSON_number (embedding e);
       col_channel_id := or_null (channelId e);
       col_user_id := or_null (userId e);
       col_user_name := or_null (userName e);
       col_metadata := JSON_roundtrip <$> metadata e |} in
  (rowid, {| memories := memories db ++ [row]; sqlite_sequence := rowid |}).

(** One optional condition of the dynamic [WHERE]: it is added only when the
    argument is truthy, and [column = ?] never holds of [NULL]. *)
Definition condition (arg : option string) (column : option string) : bool :=
  match or_null arg with
  | None => true
  | Some v =>
      match column with
      | Some c => String.eqb c v
      | None => false
      end
  end.

Definition WHERE (channelId userId : option string) (r : Row) : bool :=
  condition channelId (col_channel_id r) && condition userId (col_user_id r).

(** What SQLite promises of [ORDER BY timestamp DESC]: the selected rows, by
    non-increasing timestamp; the order among equal timestamps is the
    engine's choice. *)
Class OrderBy (ORDER_BY_timestamp_DESC : list Row -> list Row) : Prop := {
  order_by_permutation :
    forall rows, Permutation rows (ORDER_BY_timestamp_DESC rows);
  order_by_sorted :
    forall rows,
      StronglySorted (fun r1 r2 => col_timestamp r2 <= col_timestamp r1)
                     (ORDER_BY_timestamp_DESC rows)
}.

(** One engine: a stable insertion sort, which keeps rowid order among equal
    timestamps. *)
Fixpoint insert_by_timestamp (r : Row) (rows : list Row) : list Row :=
  match rows with
  | [] => [r]
  | r' :: rows' =>
      if (col_timestamp r' <? col_timestamp r)%Z
      then r :: r' :: rows'
      else r' :: insert_by_timestamp r rows'
  end.

Definition sort_by_timestamp_desc (rows : list Row) : list Row :=
  fold_left (fun acc r => insert_by_timestamp r acc) rows [].

(** [LIMIT ?]: a negative limit means no limit. *)
Definition LIMIT (rows : list Row) (limit : Z) : list Row :=
  if (limit <? 0)%Z then rows else firstn (Z.to_nat limit) rows.

(** The record built from a selected row in [searchSimilar] and
    [getRecentMemories]. *)
Definition entry_of_row (r : Row) : MemoryEntry :=
  {| id := Some (col_id r);
     timestamp := col_timestamp r;
     userInput := UTF8ToString (col_user_input r);
     botResponse := UTF8ToString (col_bot_response r);
     embedding := col_embedding r;
     channelId := or_null (UTF8ToString <$> col_channel_id r);
     userId := or_null (UTF8ToString <$> col_user_id r);
     userName := or_null (UTF8ToString <$> col_user_name r);
     metadata := col_metadata r |}.

(** ** The world the classes run in *)

(** The answer of the embeddings backend to one request, as
    [generateEmbedding] sees it: a vector, or a failure that [handleError]
    turns into an [ApiError] with the given code. *)
Inductive response : Type :=
  | Vector (v : list N)
  | Failure (code : string).

(** The file at [appConfig.databasePath]. *)
Inductive FileContent : Type :=
  | SqliteImage (db : Database)
  | Garbage.

(** What the collaborators do during a call.  [fs.writeFile] opens the path
    for writing, which truncates the file, and then writes: a write that
    fails leaves the previous content when the file could not be opened,
    and an empty or partial file otherwise; [writeFile_failure] is what
    such a write of a database leaves of the previous content. *)
Record Env : Type := {
  backend_reachable : bool;
  connection_error : string;
  backend_embedding : string -> response;
  initSqlJs_error : option thrown;
  writeFile_succeeds : bool;
  writeFile_failure : Database -> option FileContent -> option FileContent;
  Date_now : Z
}.

(** Requests that leave the process. *)
Inductive Call : Type :=
  | GET_models
  | POST_embeddings (text : string)
  | Call_initSqlJs
  | Call_readFile
  | Call_writeFile.

(** The objects' fields ([VectorStore.db], [VectorStore.initialized],
    [MemoryService.initialized]), the file system and the requests made so
    far. *)
Record State : Type := {
  vs_db : option Database;
  vs_initialized : bool;
  ms_initialized : bool;
  disk : option FileContent;
  calls : list Call
}.

Definition set_vs_db (db : option Database) (s : State) : State :=
  {| vs_db := db; vs_initialized := vs_initialized s;
     ms_initialized := ms_initialized s; disk := disk s; calls := calls s |}.
Definition set_vs_initialized (b : bool) (s : State) : State :=
  {| vs_db := vs_db s; vs_initialized := b;
     ms_initialized := ms_initialized s; disk := disk s; calls := calls s |}.
Definition set_ms_initialized (b : bool) (s : State) : State :=
  {| vs_db := vs_db s; vs_initialized := vs_initialized s;
     ms_initialized := b; disk := disk s; calls := calls s |}.
Definition set_disk (f : option FileContent) (s : State) : State :=
  {| vs_db := vs_db s; vs_initialized := vs_initialized s;
     ms_initialized := ms_initialized s; disk := f; calls := calls s |}.
Definition record_call (c : Call) (s : State) : State :=
  {| vs_db := vs_db s; vs_initialized := vs_initialized s;
     ms_initialized := ms_initialized s; disk := disk s;
     calls := calls s ++ [c] |}.

(** A method: it reads the environment, updates the state, and returns or
    throws.  The state reached before a [throw] is kept. *)
Definition M (A : Type) : Type := Env -> State -> completion A * State.

Definition ret {A} (a : A) : M A := fun _ s => (Normal a, s).
Definition throw {A} (e : thrown) : M A := fun _ s => (Throw e, s).
Definition bind {A B} (m : M A) (k : A -> M B) : M B :=
  fun env s =>
    match m env s with
    | (Normal a, s') => k a env s'
    | (Throw e, s') => (Throw e, s')
    end.
Definition try_catch {A} (body : M A) (handler : thrown -> M A) : M A :=
  fun env s =>
    match body env s with
    | (Normal a, s') => (Normal a, s')
    | (Throw e, s') => handler e env s'
    end.
Definition get : M State := fun _ s => (Normal s, s).
Definition ask : M Env := fun env s => (Normal env, s).
Definition modify (f : State -> State) : M unit := fun _ s => (Normal tt, f s).
Definition lift {A} (c : completion A) : M A := fun _ s => (c, s).

End Model.

Notation "x <- m ;; k" := (bind m (fun x => k))
  (at level 100, m at next level, right associativity).
Notation "m ;;; k" := (bind m (fun _ => k))
  (at level 100, right associativity).

(** ** The classes *)

Section Classes.
Context {N : NumOps}.
Variable appConfig : Config (N := N).
Variable ORDER_BY_timestamp_DESC : list (Row (N := N)) -> list (Row (N := N)).

(** *** VectorStore *)

(** [VectorStore.ensureInitialized].  A missing or unreadable file is caught
    and gives an empty database; a file that is not a database makes
    [createTables] throw.  The handle that case leaves in [this.db] is never
    used ([initialized] stays false, so the next call opens the file again),
    and the model leaves the field as it was. *)
Definition VectorStore_ensureInitialized : M (N := N) unit :=
  s <- get ;;
  match vs_initialized s, vs_db s with
  | true, Some _ => ret tt
  | _, _ =>
      env <- ask ;;
      modify (record_call Call_initSqlJs) ;;;
      match initSqlJs_error env with
      | Some error => throw error
      | None =>
          modify (record_call Call_readFile) ;;;
          match disk s with
          | Some Garbage => throw (Error "file is not a database")
          | Some (SqliteImage image) =>
              modify (set_vs_db (Some image)) ;;;
              modify (set_vs_initialized true)
          | None =>
              modify (set_vs_db (Some empty_database)) ;;;
              modify (set_vs_initialized true)
          end
      end
  end.

(** [VectorStore.saveDatabase]: a failed write is logged and swallowed,
    and the file is left as the failed write left it. *)
Definition VectorStore_saveDatabase : M (N := N) unit :=
  s <- get ;;
  match vs_db s with
  | None => ret tt
  | Some db =>
      env <- ask ;;
      modify (record_call Call_writeFile) ;;;
      if writeFile_succeeds env
      then modify (set_disk (Some (SqliteImage db)))
      else modify (set_disk (writeFile_failure env db (disk s)))
  end.

(** [VectorStore.storeMemory] *)
Definition VectorStore_storeMemory (entry : MemoryEntry) : M (N := N) MemoryEntry :=
  VectorStore_ensureInitialized ;;;
  s <- get ;;
  match vs_db s with
  | None => throw (Error "Database not initialized")
  | Some db =>
      try_catch
        (let '(id, db') := INSERT_INTO_memories entry db in
         modify (set_vs_db (Some db')) ;;;
         VectorStore_saveDatabase ;;;
         ret (with_id entry id))
        (fun error =>
           throw (Error ("Failed to store memory: " ++ String_of_thrown error)%string))
  end.

(** The [for] loop of [searchSimilar]: rows are scored in order, a result is
    pushed when it reaches the threshold, and a [throw] of
    [calculateCosineSimilarity] leaves the loop. *)
Fixpoint scan (queryEmbedding : list N) (rows : list Row)
    (results : list MemorySearchResult) : completion (list MemorySearchResult) :=
  match rows with
  | [] => Normal results
  | row :: rows' =>
      match calculateCosineSimilarity queryEmbedding (col_embedding row) with
      | Throw e => Throw e
      | Normal similarity =>
          if (similarity >=? similarityThreshold appConfig)%js
          then scan queryEmbedding rows'
                 (results ++ [{| entry := entry_of_row row; similarity := similarity |}])
          else scan queryEmbedding rows' results
      end
  end.

(** The default of a [limit] parameter. *)
Definition limit_or_default (limit : option Z) : Z :=
  match limit with
  | Some k => k
  | None => maxMemoryResults appConfig
  end.

(** [VectorStore.searchSimilar] *)
Definition VectorStore_searchSimilar (queryEmbedding : list N) (limit : option Z)
    (channelId userId : option string) : M (N := N) (list MemorySearchResult) :=
  VectorStore_ensureInitialized ;;;
  s <- get ;;
  match vs_db s with
  | None => throw (Error "Database not initialized")
  | Some db =>
      try_catch
        (let rows :=
           ORDER_BY_timestamp_DESC (List.filter (WHERE channelId userId) (memories db)) in
         results <- lift (scan queryEmbedding rows []) ;;
         let results :=
           Array_sort (fun a b => similarity b - similarity a)%js results in
         let limitedResults := Array_slice0 results (limit_or_default limit) in
         ret limitedResults)
        (fun _ => ret [])
  end.

(** [VectorStore.getMemoryCount] *)
Definition VectorStore_getMemoryCount : M (N := N) Z :=
  VectorStore_ensureInitialized ;;;
  s <- get ;;
  match vs_db s with
  | None => ret 0
  | Some db =>
      try_catch
        (ret (Z.of_nat (length (memories db))))
        (fun _ => ret 0)
  end.

(** [VectorStore.getRecentMemories] *)
Definition VectorStore_getRecentMemories (limit : option Z)
    (channelId userId : option string) : M (N := N) (list MemoryEntry) :=
  VectorStore_ensureInitialized ;;;
  s <- get ;;
  match vs_db s with
  | None => ret []
  | Some db =>
      try_catch
        (let rows :=
           LIMIT (ORDER_BY_timestamp_DESC
                    (List.filter (WHERE channelId userId) (memories db)))
                 (limit_or_default limit) in
         ret (map entry_of_row rows))
        (fun _ => ret [])
  end.

(** [VectorStore.deleteMemory] *)
Definition VectorStore_deleteMemory (id : Z) : M (N := N) bool :=
  VectorStore_ensureInitialized ;;;
  s <- get ;;
  match vs_db s with
  | None => ret false
  | Some db =>
      try_catch
        (let kept :=
           List.filter (fun r => negb (col_id r =? id)%Z) (memories db) in
         let changes := (length (memories db) - length kept)%nat in
         modify (set_vs_db (Some {| memories := kept;
                                    sqlite_sequence := sqlite_sequence db |})) ;;;
         let deleted := (0 <? changes)%nat in
         if deleted
         then VectorStore_saveDatabase ;;; ret deleted
         else ret deleted)
        (fun _ => ret false)
  end.

(** [VectorStore.maintenance]: [VACUUM] and [ANALYZE] leave the rows as they
    are. *)
Definition VectorStore_maintenance : M (N := N) unit :=
  VectorStore_ensureInitialized ;;;
  s <- get ;;
  match vs_db s with
  | None => ret tt
  | Some _ => try_catch VectorStore_saveDatabase (fun _ => ret tt)
  end.

(** *** EmbeddingsService *)

(** [EmbeddingsService.testConnection] *)
Definition EmbeddingsService_testConnection : M (N := N) unit :=
  env <- ask ;;
  modify (record_call GET_models) ;;;
  if backend_reachable env then ret tt
  else throw (Error ("Failed to connect to " ++ embeddingsProvider appConfig
                       ++ " for embeddings: " ++ connection_error env)%string).

(** [EmbeddingsService.generateEmbedding]: the text is cut to 8000
    characters, and any failure is rethrown as the [ApiError] of
    [handleError]. *)
Definition EmbeddingsService_generateEmbedding (text : string) : M (N := N) (list N) :=
  let maxLength := 8000%Z in
  let truncatedText :=
    if (maxLength <? Z.of_nat (String.length text))%Z
    then (String.substring 0 (Z.to_nat maxLength) text ++ "...")%string
    else text in
  env <- ask ;;
  modify (record_call (POST_embeddings truncatedText)) ;;;
  match backend_embedding env truncatedText with
  | Vector embedding => ret embedding
  | Failure code => throw (ApiError code)
  end.

(** *** MemoryService *)

Variable Number_toFixed : N -> nat -> string.
Variable ISO_8601 : Z -> string.

(** [new Date(t).toISOString()]: the text for a time value in range, a
    [RangeError] outside it. *)
Definition Date_toISOString (t : Z) : completion string :=
  if (Z.abs t <=? 8640000000000000)%Z then Normal (ISO_8601 t)
  else Throw (RangeError "Invalid time value").

(** [MemoryService.ensureInitialized] *)
Definition MemoryService_ensureInitialized : M (N := N) unit :=
  s <- get ;;
  if negb (ms_initialized s)
  then throw (Error "Memory service not initialized. Call initialize() first.")
  else ret tt.

(** [MemoryService.initialize] *)
Definition MemoryService_initialize : M (N := N) unit :=
  try_catch
    (EmbeddingsService_testConnection ;;;
     memoryCount <- VectorStore_getMemoryCount ;;
     modify (set_ms_initialized true))
    (fun error =>
       throw (Error ("Memory service initialization failed: "
                       ++ String_of_thrown error)%string)).

(** [if (!this.initialized) { await this.initialize(); }] *)
Definition initialize_if_needed : M (N := N) unit :=
  s <- get ;;
  if negb (ms_initialized s) then MemoryService_initialize else ret tt.

(** The object literal [memoryEntry] of [MemoryService.storeMemory], with
    the three statements before it: [metadata?.userName], the copy
    [{ ...metadata }] and [delete remainingMetadata?.userName].  A spread of
    a falsy value adds no property. *)
Definition memoryEntry (now : Z) (userInput botResponse : string)
    (embedding : list N) (channelId userId : option string)
    (metadata : option (gmap string jsval)) : MemoryEntry :=
  let userName :=
    match metadata with
    | Some m => default JUndefined (m !! "userName")
    | None => JUndefined
    end in
  let remainingMetadata : gmap string jsval :=
    delete "userName" (default ∅ metadata) in
  {| id := None;
     timestamp := now;
     userInput := userInput;
     botResponse := botResponse;
     embedding := embedding;
     channelId := or_null channelId;
     userId := or_null userId;
     userName := truthy_string userName;
     metadata := if (0 <? size remainingMetadata)%nat
                 then Some remainingMetadata else None |}.

(** [MemoryService.storeMemory] *)
Definition MemoryService_storeMemory (userInput botResponse : string)
    (channelId userId : option string) (metadata : option (gmap string jsval))
    : M (N := N) MemoryEntry :=
  try_catch
    (initialize_if_needed ;;;
     embedding <- EmbeddingsService_generateEmbedding userInput ;;
     env <- ask ;;
     storedEntry <-
       VectorStore_storeMemory
         (memoryEntry (Date_now env) userInput botResponse embedding
                      channelId userId metadata) ;;
     ret storedEntry)
    (fun error =>
       throw (Error ("Failed to store memory: " ++ String_of_thrown error)%string)).

(** [MemoryService.searchMemories] *)
Definition MemoryService_searchMemories (query : string)
    (channelId userId : option string) (limit : option Z)
    : M (N := N) (list MemorySearchResult) :=
  let limit := limit_or_default limit in
  try_catch
    (initialize_if_needed ;;;
     queryEmbedding <- EmbeddingsService_generateEmbedding query ;;
     results <- VectorStore_searchSimilar queryEmbedding (Some limit) channelId userId ;;
     ret results)
    (fun _ => ret []).

(** [MemoryService.getRecentMemories] *)
Definition MemoryService_getRecentMemories (channelId userId : option string)
    (limit : option Z) : M (N := N) (list MemoryEntry) :=
  let limit := limit_or_default limit in
  MemoryService_ensureInitialized ;;;
  try_catch
    (VectorStore_getRecentMemories (Some limit) channelId userId)
    (fun error =>
       throw (Error ("Failed to get recent memories: "
                       ++ String_of_thrown error)%string)).

Definition userLabel (e : MemoryEntry (N := N)) : string :=
  match or_null (userName e) with
  | Some name => name
  | None => "User"
  end.

(** The body of the [forEach] of [formatMemoriesForLLM], from [index] on. *)
Fixpoint format_each (index : nat) (searchResults : list (MemorySearchResult (N := N)))
    : completion string :=
  match searchResults with
  | [] => Normal ""
  | result :: rest =>
      match Date_toISOString (timestamp (entry result)) with
      | Throw e => Throw e
      | Normal timestamp =>
          match format_each (S index) rest with
          | Throw e => Throw e
          | Normal others =>
              Normal ("Memory " ++ pretty (index + 1)%nat
                      ++ " (similarity: " ++ Number_toFixed (similarity result) 3
                      ++ ", from " ++ timestamp ++ "):" ++ LF
                      ++ userLabel (entry result) ++ ": "
                      ++ userInput (entry result) ++ LF
                      ++ "Previous Response: " ++ botResponse (entry result)
                      ++ LF ++ LF ++ others)%string
          end
      end
  end.

Definition memories_header : string :=
  LF ++ "--- RETRIEVED MEMORIES FOR EVALUATION ---" ++ LF
  ++ "IMPORTANT: These are past conversations that may or may not be accurate or current."
  ++ LF
  ++ "You must evaluate them against your current knowledge and any new context provided."
  ++ LF ++ LF.

Definition evaluation_instructions : string :=
  "--- END RETRIEVED MEMORY ---" ++ LF ++ LF
  ++ "EVALUATION INSTRUCTIONS:" ++ LF
  ++ "• Compare this past response with your current knowledge" ++ LF
  ++ "• Consider if information may have changed since this conversation" ++ LF
  ++ "• Determine if the previous answer is still accurate and complete" ++ LF
  ++ "• If the memory is outdated or incorrect, provide an updated answer" ++ LF
  ++ "• If the memory is accurate, you may reference it but add any new insights" ++ LF
  ++ "• Always prioritize accuracy over consistency with past responses" ++ LF ++ LF.

Definition synthesis_instructions : string :=
  "--- END RETRIEVED MEMORIES ---" ++ LF ++ LF
  ++ "EVALUATION AND SYNTHESIS INSTRUCTIONS:" ++ LF
  ++ "• Review each past conversation critically" ++ LF
  ++ "• Identify which information is still accurate and which may be outdated" ++ LF
  ++ "• Look for contradictions between memories or with your current knowledge" ++ LF
  ++ "• Synthesize the best information from multiple sources" ++ LF
  ++ "• Provide the most accurate and up-to-date answer possible" ++ LF
  ++ "• You may reference past conversations but are not bound by them" ++ LF
  ++ "• If memories contain errors, correct them in your response" ++ LF
  ++ "• Mention when you're updating or correcting previous information" ++ LF ++ LF.

(** [MemoryService.formatMemoriesForLLM] *)
Definition MemoryService_formatMemoriesForLLM
    (searchResults : list (MemorySearchResult (N := N))) : completion string :=
  match searchResults with
  | [] => Normal ""
  | [result] =>
      match Date_toISOString (timestamp (entry result)) with
      | Throw e => Throw e
      | Normal timestamp =>
          Normal (memories_header
                  ++ "Past conversation (similarity: "
                  ++ Number_toFixed (similarity result) 3
                  ++ ", from " ++ timestamp ++ "):" ++ LF
                  ++ userLabel (entry result) ++ ": "
                  ++ userInput (entry result) ++ LF
                  ++ "Previous Assistant Response: " ++ botResponse (entry result)
                  ++ LF ++ LF ++ evaluation_instructions)%string
      end
  | _ =>
      match format_each 0 searchResults with
      | Throw e => Throw e
      | Normal each =>
          Normal (memories_header
                  ++ "Found " ++ pretty (length searchResults)
                  ++ " potentially relevant past conversations:" ++ LF ++ LF
                  ++ each ++ synthesis_instructions)%string
      end
  end.

(** [MemoryService.getEnhancedContext] *)
Definition MemoryService_getEnhancedContext (userQuery : string)
    (channelId userId userName : option string) : M (N := N) string :=
  try_catch
    (initialize_if_needed ;;;
     memories <- MemoryService_searchMemories userQuery channelId userId None ;;
     memoryContext <- lift (MemoryService_formatMemoriesForLLM memories) ;;
     if negb (String.eqb memoryContext "") then
       let userPrefix :=
         match or_null userName with
         | Some name => (name ++ " asks: ")%string
         | None => ""
         end in
       ret (memoryContext ++ LF ++ "Current Question: " ++ userPrefix ++ userQuery)%string
     else
       match or_null userName with
       | Some name => ret (name ++ " asks: " ++ userQuery)%string
       | None => ret userQuery
       end)
    (fun _ => ret userQuery).

(** The object [getStats] returns. *)
Record Stats : Type := {
  totalMemories : Z;
  stats_embeddingsProvider : string;
  stats_embeddingsModel : string;
  stats_databasePath : string;
  stats_similarityThreshold : N
}.

(** [MemoryService.getStats] *)
Definition MemoryService_getStats : M (N := N) Stats :=
  MemoryService_ensureInitialized ;;;
  try_catch
    (totalMemories <- VectorStore_getMemoryCount ;;
     ret {| totalMemories := totalMemories;
            stats_embeddingsProvider := embeddingsProvider appConfig;
            stats_embeddingsModel := embeddingsModel appConfig;
            stats_databasePath := databasePath appConfig;
            stats_similarityThreshold := similarityThreshold appConfig |})
    (fun error =>
       throw (Error ("Failed to get memory stats: " ++ String_of_thrown error)%string)).

(** [MemoryService.performMaintenance] *)
Definition MemoryService_performMaintenance : M (N := N) unit :=
  MemoryService_ensureInitialized ;;;
  try_catch
    VectorStore_maintenance
    (fun error =>
       throw (Error ("Memory maintenance failed: " ++ String_of_thrown error)%string)).

(** [MemoryService.deleteMemory] *)
Definition MemoryService_deleteMemory (id : Z) : M (N := N) bool :=
  MemoryService_ensureInitialized ;;;
  try_catch
    (VectorStore_deleteMemory id)
    (fun error =>
       throw (Error ("Failed to delete memory: " ++ String_of_thrown error)%string)).

End Classes.

(** ** Vocabulary of the statements *)

Section Vocabulary.
Context {N : NumOps}.

(** [VectorStore.ensureInitialized] returns: the store is open already, or
    sql.js loads and the file, if there is one, is a database. *)
Definition store_opens (env : Env (N := N)) (s : State (N := N)) : bool :=
  match vs_initialized s, vs_db s with
  | true, Some _ => true
  | _, _ =>
      match initSqlJs_error env, disk s with
      | Some _, _ => false
      | None, Some Garbage => false
      | None, _ => true
      end
  end.

(** The database the store works on once it is open. *)
Definition open_database (s : State (N := N)) : Database :=
  match vs_initialized s, vs_db s with
  | true, Some db => db
  | _, _ =>
      match disk s with
      | Some (SqliteImage image) => image
      | _ => empty_database
      end
  end.

(** The requests [ensureInitialized] makes. *)
Definition open_calls (s : State (N := N)) : list Call :=
  match vs_initialized s, vs_db s with
  | true, Some _ => []
  | _, _ => [Call_initSqlJs; Call_readFile]
  end.

(** The state after a successful [ensureInitialized]. *)
Definition opened (s : State (N := N)) : State :=
  {| vs_db := Some (open_database s); vs_initialized := true;
     ms_initialized := ms_initialized s; disk := disk s;
     calls := calls s ++ open_calls s |}.

(** The row [storeMemory] inserts for an entry. *)
Definition row_of_entry (rowid : Z) (e : MemoryEntry (N := N)) : Row :=
  {| col_id := rowid;
     col_timestamp := timestamp e;
     col_user_input := userInput e;
     col_bot_response := botResponse e;
     col_embedding := map JSON_number (embedding e);
     col_channel_id := or_null (channelId e);
     col_user_id := or_null (userId e);
     col_user_name := or_null (userName e);
     col_metadata := JSON_roundtrip <$> metadata e |}.

(** The order of search results: similarity descending, and the newer
    record first among equal similarities. *)
Definition ranked (r1 r2 : MemorySearchResult (N := N)) : Prop :=
  (similarity r1 >=? similarity r2)%js = true /\
  ((similarity r1 === similarity r2)%js = true ->
   timestamp (entry r2) <= timestamp (entry r1)).

(** A filter that selects the entry: each argument that is given is the
    entry's own scope value. *)
Definition selects (channelId' userId' : option string)
    (e : MemoryEntry (N := N)) : bool :=
  condition channelId' (or_null (channelId e))
  && condition userId' (or_null (userId e)).

(** The text [generateEmbedding] submits for a text. *)
Definition truncated (text : string) : string :=
  if (8000 <? Z.of_nat (String.length text))%Z
  then (String.substring 0 (Z.to_nat 8000) text ++ "...")%string
  else text.

(** The state [storeMemory] leaves for an entry. *)
Definition stored (env : Env (N := N)) (s : State (N := N))
    (e : MemoryEntry (N := N)) : State (N := N) :=
  let db := open_database s in
  let rowid := next_rowid db in
  let db' := {| memories := memories db ++ [row_of_entry rowid e];
                sqlite_sequence := rowid |} in
  {| vs_db := Some db'; vs_initialized := true;
     ms_initialized := ms_initialized s;
     disk := if writeFile_succeeds env then Some (SqliteImage db')
             else writeFile_failure env db' (disk s);
     calls := calls s ++ open_calls s ++ [Call_writeFile] |}.

(** The state after a successful [initialize]. *)
Definition initialized (s : State (N := N)) : State (N := N) :=
  {| vs_db := Some (open_database s); vs_initialized := true;
     ms_initialized := true; disk := disk s;
     calls := calls s ++ GET_models :: open_calls s |}.

(** The state after [if (!this.initialized) await this.initialize()] went
    through. *)
Definition started (s : State (N := N)) : State (N := N) :=
  if ms_initialized s then s else initialized s.

(** [initialize], when needed, goes through. *)
Definition starts (env : Env (N := N)) (s : State (N := N)) : bool :=
  ms_initialized s || (backend_reachable env && store_opens env s).

Variable appConfig : Config (N := N).
Variable ORDER_BY_timestamp_DESC : list (Row (N := N)) -> list (Row (N := N)).

(** The result the loop of [searchSimilar] pushes for a row of the query's
    dimension, if any. *)
Definition score (queryEmbedding : list N) (row : Row (N := N))
    : option (MemorySearchResult (N := N)) :=
  match calculateCosineSimilarity queryEmbedding (col_embedding row) with
  | Normal similarity =>
      if (similarity >=? similarityThreshold appConfig)%js
      then Some {| entry := entry_of_row row; similarity := similarity |}
      else None
  | Throw _ => None
  end.

(** What the [try] block of [searchSimilar] computes from the selected
    rows. *)
Definition search_rows (queryEmbedding : list N) (limit : option Z)
    (rows : list (Row (N := N))) : list (MemorySearchResult (N := N)) :=
  match scan appConfig queryEmbedding rows [] with
  | Normal results =>
      Array_slice0
        (Array_sort (fun a b => similarity b - similarity a)%js results)
        (limit_or_default appConfig limit)
  | Throw _ => []
  end.

(** The rows a query selects, in the order the engine gives them. *)
Definition selected (channelId userId : option string) (s : State (N := N))
    : list (Row (N := N)) :=
  ORDER_BY_timestamp_DESC
    (List.filter (WHERE channelId userId) (memories (open_database s))).

(** What [searchMemories] returns. *)
Definition searchMemories_results (env : Env (N := N)) (s : State (N := N))
    (query : string) (channelId userId : option string) (limit : option Z)
    : list (MemorySearchResult (N := N)) :=
  if starts env s && store_opens env s then
    match backend_embedding env (truncated query) with
    | Vector queryEmbedding =>
        search_rows queryEmbedding
          (Some (limit_or_default appConfig limit))
          (selected channelId userId s)
    | Failure _ => []
    end
  else [].

End Vocabulary.

(** ** The cosine formula in the code's arithmetic *)

Section CosineVocabulary.
Context {N : NumOps}.



End CosineVocabulary.

(** ** Reading binary64 through its specification

    [Prim2SF] maps a double to its [spec_float]; the definitions below are
    used to relate [SFcompare] and [SFsub] to integers. *)

Section SpecFloatVocabulary.
Local Open Scope Z_scope.

(** The value of a finite number as an integer multiple of [2 ^ ez]. *)
Definition aligned (s : bool) (m : positive) (e ez : Z) : Z :=
  cond_Zopp s (Zpos (fst (shl_align m e ez))).

(** Every [spec_float] but the NaN. *)
Definition is_number (x : spec_float) : bool :=
  match x with
  | S754_nan => false
  | _ => true
  end.

(** A number's place in the order: its class, then exponent and mantissa
    (negated for negative numbers). *)
Definition order_key (x : spec_float) : Z * Z * Z :=
  match x with
  | S754_infinity true => (-2, 0, 0)
  | S754_finite true m e => (-1, - e, Zneg m)
  | S754_zero _ => (0, 0, 0)
  | S754_finite false m e => (1, e, Zpos m)
  | S754_infinity false => (2, 0, 0)
  | S754_nan => (0, 0, 0)
  end.

Definition lex_compare (k1 k2 : Z * Z * Z) : comparison :=
  let '(a1, b1, c1) := k1 in
  let '(a2, b2, c2) := k2 in
  match a1 ?= a2 with
  | Eq => match b1 ?= b2 with
          | Eq => c1 ?= c2
          | r => r
          end
  | r => r
  end.

Definition lex_lt (k1 k2 : Z * Z * Z) : Prop :=
  let '(a1, b1, c1) := k1 in
  let '(a2, b2, c2) := k2 in
  a1 < a2 \/ (a1 = a2 /\ (b1 < b2 \/ (b1 = b2 /\ c1 < c2))).


End SpecFloatVocabulary.

(** ** Processes, identifiers and batches *)

Section Lifecycle.
Context {N : NumOps}.

(** The objects as their constructors leave them ([VectorStore.db] unset,
    both [initialized] fields false), in a new process that finds the file
    system as [s] left it. *)
Definition restart (s : State (N := N)) : State (N := N) :=
  {| vs_db := None; vs_initialized := false; ms_initialized := false;
     disk := disk s; calls := [] |}.

(** No two rows of the table share an [id]. *)
Definition ids_unique (db : Database (N := N)) : Prop :=
  NoDup (map col_id (memories db)).

(** The rows of the in-memory database, none when [db] is unset. *)
Definition rows_in_memory (s : State (N := N)) : list (Row (N := N)) :=
  match vs_db s with
  | Some db => memories db
  | None => []
  end.


End Lifecycle.

Section Deletion.
Context {N : NumOps}.

(** The rows that [DELETE FROM memories WHERE id = ?] keeps. *)
Definition without_id (id : Z) (rows : list (Row (N := N))) : list (Row (N := N)) :=
  List.filter (fun r => negb (col_id r =? id)%Z) rows.

(** Whether some row has the id. *)
Definition has_id (id : Z) (rows : list (Row (N := N))) : bool :=
  existsb (fun r => (col_id r =? id)%Z) rows.

(** The state [VectorStore.deleteMemory] leaves when the store opens: the
    file is written only when a row was deleted. *)
Definition deleted (env : Env (N := N)) (s : State (N := N)) (id : Z)
    : State (N := N) :=
  let db := open_database s in
  let db' := {| memories := without_id id (memories db);
                sqlite_sequence := sqlite_sequence db |} in
  let found := has_id id (memories db) in
  {| vs_db := Some db'; vs_initialized := true;
     ms_initialized := ms_initialized s;
     disk := if found
             then if writeFile_succeeds env then Some (SqliteImage db')
                  else writeFile_failure env db' (disk s)
             else disk s;
     calls := calls s ++ open_calls s
              ++ (if found then [Call_writeFile] else []) |}.

End Deletion.

(** ** Errors of the HTTP client *)

(** What axios rejects a request with, by the fields the services read:
    [code], [message], and the [status] of [response], when there is one. *)
Record AxiosError : Type := {
  axios_code : option string;
  axios_message : string;
  axios_response_status : option Z
}.

(** A caught value: an axios error ([axios.isAxiosError]), or anything else
    that was thrown. *)
Inductive unknown : Type :=
  | IsAxiosError (axiosError : AxiosError)
  | NotAxiosError (e : thrown).

(** [handleError], of [EmbeddingsService] and of [LLMService]: the two
    build the same [code] and differ in the wording of [message] only.
    [status.toString()] is the decimal numeral of the status. *)
Definition handleError (error : unknown) : thrown :=
  match error with
  | IsAxiosError axiosError =>
      if bool_decide (axios_code axiosError = Some "ECONNREFUSED") then
        ApiError "CONNECTION_REFUSED"
      else if bool_decide (axios_code axiosError = Some "ECONNABORTED") then
        ApiError "TIMEOUT"
      else
        match axios_response_status axiosError with
        | Some status => ApiError (pretty status)
        | None => ApiError "UNKNOWN_ERROR"
        end
  | NotAxiosError _ => ApiError "UNKNOWN_ERROR"
  end.

Section Batch.
Context {N : NumOps}.



End Batch.

(** ** The chat service

    [LLMService] posts to the completion endpoint of its provider through an
    axios client and uses a [MemoryService] of its own. *)

Inductive LLMProvider : Type := ollama | docker_model_runner.

Definition String_of_LLMProvider (provider : LLMProvider) : string :=
  match provider with
  | ollama => "ollama"
  | docker_model_runner => "docker-model-runner"
  end.

Inductive Role : Type := system | user | assistant.

Record ChatMessage : Type := { role : Role; content : string }.

(** The fields of [appConfig] that [LLMService] reads. *)
Record ChatConfig : Type := {
  llmProvider : LLMProvider;
  llmModel : string;
  systemPrompt : string
}.

(** A request of the client.  The body of a completion request is given by
    its [model] and [messages]: the other fields are constants of the
    endpoint ([max_tokens: 1000, temperature: 0.7] for Docker Model Runner,
    [stream: false, options: { temperature: 0.7 }] for Ollama). *)
Inductive Request : Type :=
  | GET (url : string)
  | POST (url : string) (model : string) (messages : list ChatMessage).

(** What the promise of a request settles with: a response, of which the
    code reads the [content] of the message only (of the first choice, for
    Docker Model Runner), absent when a link of the optional chain is; or an
    axios error. *)
Inductive HttpResult : Type :=
  | Responded (content : option string)
  | Failed (axiosError : AxiosError).

(** Interpolation of a caught value in a template literal.  An axios error
    is an [Error] named [AxiosError]. *)
Definition String_of_unknown (error : unknown) : string :=
  match error with
  | IsAxiosError axiosError =>
      if String.eqb (axios_message axiosError) "" then "AxiosError"
      else "AxiosError: " ++ axios_message axiosError
  | NotAxiosError e => String_of_thrown e
  end.

Section Promises.
Context {N : NumOps}.

(** The collaborators of [LLMService]: those of its memory service, and the
    LLM backend, which answers a request given the requests made before. *)
Record ChatEnv : Type := {
  memory_env : Env (N := N);
  client : list Request -> Request -> HttpResult
}.

(** The state of [LLMService]: that of its memory service, the requests of
    its client so far, oldest first, and the promises it started and did not
    await. *)
Record ChatState : Type := {
  memory : State (N := N);
  requests : list Request;
  detached : list (M (N := N) unit)
}.

Definition set_memory (m : State (N := N)) (s : ChatState) : ChatState :=
  {| memory := m; requests := requests s; detached := detached s |}.
Definition record_request (r : Request) (s : ChatState) : ChatState :=
  {| memory := memory s; requests := requests s ++ [r];
     detached := detached s |}.
Definition record_detached (promise : M (N := N) unit) (s : ChatState)
    : ChatState :=
  {| memory := memory s; requests := requests s;
     detached := detached s ++ [promise] |}.

Inductive settled (A : Type) : Type :=
  | Fulfilled (value : A)
  | RejectedWith (reason : unknown).
Arguments Fulfilled {A} value.
Arguments RejectedWith {A} reason.

(** An [async] method of [LLMService]. *)
Definition Promise (A : Type) : Type := ChatEnv -> ChatState -> settled A * ChatState.

Definition resolve {A} (a : A) : Promise A := fun _ s => (Fulfilled a, s).
Definition reject {A} (reason : unknown) : Promise A :=
  fun _ s => (RejectedWith reason, s).
Definition and_then {A B} (m : Promise A) (k : A -> Promise B) : Promise B :=
  fun env s =>
    match m env s with
    | (Fulfilled a, s') => k a env s'
    | (RejectedWith reason, s') => (RejectedWith reason, s')
    end.
Definition catch {A} (body : Promise A) (handler : unknown -> Promise A) : Promise A :=
  fun env s =>
    match body env s with
    | (Fulfilled a, s') => (Fulfilled a, s')
    | (RejectedWith reason, s') => handler reason env s'
    end.

(** [await] of a method of the memory service: what it throws is no axios
    error. *)
Definition await {A} (m : M (N := N) A) : Promise A :=
  fun env s =>
    match m (memory_env env) (memory s) with
    | (Normal a, memory') => (Fulfilled a, set_memory memory' s)
    | (Throw e, memory') => (RejectedWith (NotAxiosError e), set_memory memory' s)
    end.

(** [await this.client.get(...)] and [await this.client.post(...)]. *)
Definition request (r : Request) : Promise (option string) :=
  fun env s =>
    match client env (requests s) r with
    | Responded content => (Fulfilled content, record_request r s)
    | Failed axiosError =>
        (RejectedWith (IsAxiosError axiosError), record_request r s)
    end.

(** A promise that is started and not awaited.  The model runs it as a
    whole after the method that started it has returned; in the code its
    first request is sent before that, and the rest follows. *)
Definition detach (promise : M (N := N) unit) : Promise unit :=
  fun _ s => (Fulfilled tt, record_detached promise s).

(** The promises that were not awaited run to their end, in the order they
    were started. *)
Definition settle (env : ChatEnv) (s : ChatState) : ChatState :=
  {| memory := fold_left (fun m promise => snd (promise (memory_env env) m))
                         (detached s) (memory s);
     requests := requests s;
     detached := [] |}.

End Promises.

Arguments Fulfilled {A} value.
Arguments RejectedWith {A} reason.

Notation "x <~ m ;; k" := (and_then m (fun x => k))
  (at level 100, m at next level, right associativity).
Notation "m ~;; k" := (and_then m (fun _ => k))
  (at level 100, right associativity).

Section Chat.
Context {N : NumOps}.
Variable appConfig : Config (N := N).
Variable chatConfig : ChatConfig.
Variable ORDER_BY_timestamp_DESC : list (Row (N := N)) -> list (Row (N := N)).
Variable Number_toFixed : N -> nat -> string.
Variable ISO_8601 : Z -> string.

(** [LLMService.testConnection] *)
Definition LLMService_testConnection : Promise (N := N) unit :=
  catch
    ((match llmProvider chatConfig with
      | docker_model_runner => request (GET "/engines/llama.cpp/v1/models")
      | ollama => request (GET "/api/tags")
      end) ~;;
     catch (await (MemoryService_initialize appConfig))
           (fun error => resolve tt))
    (fun error =>
       reject (NotAxiosError
                 (Error ("Failed to connect to "
                           ++ String_of_LLMProvider (llmProvider chatConfig)
                           ++ ": " ++ String_of_unknown error)%string))).

(** [LLMService.chatWithDockerModelRunner] *)
Definition LLMService_chatWithDockerModelRunner (messages : list ChatMessage)
    : Promise (N := N) string :=
  content <~ request (POST "/engines/llama.cpp/v1/chat/completions"
                           (llmModel chatConfig) messages) ;;
  match or_null content with
  | None =>
      reject (NotAxiosError
                (Error "Invalid response format from Docker Model Runner"))
  | Some content => resolve content
  end.

(** [LLMService.chatWithOllama] *)
Definition LLMService_chatWithOllama (messages : list ChatMessage)
    : Promise (N := N) string :=
  content <~ request (POST "/api/chat" (llmModel chatConfig) messages) ;;
  match or_null content with
  | None => reject (NotAxiosError (Error "Invalid response format from Ollama"))
  | Some content => resolve content
  end.

(** [LLMService.executeThinkingPhase] *)
Definition LLMService_executeThinkingPhase (messages : list ChatMessage)
    (phaseName : string) : Promise (N := N) string :=
  response <~ (match llmProvider chatConfig with
               | docker_model_runner =>
                   LLMService_chatWithDockerModelRunner messages
               | ollama => LLMService_chatWithOllama messages
               end) ;;
  resolve response.

Definition planningPrompt (userMessage : string) : string :=
  (systemPrompt chatConfig ++ LF ++
   LF ++
   "STRUCTURED THINKING - PHASE 1: PLANNING" ++ LF ++
   LF ++
   "Your task is to plan how to approach the following question/request. Think about:" ++ LF ++
   "- What is the user actually asking for?" ++ LF ++
   "- What information or analysis do I need to provide?" ++ LF ++
   "- What approach should I take to answer this effectively?" ++ LF ++
   "- Are there any considerations or edge cases I should think about?" ++ LF ++
   LF ++
   "Provide a clear plan for how you will approach this question. Be thorough but concise." ++ LF ++
   LF ++
   "User's question: " ++ userMessage)%string.

Definition reasoningPrompt (userMessage planningResponse : string) : string :=
  (systemPrompt chatConfig ++ LF ++
   LF ++
   "STRUCTURED THINKING - PHASE 2: REASONING" ++ LF ++
   LF ++
   "Based on your planning, now work through the logic and analysis needed to answer the question." ++ LF ++
   LF ++
   "Your planning was:" ++ LF ++
   planningResponse ++ LF ++
   LF ++
   "Now execute that plan. Think through:" ++ LF ++
   "- Step-by-step analysis or solution" ++ LF ++
   "- Consider different perspectives or approaches" ++ LF ++
   "- Work through any logic or calculations" ++ LF ++
   "- Identify key insights or conclusions" ++ LF ++
   LF ++
   "User's question: " ++ userMessage)%string.

Definition summaryPrompt (userMessage planningResponse reasoningResponse : string) : string :=
  (systemPrompt chatConfig ++ LF ++
   LF ++
   "STRUCTURED THINKING - PHASE 3: SUMMARY" ++ LF ++
   LF ++
   "Based on your planning and reasoning, provide the final response to the user." ++ LF ++
   LF ++
   "Your planning was:" ++ LF ++
   planningResponse ++ LF ++
   LF ++
   "Your reasoning was:" ++ LF ++
   reasoningResponse ++ LF ++
   LF ++
   "Now provide a clear, concise, and helpful final response that directly addresses the user's question. This is what will be sent to the user, so make it:" ++ LF ++
   "- Clear and easy to understand" ++ LF ++
   "- Complete but not overly verbose" ++ LF ++
   "- Actionable when appropriate" ++ LF ++
   "- In your characteristic personality/tone" ++ LF ++
   LF ++
   "User's question: " ++ userMessage)%string.

(** [LLMService.processWithStructuredThinking] *)
Definition LLMService_processWithStructuredThinking (userMessage : string)
    (conversationHistory : list ChatMessage) : Promise (N := N) string :=
  let planningMessages :=
    {| role := system; content := planningPrompt userMessage |}
      :: conversationHistory in
  planningResponse <~
    LLMService_executeThinkingPhase planningMessages "Planning" ;;
  let reasoningMessages :=
    {| role := system;
       content := reasoningPrompt userMessage planningResponse |}
      :: conversationHistory in
  reasoningResponse <~
    LLMService_executeThinkingPhase reasoningMessages "Reasoning" ;;
  let summaryMessages :=
    {| role := system;
       content := summaryPrompt userMessage planningResponse
                                reasoningResponse |}
      :: conversationHistory in
  finalResponse <~ LLMService_executeThinkingPhase summaryMessages "Summary" ;;
  resolve finalResponse.

(** The object literal [{ userName }] for an optional [userName]. *)
Definition metadata_of_userName (userName : option string)
    : gmap string jsval :=
  {[ "userName" := match userName with
                   | Some name => JString name
                   | None => JUndefined
                   end ]}.

(** The promise [storeMemoryAsync] starts: [storeMemory], then a log line
    for the entry or for the error. *)
Definition storeMemory_promise (userInput botResponse : string)
    (channelId userId userName : option string) : M (N := N) unit :=
  try_catch
    (entry <- MemoryService_storeMemory appConfig userInput botResponse
                channelId userId (Some (metadata_of_userName userName)) ;;
     ret tt)
    (fun error => ret tt).

(** [LLMService.storeMemoryAsync] *)
Definition LLMService_storeMemoryAsync (userInput botResponse : string)
    (channelId userId userName : option string) : Promise (N := N) unit :=
  detach (storeMemory_promise userInput botResponse channelId userId userName).

(** [LLMService.chat] *)
Definition LLMService_chat (userMessage : string)
    (conversationHistory : list ChatMessage)
    (channelId userId userName : option string) : Promise (N := N) string :=
  catch
    (enhancedUserMessage <~
       catch (await (MemoryService_getEnhancedContext appConfig
                       ORDER_BY_timestamp_DESC Number_toFixed ISO_8601
                       userMessage channelId userId userName))
             (fun error => resolve userMessage) ;;
     response <~ LLMService_processWithStructuredThinking
                   enhancedUserMessage conversationHistory ;;
     LLMService_storeMemoryAsync userMessage response channelId userId
                                 userName ~;;
     resolve response)
    (fun error => reject (NotAxiosError (handleError error))).

End Chat.

Section ChatVocabulary.
Context {N : NumOps}.
Variable appConfig : Config (N := N).
Variable chatConfig : ChatConfig.
Variable ORDER_BY_timestamp_DESC : list (Row (N := N)) -> list (Row (N := N)).
Variable Number_toFixed : N -> nat -> string.
Variable ISO_8601 : Z -> string.

(** The request of a thinking phase. *)
Definition completion_request (messages : list ChatMessage) : Request :=
  match llmProvider chatConfig with
  | docker_model_runner =>
      POST "/engines/llama.cpp/v1/chat/completions" (llmModel chatConfig) messages
  | ollama => POST "/api/chat" (llmModel chatConfig) messages
  end.

(** The request of [testConnection]. *)
Definition models_request : Request :=
  match llmProvider chatConfig with
  | docker_model_runner => GET "/engines/llama.cpp/v1/models"
  | ollama => GET "/api/tags"
  end.

(** The message [chat] thinks about: what [getEnhancedContext] returns, and
    the user's message if it throws. *)
Definition enhanced_message (env : ChatEnv (N := N)) (s : ChatState (N := N))
    (userMessage : string) (channelId userId userName : option string)
    : string :=
  match fst (MemoryService_getEnhancedContext appConfig
               ORDER_BY_timestamp_DESC Number_toFixed ISO_8601
               userMessage channelId userId userName
               (memory_env env) (memory s)) with
  | Normal enhanced => enhanced
  | Throw _ => userMessage
  end.

(** The memory service after the context lookup of [chat]. *)
Definition memory_after_lookup (env : ChatEnv (N := N))
    (s : ChatState (N := N)) (userMessage : string)
    (channelId userId userName : option string) : State (N := N) :=
  snd (MemoryService_getEnhancedContext appConfig
         ORDER_BY_timestamp_DESC Number_toFixed ISO_8601
         userMessage channelId userId userName
         (memory_env env) (memory s)).

(** The three requests of [processWithStructuredThinking], for the answers
    of the first two. *)
Definition planning_request (userMessage : string)
    (conversationHistory : list ChatMessage) : Request :=
  completion_request
    ({| role := system; content := planningPrompt chatConfig userMessage |}
       :: conversationHistory).
Definition reasoning_request (userMessage : string)
    (conversationHistory : list ChatMessage) (planningResponse : string)
    : Request :=
  completion_request
    ({| role := system;
        content := reasoningPrompt chatConfig userMessage planningResponse |}
       :: conversationHistory).
Definition summary_request (userMessage : string)
    (conversationHistory : list ChatMessage)
    (planningResponse reasoningResponse : string) : Request :=
  completion_request
    ({| role := system;
        content := summaryPrompt chatConfig userMessage planningResponse
                                 reasoningResponse |}
       :: conversationHistory).

End ChatVocabulary.

(** ** A concrete deployment

    The values below are used to run the model: the default configuration of
    [loadConfig] (threshold 0.7, five results), a backend that embeds every
    text as the first unit vector, and a few stores. *)

Definition unit_x : list binary64 := [1%float; 0%float].
Definition unit_y : list binary64 := [0%float; 1%float].
Definition unit_x_3d : list binary64 := [1%float; 0%float; 0%float].

Definition one_two : list binary64 := [1%float; 2%float].




Definition config64 : Config (N := binary64) :=
  {| embeddingsProvider := "ollama";
     embeddingsModel := "nomic-embed-text";
     databasePath := "./data/memory.sqlite";
     maxMemoryResults := 5;
     similarityThreshold := (0x1.6666666666666p-1%float : binary64) |}.

Definition healthy : Env (N := binary64) :=
  {| backend_reachable := true;
     connection_error := "";
     backend_embedding := fun _ => Vector unit_x;
     initSqlJs_error := None;
     writeFile_succeeds := true;
     writeFile_failure := fun _ previous => previous;
     Date_now := 1700000000000 |}.

(** The same deployment on a disk that refuses writes: the file cannot be
    opened for writing and keeps what it held. *)
Definition write_protected : Env (N := binary64) :=
  {| backend_reachable := true;
     connection_error := "";
     backend_embedding := fun _ => Vector unit_x;
     initSqlJs_error := None;
     writeFile_succeeds := false;
     writeFile_failure := fun _ previous => previous;
     Date_now := 1700000000000 |}.

(** The same deployment on a full disk: the file is opened, which truncates
    it, and the write stops short of one page; what is left is not a
    database. *)
Definition disk_full : Env (N := binary64) :=
  {| backend_reachable := true;
     connection_error := "";
     backend_embedding := fun _ => Vector unit_x;
     initSqlJs_error := None;
     writeFile_succeeds := false;
     writeFile_failure := fun _ _ => Some Garbage;
     Date_now := 1700000000000 |}.

(** The same deployment with an embeddings backend that answers the
    connection test and times out on every embedding request. *)
Definition embeddings_time_out : Env (N := binary64) :=
  {| backend_reachable := true;
     connection_error := "";
     backend_embedding := fun _ => Failure "TIMEOUT";
     initSqlJs_error := None;
     writeFile_succeeds := true;
     writeFile_failure := fun _ previous => previous;
     Date_now := 1700000000000 |}.

(** A process that has not touched the store, and no database file. *)
Definition fresh : State (N := binary64) :=
  {| vs_db := None; vs_initialized := false; ms_initialized := false;
     disk := None; calls := [] |}.

Definition deploy_script : Row (N := binary64) :=
  {| col_id := 1; col_timestamp := 1000;
     col_user_input := "The deploy script lives in /ops/deploy.sh";
     col_bot_response := "Noted.";
     col_embedding := unit_x;
     col_channel_id := Some "C1"; col_user_id := Some "U1";
     col_user_name := Some "Ada"; col_metadata := None |}.

Definition release_day : Row (N := binary64) :=
  {| col_id := 2; col_timestamp := 2000;
     col_user_input := "Releases go out on Tuesday";
     col_bot_response := "Noted.";
     col_embedding := unit_x;
     col_channel_id := Some "C1"; col_user_id := Some "U2";
     col_user_name := None; col_metadata := None |}.

(** A record written with another embedding model: three dimensions. *)
Definition other_model : Row (N := binary64) :=
  {| col_id := 3; col_timestamp := 3000;
     col_user_input := "Lunch is at noon";
     col_bot_response := "Noted.";
     col_embedding := unit_x_3d;
     col_channel_id := Some "C2"; col_user_id := Some "U1";
     col_user_name := None; col_metadata := None |}.

(** An open store holding the given rows. *)
Definition open_store (rows : list (Row (N := binary64))) : State (N := binary64) :=
  {| vs_db := Some {| memories := rows;
                      sqlite_sequence := Z.of_nat (length rows) |};
     vs_initialized := true; ms_initialized := true;
     disk := None; calls := [] |}.

Definition greeting : MemoryEntry (N := binary64) :=
  {| id := None; timestamp := 4000;
     userInput := "hello"; botResponse := "hi";
     embedding := unit_y;
     channelId := Some "C1"; userId := Some "U1"; userName := Some "Ada";
     metadata := Some {[ "source" := JString "slack" ]} |}.

(** The same entry with an empty channel id. *)
Definition greeting_blank_channel : MemoryEntry (N := binary64) :=
  {| id := None; timestamp := 4000;
     userInput := "hello"; botResponse := "hi";
     embedding := unit_y;
     channelId := Some ""; userId := Some "U1"; userName := Some "Ada";
     metadata := None |}.

(** The chat service of the deployment: Ollama with its default model, a
    backend that answers the three phases in turn, and one that is down. *)

Definition aidan : ChatConfig :=
  {| llmProvider := ollama;
     llmModel := "llama2";
     systemPrompt := "You are Aidan." |}.

(** The examples below format no memory (their store is empty), so the two
    renderings are never called. *)
Definition unused_toFixed : binary64 -> nat -> string := fun _ _ => "".
Definition unused_ISO_8601 : Z -> string := fun _ => "".

Definition answering : ChatEnv (N := binary64) :=
  {| memory_env := healthy;
     client := fun earlier _ =>
       match earlier with
       | [] => Responded (Some "Greet the user.")
       | [_] => Responded (Some "A greeting is due.")
       | _ => Responded (Some "Hi.")
       end |}.

(** A backend that follows the instruction to stay silent: its third answer
    is the empty text. *)
Definition silent : ChatEnv (N := binary64) :=
  {| memory_env := healthy;
     client := fun earlier _ =>
       match earlier with
       | [] => Responded (Some "The user wants this remembered.")
       | [_] => Responded (Some "No reply is due.")
       | _ => Responded (Some "")
       end |}.

Definition llm_down : ChatEnv (N := binary64) :=
  {| memory_env := healthy;
     client := fun _ _ =>
       Failed {| axios_code := Some "ECONNREFUSED";
                 axios_message := "connect ECONNREFUSED 127.0.0.1:11434";
                 axios_response_status := None |} |}.

Definition idle : ChatState (N := binary64) :=
  {| memory := fresh; requests := []; detached := [] |}.

(** ** IEEE binary64 satisfies the order laws *)

Section SpecFloatFacts.
Local Open Scope Z_scope.
Variables prec emax : Z.
Hypothesis prec_pos : 0 < prec.

Local Notation emin := (SpecFloat.emin prec emax).
Local Notation fexp := (SpecFloat.fexp prec emax).

Lemma digits2_pos_bounds (p : positive) :
  2 ^ (Zpos (digits2_pos p) - 1) <= Zpos p < 2 ^ Zpos (digits2_pos p).
Proof.
  induction p as [p IH|p IH|]; cbn [digits2_pos].
  - rewrite Pos2Z.inj_succ, Z.pow_succ_r by lia.
    replace (Z.succ (Zpos (digits2_pos p)) - 1) with (Z.succ (Zpos (digits2_pos p) - 1)) by lia.
    rewrite Z.pow_succ_r by lia. lia.
  - rewrite Pos2Z.inj_succ, Z.pow_succ_r by lia.
    replace (Z.succ (Zpos (digits2_pos p)) - 1) with (Z.succ (Zpos (digits2_pos p) - 1)) by lia.
    rewrite Z.pow_succ_r by lia. lia.
  - cbn. lia.
Qed.

Lemma shr_1_half (mrs : shr_record) :
  0 <= shr_m mrs -> shr_m (shr_1 mrs) = shr_m mrs / 2.
Proof.
  destruct mrs as [m r s]. cbn [shr_m shr_1]. intros Hm.
  destruct m as [|[p|p|]|p]; cbn [shr_m]; try lia;
    first [ apply (Z.div_unique _ _ _ 0); lia
          | apply (Z.div_unique _ _ _ 1); lia ].
Qed.

Lemma pow2_xO (p : positive) : 2 ^ Zpos p~0 = 2 ^ Zpos p * 2 ^ Zpos p.
Proof. rewrite Pos2Z.inj_xO, <- Z.pow_add_r by lia. f_equal. lia. Qed.

Lemma pow2_xI (p : positive) : 2 ^ Zpos p~1 = 2 * (2 ^ Zpos p * 2 ^ Zpos p).
Proof.
  rewrite Pos2Z.inj_xI, Z.add_comm, Z.pow_add_r, Z.pow_1_r by lia.
  f_equal. rewrite <- Z.pow_add_r by lia. f_equal. lia.
Qed.

Lemma iter_shr_1 (p : positive) (mrs : shr_record) :
  0 <= shr_m mrs ->
  shr_m (SpecFloat.iter_pos shr_1 p mrs) = shr_m mrs / 2 ^ Zpos p.
Proof.
  revert mrs. induction p as [p IH|p IH|]; intros mrs Hm; cbn [SpecFloat.iter_pos].
  - assert (Hp : 0 < 2 ^ Zpos p) by (apply Z.pow_pos_nonneg; lia).
    assert (H1 : 0 <= shr_m (shr_1 mrs)).
    { rewrite shr_1_half by exact Hm. apply Z.div_pos; lia. }
    assert (H2 : 0 <= shr_m (SpecFloat.iter_pos shr_1 p (shr_1 mrs))).
    { rewrite IH by exact H1. apply Z.div_pos; lia. }
    rewrite IH by exact H2. rewrite IH by exact H1. rewrite shr_1_half by exact Hm.
    rewrite !Z.div_div by lia. now rewrite pow2_xI.
  - assert (Hp : 0 < 2 ^ Zpos p) by (apply Z.pow_pos_nonneg; lia).
    assert (H2 : 0 <= shr_m (SpecFloat.iter_pos shr_1 p mrs)).
    { rewrite IH by exact Hm. apply Z.div_pos; lia. }
    rewrite IH by exact H2. rewrite IH by exact Hm.
    rewrite !Z.div_div by lia. now rewrite pow2_xO.
  - rewrite shr_1_half by exact Hm. reflexivity.
Qed.

Lemma canonical_bounds (m : positive) (e : Z) :
  bounded prec emax m e = true ->
  emin <= e /\ Zpos (digits2_pos m) <= prec /\
  (emin < e -> Zpos (digits2_pos m) = prec).
Proof.
  unfold bounded, canonical_mantissa, SpecFloat.fexp.
  intros [Hc _]%andb_true_iff. apply Z.eqb_eq in Hc. lia.
Qed.

Lemma shr_record_of_loc_m (m : Z) (l : location) :
  shr_m (shr_record_of_loc m l) = m.
Proof. destruct l as [|[]]; reflexivity. Qed.

(** Shifting to the format's exponent keeps a positive mantissa positive. *)
Lemma shr_fexp_positive (m e : Z) (l : location) :
  0 < m -> emin <= e ->
  0 < shr_m (fst (shr_fexp prec emax m e l)) /\
  emin <= snd (shr_fexp prec emax m e l).
Proof.
  intros Hm He. unfold shr_fexp, shr.
  destruct m as [|p|p]; try lia. cbn [Zdigits2].
  pose proof (digits2_pos_bounds p) as [Hlo Hhi].
  set (d := Zpos (digits2_pos p)) in *.
  destruct (fexp (d + e) - e) as [|n|n] eqn:Hn; cbn [fst snd];
    rewrite ?shr_record_of_loc_m; try (split; lia).
  unfold SpecFloat.fexp in Hn.
  assert (Hnd : Zpos n = d - prec) by lia.
  rewrite iter_shr_1 by (rewrite shr_record_of_loc_m; lia).
  rewrite shr_record_of_loc_m. split; [|lia].
  apply Z.div_str_pos. split; [apply Z.pow_pos_nonneg; lia|].
  etransitivity; [|exact Hlo]. apply Z.pow_le_mono_r; lia.
Qed.

Lemma round_nearest_even_positive (m : Z) (l : location) :
  0 < m -> 0 < round_nearest_even m l.
Proof.
  intros Hm. destruct l as [|[]]; cbn [round_nearest_even]; try lia.
  destruct (Z.even m); lia.
Qed.

(** A positive mantissa at an exponent of the format rounds to a finite
    number or an infinity of the given sign. *)
Lemma binary_round_aux_sign (sx : bool) (m e : Z) (l : location) :
  0 < m -> emin <= e ->
  (exists m' e', binary_round_aux prec emax sx m e l = S754_finite sx m' e') \/
  binary_round_aux prec emax sx m e l = S754_infinity sx.
Proof.
  intros Hm He. unfold binary_round_aux.
  pose proof (shr_fexp_positive m e l Hm He) as [H1 He1].
  destruct (shr_fexp prec emax m e l) as [mrs' e'] eqn:Hs1. cbn [fst snd] in *.
  pose proof (round_nearest_even_positive _ (loc_of_shr_record mrs') H1) as H2.
  pose proof (shr_fexp_positive _ e' loc_Exact H2 He1) as [H3 _].
  destruct (shr_fexp prec emax _ e' loc_Exact) as [mrs'' e''] eqn:Hs2.
  cbn [fst] in H3.
  destruct (shr_m mrs'') as [|q|q]; try lia.
  destruct (e'' <=? emax - prec)%Z; eauto.
Qed.

Lemma binary_round_sign (sx : bool) (m : positive) (e : Z) :
  emin <= e ->
  (exists m' e', binary_round prec emax sx m e = S754_finite sx m' e') \/
  binary_round prec emax sx m e = S754_infinity sx.
Proof.
  intros He. unfold binary_round, shl_align.
  destruct (fexp (Zpos (digits2_pos m) + e) - e) as [|n|n] eqn:Hn;
    apply binary_round_aux_sign; try lia.
  unfold SpecFloat.fexp. lia.
Qed.


Lemma iter_xO_value (m d : positive) :
  Zpos (Pos.iter xO m d) = Zpos m * 2 ^ Zpos d.
Proof.
  induction d as [|d IH] using Pos.peano_ind.
  - cbn. lia.
  - rewrite Pos.iter_succ, Pos2Z.inj_xO, IH, Pos2Z.inj_succ, Z.pow_succ_r by lia.
    lia.
Qed.

Lemma shl_align_value (m : positive) (e ez : Z) :
  ez <= e -> Zpos (fst (shl_align m e ez)) = Zpos m * 2 ^ (e - ez).
Proof.
  intros He. unfold shl_align.
  destruct (ez - e) as [|d|d] eqn:Hd; cbn [fst]; try lia.
  - replace (e - ez) with 0 by lia. lia.
  - rewrite iter_xO_value. f_equal. f_equal. lia.
Qed.


Lemma aligned_compare_positive (mx my : positive) (ex ey : Z) :
  bounded prec emax mx ex = true -> bounded prec emax my ey = true ->
  (aligned false mx ex (Z.min ex ey) ?= aligned false my ey (Z.min ex ey)) =
  match ex ?= ey with
  | Lt => Lt
  | Gt => Gt
  | Eq => Pos.compare_cont Eq mx my
  end.
Proof.
  intros Hx Hy. unfold aligned, cond_Zopp.
  rewrite !shl_align_value by lia.
  apply canonical_bounds in Hx as (Hex & Hdx & Hnx).
  apply canonical_bounds in Hy as (Hey & Hdy & Hny).
  pose proof (digits2_pos_bounds mx) as [Hlx Hhx].
  pose proof (digits2_pos_bounds my) as [Hly Hhy].
  assert (Hpow : 2 ^ prec = 2 * 2 ^ (prec - 1)).
  { rewrite <- Z.pow_succ_r by lia. f_equal. lia. }
  destruct (Z.compare_spec ex ey) as [->|Hlt|Hgt].
  - rewrite Z.min_id, Z.sub_diag, !Z.mul_1_r. reflexivity.
  - rewrite Z.min_l, Z.sub_diag, Z.mul_1_r by lia.
    apply Z.compare_lt_iff.
    rewrite Hny in Hly by lia.
    assert (2 ^ Zpos (digits2_pos mx) <= 2 ^ prec) by (apply Z.pow_le_mono_r; lia).
    assert (2 ^ 1 <= 2 ^ (ey - ex)) by (apply Z.pow_le_mono_r; lia).
    nia.
  - rewrite Z.min_r, Z.sub_diag, Z.mul_1_r by lia.
    apply Z.compare_gt_iff.
    rewrite Hnx in Hlx by lia.
    assert (2 ^ Zpos (digits2_pos my) <= 2 ^ prec) by (apply Z.pow_le_mono_r; lia).
    assert (2 ^ 1 <= 2 ^ (ex - ey)) by (apply Z.pow_le_mono_r; lia).
    nia.
Qed.

Lemma aligned_positive (m : positive) (e ez : Z) : 0 < aligned false m e ez.
Proof. unfold aligned, cond_Zopp. lia. Qed.

Lemma aligned_negative (m : positive) (e ez : Z) :
  aligned true m e ez = - aligned false m e ez.
Proof. reflexivity. Qed.

(** On numbers of the format, [SFcompare] compares aligned values. *)
Lemma SFcompare_aligned (sx sy : bool) (mx my : positive) (ex ey : Z) :
  bounded prec emax mx ex = true -> bounded prec emax my ey = true ->
  SFcompare (S754_finite sx mx ex) (S754_finite sy my ey) =
  Some (aligned sx mx ex (Z.min ex ey) ?= aligned sy my ey (Z.min ex ey)).
Proof.
  intros Hx Hy. pose proof (aligned_compare_positive mx my ex ey Hx Hy) as Hc.
  pose proof (aligned_positive mx ex (Z.min ex ey)) as Hpx.
  pose proof (aligned_positive my ey (Z.min ex ey)) as Hpy.
  cbn [SFcompare]. f_equal.
  destruct sx, sy; rewrite ?aligned_negative.
  - rewrite Z.compare_opp.
    rewrite (Z.compare_antisym (aligned false mx ex (Z.min ex ey))
               (aligned false my ey (Z.min ex ey))), Hc.
    destruct (ex ?= ey); reflexivity.
  - symmetry. apply Z.compare_lt_iff. lia.
  - symmetry. apply Z.compare_gt_iff. lia.
  - rewrite Hc. reflexivity.
Qed.


(** The sign of a difference agrees with the order. *)
Lemma SFsub_positive (x y : spec_float) :
  SpecFloat.valid_binary prec emax x = true ->
  SpecFloat.valid_binary prec emax y = true ->
  is_number x = true -> is_number y = true ->
  SFltb (S754_zero false) (SFsub prec emax y x) = SFltb x y.
Proof.
  intros Hx Hy Hnx Hny.
  destruct x as [sx|sx| |sx mx ex], y as [sy|sy| |sy my ey];
    try discriminate; try (destruct sx, sy; reflexivity);
    try (destruct sx; reflexivity); try (destruct sy; reflexivity).
  cbn [SpecFloat.valid_binary] in Hx, Hy. unfold SFltb.
  rewrite (SFcompare_aligned sx sy mx my ex ey Hx Hy).
  cbn [SFsub]. rewrite (Z.min_comm ey ex).
  fold (aligned sy my ey (Z.min ex ey)) (aligned sx mx ex (Z.min ex ey)).
  set (vx := aligned sx mx ex (Z.min ex ey)).
  set (vy := aligned sy my ey (Z.min ex ey)).
  apply canonical_bounds in Hx as (Hex & _), Hy as (Hey & _).
  unfold binary_normalize.
  destruct (vy - vx) as [|d|d] eqn:Hd.
  - replace (vx ?= vy) with Eq by (symmetry; apply Z.compare_eq_iff; lia).
    reflexivity.
  - replace (vx ?= vy) with Lt by (symmetry; apply Z.compare_lt_iff; lia).
    destruct (binary_round_sign false d (Z.min ex ey)) as [(m' & e' & ->)| ->];
      [lia | reflexivity | reflexivity].
  - replace (vx ?= vy) with Gt by (symmetry; apply Z.compare_gt_iff; lia).
    destruct (binary_round_sign true d (Z.min ex ey)) as [(m' & e' & ->)| ->];
      [lia | reflexivity | reflexivity].
Qed.

End SpecFloatFacts.

Section SpecFloatOrder.
Local Open Scope Z_scope.

(** *** The order of [SFcompare] *)


Lemma lex_spec (k1 k2 : Z * Z * Z) :
  CompareSpec (k1 = k2) (lex_lt k1 k2) (lex_lt k2 k1) (lex_compare k1 k2).
Proof.
  destruct k1 as [[a1 b1] c1], k2 as [[a2 b2] c2]. unfold lex_compare, lex_lt.
  destruct (Z.compare_spec a1 a2); [|constructor; lia ..].
  destruct (Z.compare_spec b1 b2); [|constructor; lia ..].
  destruct (Z.compare_spec c1 c2); constructor; subst; auto; lia.
Qed.

Lemma SFcompare_key (x y : spec_float) :
  is_number x = true -> is_number y = true ->
  SFcompare x y = Some (lex_compare (order_key x) (order_key y)).
Proof.
  destruct x as [sx|sx| |sx mx ex], y as [sy|sy| |sy my ey];
    try discriminate; intros _ _;
    try (destruct sx; try destruct sy; reflexivity);
    try (destruct sy; reflexivity).
  destruct sx, sy; cbn [SFcompare order_key lex_compare]; try reflexivity.
  cbn [Z.compare]. rewrite Z.compare_opp, (Z.compare_antisym ex ey).
  destruct (ex ?= ey); reflexivity.
Qed.

Lemma SFcompare_number (x y : spec_float) (c : comparison) :
  SFcompare x y = Some c -> is_number x = true /\ is_number y = true.
Proof. destruct x, y; try discriminate; auto. Qed.

Lemma SFeqb_number (x : spec_float) : SFeqb x x = true -> is_number x = true.
Proof. destruct x; try reflexivity. discriminate. Qed.

Lemma SFleb_number (t x : spec_float) : SFleb t x = true -> SFeqb x x = true.
Proof.
  unfold SFleb, SFeqb. destruct (SFcompare t x) as [c|] eqn:Hc; [|discriminate].
  intros _. apply SFcompare_number in Hc as [_ Hx].
  rewrite (SFcompare_key x x Hx Hx).
  destruct (lex_spec (order_key x) (order_key x)) as [_|H|H]; [reflexivity| |];
    destruct (order_key x) as [[a b] c']; unfold lex_lt in H; lia.
Qed.

Lemma SFltb_number (x y : spec_float) :
  SFltb x y = true -> is_number x = true /\ is_number y = true.
Proof. destruct x, y; try discriminate; auto. Qed.

Lemma SFeqb_numbers (x y : spec_float) :
  SFeqb x y = true -> is_number x = true /\ is_number y = true.
Proof. destruct x, y; try discriminate; auto. Qed.

(** With the operands known to be numbers, a goal about [SFcompare] is a
    goal about integer triples. *)
Ltac order_by_key :=
  unfold SFltb, SFleb, SFeqb in *;
  repeat match goal with
         | H : context [SFcompare ?x ?y] |- _ =>
             rewrite (SFcompare_key x y) in H by assumption
         | |- context [SFcompare ?x ?y] =>
             rewrite (SFcompare_key x y) by assumption
         end;
  repeat match goal with
         | |- context [lex_compare ?k1 ?k2] => destruct (lex_spec k1 k2)
         | H : context [lex_compare ?k1 ?k2] |- _ => destruct (lex_spec k1 k2)
         end;
  try discriminate; try reflexivity;
  repeat match goal with
         | H : order_key _ = order_key _ |- _ => rewrite H in *
         end;
  repeat match goal with
         | |- context [order_key ?x] => destruct (order_key x) as [[? ?] ?]
         | H : context [order_key ?x] |- _ => destruct (order_key x) as [[? ?] ?]
         end;
  unfold lex_lt in *;
  repeat match goal with
         | H : (_, _, _) = (_, _, _) |- _ => injection H as ? ? ?
         end;
  try lia.

Lemma SFltb_irrefl (x : spec_float) : SFltb x x = false.
Proof.
  destruct (is_number x) eqn:Hx; [|destruct x; try discriminate; reflexivity].
  order_by_key.
Qed.

Lemma SFltb_trans (x y z : spec_float) :
  SFltb x y = true -> SFltb y z = true -> SFltb x z = true.
Proof.
  intros Hxy Hyz.
  destruct (SFltb_number x y Hxy) as [Hx Hy].
  destruct (SFltb_number y z Hyz) as [_ Hz].
  order_by_key.
Qed.

Lemma SFltb_connex (x y : spec_float) :
  SFeqb x x = true -> SFeqb y y = true ->
  SFltb x y = false -> SFltb y x = false -> SFeqb x y = true.
Proof.
  intros Hx%SFeqb_number Hy%SFeqb_number Hxy Hyx. order_by_key.
Qed.

Lemma SFeqb_ltb_l (x y z : spec_float) :
  SFeqb x y = true -> SFltb x z = SFltb y z.
Proof.
  intros Hxy. destruct (SFeqb_numbers x y Hxy) as [Hx Hy].
  destruct (is_number z) eqn:Hz.
  - order_by_key.
  - destruct z; try discriminate. destruct x, y; reflexivity.
Qed.

Lemma SFeqb_ltb_r (x y z : spec_float) :
  SFeqb x y = true -> SFltb z x = SFltb z y.
Proof.
  intros Hxy. destruct (SFeqb_numbers x y Hxy) as [Hx Hy].
  destruct (is_number z) eqn:Hz.
  - order_by_key.
  - destruct z; try discriminate. reflexivity.
Qed.

Lemma SFleb_ltb (x y : spec_float) :
  SFeqb x x = true -> SFeqb y y = true ->
  SFleb y x = negb (SFltb x y).
Proof. intros Hx%SFeqb_number Hy%SFeqb_number. order_by_key. Qed.

End SpecFloatOrder.

Lemma binary64_order : NumOrder binary64.
Proof.
  split; cbn [num binary64 num_zero num_sub num_eqb num_ltb num_geb].
  - intros x t H. rewrite FloatAxioms.leb_spec in H. rewrite FloatAxioms.eqb_spec.
    exact (SFleb_number _ _ H).
  - intros x. rewrite FloatAxioms.ltb_spec. apply SFltb_irrefl.
  - intros x y z. rewrite !FloatAxioms.ltb_spec. apply SFltb_trans.
  - intros x y. rewrite !FloatAxioms.ltb_spec, !FloatAxioms.eqb_spec.
    apply SFltb_connex.
  - intros x y z. rewrite !FloatAxioms.ltb_spec, FloatAxioms.eqb_spec.
    apply SFeqb_ltb_l.
  - intros x y z. rewrite !FloatAxioms.ltb_spec, FloatAxioms.eqb_spec.
    apply SFeqb_ltb_r.
  - intros x y. rewrite FloatAxioms.leb_spec, FloatAxioms.ltb_spec,
      !FloatAxioms.eqb_spec.
    apply SFleb_ltb.
  - intros x y Hx Hy.
    rewrite FloatAxioms.eqb_spec in Hx, Hy.
    rewrite !FloatAxioms.ltb_spec, FloatAxioms.sub_spec.
    change (Prim2SF 0) with (S754_zero false).
    apply (SFsub_positive prec emax eq_refl);
      auto using FloatAxioms.Prim2SF_valid, SFeqb_number.
Qed.

(** ** Signs in binary64 arithmetic *)

Section SpecFloatSigns.
Local Open Scope Z_scope.
Variables prec emax : Z.










Lemma SFadd_zero_l (y : spec_float) :
  SFadd prec emax (S754_zero false) y
  = match y with S754_zero _ => S754_zero false | _ => y end.
Proof. destruct y as [[|]|[|]| |s m e]; reflexivity. Qed.

End SpecFloatSigns.

Section Binary64Signs.
Local Open Scope Z_scope.




Lemma eqb_zero_false (x : float) :
  PrimFloat.eqb x 0 = false ->
  match Prim2SF x with S754_zero _ => False | _ => True end.
Proof.
  rewrite FloatAxioms.eqb_spec. change (Prim2SF 0) with (S754_zero false).
  destruct (Prim2SF x) as [[|]|[|]| |[|] m e]; try discriminate; auto.
Qed.










End Binary64Signs.

(** ** Running the store *)

Ltac run_monad :=
  repeat (progress (
    cbv beta iota zeta delta [bind get ask modify ret throw try_catch lift
      set_vs_db set_vs_initialized set_ms_initialized set_disk record_call];
    cbn [vs_db vs_initialized ms_initialized disk calls fst snd])).


Lemma bind_run {N : NumOps} {A B : Type} (m : M (N := N) A) (k : A -> M B)
    (env : Env) (s : State) :
  bind m k env s =
  match m env s with
  | (Normal a, s') => k a env s'
  | (Throw e, s') => (Throw e, s')
  end.
Proof. reflexivity. Qed.

Lemma try_catch_run {N : NumOps} {A : Type} (body : M (N := N) A)
    (handler : thrown -> M A) (env : Env) (s : State) :
  try_catch body handler env s =
  match body env s with
  | (Normal a, s') => (Normal a, s')
  | (Throw e, s') => handler e env s'
  end.
Proof. reflexivity. Qed.

Section StoreRuns.
Context {N : NumOps}.
Variable appConfig : Config (N := N).
Variable ORDER_BY_timestamp_DESC : list (Row (N := N)) -> list (Row (N := N)).
Implicit Types (env : Env (N := N)) (s : State (N := N)).
Implicit Types (e entry : MemoryEntry (N := N)) (q : list N).
Implicit Types (rows : list (Row (N := N))).

Lemma ensureInitialized_opens env s :
  store_opens env s = true ->
  VectorStore_ensureInitialized env s = (Normal tt, opened s).
Proof.
  unfold store_opens, VectorStore_ensureInitialized, opened, open_database, open_calls.
  unfold bind, get, ask, modify, ret, throw.
  destruct s as [db ini msi dsk cs]; simpl.
  destruct ini, db as [db|]; simpl;
    try (intros _; rewrite app_nil_r; reflexivity);
    destruct (initSqlJs_error env); simpl; try discriminate;
    destruct dsk as [[image|]|]; simpl; try discriminate; intros _;
    unfold record_call, set_vs_db, set_vs_initialized; simpl;
    rewrite <- app_assoc; reflexivity.
Qed.

Lemma ensureInitialized_fails env s :
  store_opens env s = false ->
  exists err cs,
    VectorStore_ensureInitialized env s =
    (Throw err, {| vs_db := vs_db s; vs_initialized := vs_initialized s;
                 ms_initialized := ms_initialized s; disk := disk s;
                 calls := calls s ++ cs |}).
Proof.
  unfold store_opens, VectorStore_ensureInitialized.
  unfold bind, get, ask, modify, ret, throw.
  destruct s as [db ini msi dsk cs]; simpl.
  destruct ini, db as [db|]; simpl; try discriminate;
    destruct (initSqlJs_error env) as [err|]; simpl;
    try (intros _; exists err, [Call_initSqlJs]; reflexivity);
    destruct dsk as [[image|]|]; simpl; try discriminate; intros _;
    exists (Error "file is not a database"), [Call_initSqlJs; Call_readFile];
    unfold record_call; simpl; rewrite <- app_assoc; reflexivity.
Qed.

Lemma store_opens_opened env s :
  store_opens env (opened s) = true.
Proof. reflexivity. Qed.

Lemma storeMemory_run env s e :
  store_opens env s = true ->
  VectorStore_storeMemory e env s =
  (Normal (with_id e (next_rowid (open_database s))), stored env s e).
Proof.
  intros Hopen. unfold VectorStore_storeMemory.
  unfold bind at 1. rewrite (ensureInitialized_opens env s Hopen).
  unfold VectorStore_saveDatabase, stored, opened, INSERT_INTO_memories, row_of_entry.
  run_monad.
  destruct (writeFile_succeeds env); run_monad; rewrite <- app_assoc; reflexivity.
Qed.

Lemma storeMemory_throws env s e :
  store_opens env s = false ->
  exists err s', VectorStore_storeMemory e env s = (Throw err, s').
Proof.
  intros Hopen. destruct (ensureInitialized_fails env s Hopen) as (err & cs & H).
  unfold VectorStore_storeMemory, bind at 1. rewrite H. eauto.
Qed.

Lemma searchSimilar_run env s q limit c u :
  store_opens env s = true ->
  VectorStore_searchSimilar appConfig ORDER_BY_timestamp_DESC q limit c u env s =
  (Normal (search_rows appConfig q limit (selected ORDER_BY_timestamp_DESC c u s)),
   opened s).
Proof.
  intros Hopen. unfold VectorStore_searchSimilar.
  unfold bind at 1. rewrite (ensureInitialized_opens env s Hopen).
  unfold bind, get, try_catch, lift, ret, search_rows, selected. simpl.
  destruct (scan _ _ _ _); reflexivity.
Qed.

Lemma searchSimilar_throws env s q limit c u :
  store_opens env s = false ->
  exists err s',
    VectorStore_searchSimilar appConfig ORDER_BY_timestamp_DESC q limit c u env s
    = (Throw err, s').
Proof.
  intros Hopen. destruct (ensureInitialized_fails env s Hopen) as (err & cs & H).
  unfold VectorStore_searchSimilar, bind at 1. rewrite H. eauto.
Qed.

Lemma getRecentMemories_run env s limit c u :
  store_opens env s = true ->
  VectorStore_getRecentMemories appConfig ORDER_BY_timestamp_DESC limit c u env s =
  (Normal (map entry_of_row
             (LIMIT (selected ORDER_BY_timestamp_DESC c u s)
                    (limit_or_default appConfig limit))),
   opened s).
Proof.
  intros Hopen. unfold VectorStore_getRecentMemories.
  unfold bind at 1. rewrite (ensureInitialized_opens env s Hopen).
  reflexivity.
Qed.

Lemma getMemoryCount_run env s :
  store_opens env s = true ->
  VectorStore_getMemoryCount env s =
  (Normal (Z.of_nat (length (memories (open_database s)))), opened s).
Proof.
  intros Hopen. unfold VectorStore_getMemoryCount.
  unfold bind at 1. rewrite (ensureInitialized_opens env s Hopen).
  reflexivity.
Qed.

Lemma getMemoryCount_throws env s :
  store_opens env s = false ->
  exists err cs,
    VectorStore_getMemoryCount env s =
    (Throw err, {| vs_db := vs_db s; vs_initialized := vs_initialized s;
                   ms_initialized := ms_initialized s; disk := disk s;
                   calls := calls s ++ cs |}).
Proof.
  intros Hopen. destruct (ensureInitialized_fails env s Hopen) as (err & cs & H).
  unfold VectorStore_getMemoryCount, bind at 1. rewrite H. eauto.
Qed.

End StoreRuns.

(** ** Lists: slicing and the stable sort *)

Section ArrayFacts.
Context {A : Type}.

Lemma Array_slice0_firstn (l : list A) (limit : Z) :
  exists n, Array_slice0 l limit = firstn n l.
Proof. unfold Array_slice0. destruct (limit <? 0)%Z; eauto. Qed.

Lemma Array_slice0_length (l : list A) (limit : Z) :
  0 <= limit -> Z.of_nat (length (Array_slice0 l limit)) <= limit.
Proof.
  intros Hk. unfold Array_slice0.
  destruct (Z.ltb_spec limit 0) as [?|_]; [lia|].
  rewrite length_firstn. lia.
Qed.

Lemma Forall_firstn (P : A -> Prop) (n : nat) (l : list A) :
  Forall P l -> Forall P (firstn n l).
Proof.
  intros H. revert n. induction H as [|x l Hx Hl IH]; intros [|n]; simpl;
    constructor; auto.
Qed.

Lemma StronglySorted_firstn (R : A -> A -> Prop) (n : nat) (l : list A) :
  StronglySorted R l -> StronglySorted R (firstn n l).
Proof.
  intros H. revert n. induction H as [|x l Hl IH Hx]; intros [|n]; simpl;
    constructor; auto using Forall_firstn.
Qed.

Context {N : NumOps}.
Variable comparefn : A -> A -> N.

Lemma sort_insert_perm (x : A) (l : list A) :
  Permutation (x :: l) (sort_insert comparefn x l).
Proof.
  induction l as [|y l IH]; simpl; [reflexivity|].
  destruct (num_zero N <? comparefn x y)%js; [|reflexivity].
  rewrite perm_swap. constructor. exact IH.
Qed.

Lemma Array_sort_perm (l : list A) : Permutation l (Array_sort comparefn l).
Proof.
  induction l as [|x l IH]; simpl; [reflexivity|].
  rewrite <- sort_insert_perm. constructor. exact IH.
Qed.

Lemma Array_sort_Forall (P : A -> Prop) (l : list A) :
  Forall P l -> Forall P (Array_sort comparefn l).
Proof. intros H. eapply Permutation_Forall; [apply Array_sort_perm | exact H]. Qed.

(** Insertion keeps a list sorted for [R] when [R] is decided by the
    comparator on the elements at hand: [before] relates the new element to
    the ones that followed it in the input. *)
Lemma sort_insert_sorted (R before : A -> A -> Prop) (x : A) (l : list A) :
  (forall y, In y l -> before x y ->
     (num_zero N <? comparefn x y)%js = true -> R y x) ->
  (forall y, In y l -> before x y ->
     (num_zero N <? comparefn x y)%js = false -> R x y) ->
  (forall y z, In y l -> In z l -> R x y -> R y z -> R x z) ->
  Forall (before x) l ->
  StronglySorted R l ->
  StronglySorted R (sort_insert comparefn x l).
Proof.
  intros Hpos Hneg Htrans Hbefore Hsorted.
  induction Hsorted as [|y l Hl IH Hy]; simpl.
  - repeat constructor.
  - inversion Hbefore as [|? ? Hxy Hxl]; subst.
    destruct (num_zero N <? comparefn x y)%js eqn:Hc.
    + constructor.
      * apply IH; auto.
        -- intros; apply Hpos; simpl; auto.
        -- intros; apply Hneg; simpl; auto.
        -- intros y0 z ? ? ? ?; apply (Htrans y0 z); simpl; auto.
      * eapply Permutation_Forall; [apply sort_insert_perm|].
        constructor; [|exact Hy]. apply Hpos; simpl; auto.
    + assert (Rxy : R x y) by (apply Hneg; simpl; auto).
      constructor; [constructor; assumption|].
      constructor; [exact Rxy|].
      rewrite List.Forall_forall in Hy |- *. intros z Hz.
      apply (Htrans y z); simpl; auto.
Qed.

End ArrayFacts.

(** ** The scan and the ranking *)

Section Search.
Context {N : NumOps}.
Variable appConfig : Config (N := N).
Variable ORDER_BY_timestamp_DESC : list (Row (N := N)) -> list (Row (N := N)).
Implicit Types (env : Env (N := N)) (s : State (N := N)).
Implicit Types (q : list N) (row : Row (N := N)) (rows : list (Row (N := N))).
Implicit Types (r : MemorySearchResult (N := N)).
Implicit Types (results acc : list (MemorySearchResult (N := N))).

Lemma cosine_throws (a b : list N) :
  length a <> length b ->
  calculateCosineSimilarity a b =
  Throw (Error "Vector dimensions must match for similarity calculation").
Proof.
  intros H. unfold calculateCosineSimilarity.
  destruct (Nat.eqb_spec (length a) (length b)); [contradiction | reflexivity].
Qed.

Lemma cosine_returns (a b : list N) :
  length a = length b -> exists v, calculateCosineSimilarity a b = Normal v.
Proof.
  intros H. unfold calculateCosineSimilarity.
  destruct (Nat.eqb_spec (length a) (length b)); [|contradiction]. simpl.
  destruct (fold_left _ _ (num_zero N, num_zero N)) as [mA mB].
  destruct (_ || _); eauto.
Qed.

Lemma score_Some q row r :
  score appConfig q row = Some r ->
  entry r = entry_of_row row /\
  calculateCosineSimilarity q (col_embedding row) = Normal (similarity r) /\
  (similarity r >=? similarityThreshold appConfig)%js = true.
Proof.
  unfold score. destruct (calculateCosineSimilarity _ _) as [v|]; [|discriminate].
  destruct (v >=? _)%js eqn:Hge; [|discriminate].
  intros [= <-]. auto.
Qed.

Lemma scan_returns q rows acc results :
  scan appConfig q rows acc = Normal results ->
  results = acc ++ omap (score appConfig q) rows.
Proof.
  revert acc. induction rows as [|row rows IH]; intros acc; simpl.
  - intros [= <-]. now rewrite app_nil_r.
  - unfold score at 1.
    destruct (calculateCosineSimilarity _ _) as [v|]; [|discriminate].
    destruct (v >=? _)%js.
    + intros H. apply IH in H. now rewrite <- app_assoc in H.
    + apply IH.
Qed.

Lemma scan_matching q rows acc :
  Forall (fun row => length (col_embedding row) = length q) rows ->
  scan appConfig q rows acc = Normal (acc ++ omap (score appConfig q) rows).
Proof.
  intros H. revert acc. induction H as [|row rows Hrow _ IH]; intros acc; simpl.
  - now rewrite app_nil_r.
  - unfold score at 1.
    destruct (cosine_returns q (col_embedding row)) as [v ->]; [congruence|].
    destruct (v >=? _)%js; rewrite IH; [now rewrite <- app_assoc | reflexivity].
Qed.

Lemma scan_mismatch q rows acc :
  Exists (fun row => length (col_embedding row) <> length q) rows ->
  scan appConfig q rows acc =
  Throw (Error "Vector dimensions must match for similarity calculation").
Proof.
  intros H. revert acc. induction H as [row rows Hrow | row rows _ IH];
    intros acc; simpl.
  - rewrite cosine_throws by congruence. reflexivity.
  - destruct (calculateCosineSimilarity _ _) as [v|err] eqn:Hcos.
    + destruct (v >=? _)%js; apply IH.
    + unfold calculateCosineSimilarity in Hcos.
      destruct (negb _); [congruence|].
      destruct (fold_left _ _ (num_zero N, num_zero N)) as [mA mB].
      destruct (_ || _); discriminate.
Qed.

Lemma omap_score_Forall (P : MemorySearchResult (N := N) -> Prop) q rows :
  (forall row r, In row rows -> score appConfig q row = Some r -> P r) ->
  Forall P (omap (score appConfig q) rows).
Proof.
  induction rows as [|row rows IH]; intros H; simpl; [constructor|].
  destruct (score appConfig q row) as [r|] eqn:Hs.
  - constructor; [eapply H; simpl; eauto|]. apply IH. intros; eapply H; simpl; eauto.
  - apply IH. intros; eapply H; simpl; eauto.
Qed.

Lemma omap_score_sorted q rows :
  StronglySorted (fun row1 row2 => col_timestamp row2 <= col_timestamp row1) rows ->
  StronglySorted (fun r1 r2 => timestamp (entry r2) <= timestamp (entry r1))
                 (omap (score appConfig q) rows).
Proof.
  induction 1 as [|row rows Hs IH Hrow]; simpl; [constructor|].
  destruct (score appConfig q row) as [r|] eqn:Hr; [|exact IH].
  constructor; [exact IH|].
  apply omap_score_Forall. intros row' r' Hin Hr'.
  apply score_Some in Hr as (-> & _), Hr' as (-> & _). simpl.
  rewrite List.Forall_forall in Hrow. auto.
Qed.

Section Ranking.
Context `{!NumOrder N}.

Lemma ltb_asym (x y : N) : (x <? y)%js = true -> (y <? x)%js = false.
Proof.
  intros H. destruct (y <? x)%js eqn:H'; [|reflexivity].
  pose proof (ltb_trans _ _ _ H H') as Hxx. now rewrite ltb_irrefl in Hxx.
Qed.

Lemma Array_sort_ranked results :
  Forall (fun r => (similarity r === similarity r)%js = true) results ->
  StronglySorted (fun r1 r2 => timestamp (entry r2) <= timestamp (entry r1)) results ->
  StronglySorted ranked
    (Array_sort (fun a b => similarity b - similarity a)%js results).
Proof.
  intros Hnum Hts. induction Hts as [|x l Hl IH Hx]; simpl; [constructor|].
  inversion Hnum as [|? ? Hxn Hln]; subst.
  set (cmp := fun a b : MemorySearchResult => (similarity b - similarity a)%js).
  set (before := fun a b : MemorySearchResult (N := N) =>
         timestamp (entry b) <= timestamp (entry a) /\
         (similarity a === similarity a)%js = true /\
         (similarity b === similarity b)%js = true).
  assert (Hbefore : Forall (before x) (Array_sort cmp l)).
  { apply Array_sort_Forall. rewrite List.Forall_forall in Hx, Hln |- *.
    intros y Hy. repeat split; auto. }
  apply (sort_insert_sorted cmp ranked before); auto.
  - intros y _ (Hty & Hnx & Hny) Hc. unfold cmp in Hc.
    rewrite sub_positive in Hc by assumption. split.
    + rewrite geb_ltb by assumption. now rewrite (ltb_asym _ _ Hc).
    + intros Heq. rewrite (eqb_ltb_r _ _ _ Heq), ltb_irrefl in Hc. discriminate.
  - intros y _ (Hty & Hnx & Hny) Hc. unfold cmp in Hc.
    rewrite sub_positive in Hc by assumption. split.
    + rewrite geb_ltb by assumption. now rewrite Hc.
    + intros _. exact Hty.
  - intros y z Hy Hz [Hxy _] [Hyz _].
    rewrite List.Forall_forall in Hbefore.
    destruct (Hbefore y Hy) as (_ & Hnx & Hny).
    destruct (Hbefore z Hz) as (Htz & _ & Hnz).
    rewrite geb_ltb in Hxy, Hyz by assumption.
    apply negb_true_iff in Hxy, Hyz. split; [|intros _; exact Htz].
    rewrite geb_ltb by assumption. apply negb_true_iff.
    destruct (similarity x <? similarity z)%js eqn:Hxz; [|reflexivity].
    destruct (similarity y <? similarity x)%js eqn:Hyx.
    + now rewrite (ltb_trans _ _ _ Hyx Hxz) in Hyz.
    + pose proof (ltb_connex _ _ Hnx Hny Hxy Hyx) as Heq.
      now rewrite (eqb_ltb_l _ _ _ Heq), Hyz in Hxz.
Qed.

End Ranking.
End Search.

(** ** The engine and the arithmetic at hand satisfy their laws *)

Section Engine.
Context {N : NumOps}.
Implicit Types (row : Row (N := N)) (rows : list (Row (N := N))).

Lemma insert_by_timestamp_perm row rows :
  Permutation (row :: rows) (insert_by_timestamp row rows).
Proof.
  induction rows as [|row' rows IH]; simpl; [reflexivity|].
  destruct (col_timestamp row' <? col_timestamp row)%Z; [reflexivity|].
  rewrite perm_swap. constructor. exact IH.
Qed.

Lemma insert_by_timestamp_sorted row rows :
  StronglySorted (fun a b : Row => col_timestamp b <= col_timestamp a) rows ->
  StronglySorted (fun a b : Row => col_timestamp b <= col_timestamp a)
                 (insert_by_timestamp row rows).
Proof.
  induction 1 as [|row' rows Hs IH Hrow']; simpl.
  - repeat constructor.
  - destruct (Z.ltb_spec (col_timestamp row') (col_timestamp row)).
    + constructor; [constructor; assumption|].
      constructor; [lia|].
      eapply List.Forall_impl; [|exact Hrow']. simpl. intros; lia.
    + constructor; [exact IH|].
      eapply Permutation_Forall; [apply insert_by_timestamp_perm|].
      constructor; [lia | exact Hrow'].
Qed.

Lemma sort_by_timestamp_desc_spec rows acc :
  StronglySorted (fun a b : Row => col_timestamp b <= col_timestamp a) acc ->
  Permutation (rows ++ acc)
    (fold_left (fun acc row => insert_by_timestamp row acc) rows acc) /\
  StronglySorted (fun a b : Row => col_timestamp b <= col_timestamp a)
    (fold_left (fun acc row => insert_by_timestamp row acc) rows acc).
Proof.
  revert acc. induction rows as [|row rows IH]; intros acc Hacc; simpl.
  - split; [reflexivity | exact Hacc].
  - destruct (IH (insert_by_timestamp row acc)) as [Hp Hs].
    { now apply insert_by_timestamp_sorted. }
    split; [|exact Hs].
    rewrite <- Hp, <- insert_by_timestamp_perm.
    now rewrite Permutation_middle.
Qed.

Lemma sort_by_timestamp_desc_order : OrderBy (N := N) sort_by_timestamp_desc.
Proof.
  split; intros rows; unfold sort_by_timestamp_desc;
    destruct (sort_by_timestamp_desc_spec rows []) as [Hp Hs];
    try constructor; [|exact Hs].
  now rewrite app_nil_r in Hp.
Qed.

End Engine.


(** ** Search *)

Section SearchTheorems.
Context {N : NumOps}.
Variable appConfig : Config (N := N).
Variable ORDER_BY_timestamp_DESC : list (Row (N := N)) -> list (Row (N := N)).
Implicit Types (env : Env (N := N)) (s : State (N := N)).
Implicit Types (q : list N) (row : Row (N := N)).

Lemma selected_In `{!OrderBy ORDER_BY_timestamp_DESC} c u s row :
  In row (selected ORDER_BY_timestamp_DESC c u s) <->
  In row (memories (open_database s)) /\ WHERE c u row = true.
Proof.
  unfold selected. rewrite <- filter_In. split; apply Permutation_in.
  - symmetry. apply order_by_permutation.
  - apply order_by_permutation.
Qed.

(** C2. Every result of [searchSimilar] reaches the similarity threshold
    (and its score is the cosine similarity of the query and the record's
    embedding), and for a limit [k >= 0] there are at most [k] results.  The
    call throws only when the store cannot be opened. *)
Theorem search_threshold_and_limit env s q (k : Z) (c u : option string) :
  0 <= k ->
  match fst (VectorStore_searchSimilar appConfig ORDER_BY_timestamp_DESC
               q (Some k) c u env s) with
  | Normal results =>
      Z.of_nat (length results) <= k /\
      Forall (fun r =>
                (similarity r >=? similarityThreshold appConfig)%js = true /\
                calculateCosineSimilarity q (embedding (entry r))
                = Normal (similarity r))
             results
  | Throw _ => store_opens env s = false
  end.
Proof.
  intros Hk. destruct (store_opens env s) eqn:Hopen.
  - rewrite searchSimilar_run by exact Hopen. cbn [fst].
    unfold search_rows. destruct (scan _ _ _ _) as [results|] eqn:Hscan.
    + split; [now apply Array_slice0_length|].
      destruct (Array_slice0_firstn
                  (Array_sort (fun a b => similarity b - similarity a)%js results)
                  (limit_or_default appConfig (Some k))) as [n ->].
      apply Forall_firstn, Array_sort_Forall.
      apply scan_returns in Hscan. subst results. cbn [app].
      apply omap_score_Forall. intros row r _ Hr.
      apply score_Some in Hr as (-> & Hcos & Hge). auto.
    + split; [simpl; lia | constructor].
  - destruct (searchSimilar_throws appConfig ORDER_BY_timestamp_DESC
                env s q (Some k) c u Hopen) as (err & s' & ->).
    reflexivity.
Qed.

(** C1. The results of [searchSimilar] are ranked: similarity descending,
    and among equal similarities the newer timestamp first.  The call throws
    only when the store cannot be opened. *)
Theorem search_results_ranked `{!NumOrder N} `{!OrderBy ORDER_BY_timestamp_DESC}
    env s q (limit : option Z) (c u : option string) :
  match fst (VectorStore_searchSimilar appConfig ORDER_BY_timestamp_DESC
               q limit c u env s) with
  | Normal results => StronglySorted ranked results
  | Throw _ => store_opens env s = false
  end.
Proof.
  destruct (store_opens env s) eqn:Hopen.
  - rewrite searchSimilar_run by exact Hopen. cbn [fst].
    unfold search_rows. destruct (scan _ _ _ _) as [results|] eqn:Hscan;
      [|constructor].
    destruct (Array_slice0_firstn
                (Array_sort (fun a b => similarity b - similarity a)%js results)
                (limit_or_default appConfig limit)) as [n ->].
    apply StronglySorted_firstn.
    apply scan_returns in Hscan. subst results. cbn [app].
    apply Array_sort_ranked.
    + apply omap_score_Forall. intros row r _ Hr.
      apply score_Some in Hr as (_ & _ & Hge).
      exact (geb_number _ _ Hge).
    + apply omap_score_sorted. unfold selected. apply order_by_sorted.
  - destruct (searchSimilar_throws appConfig ORDER_BY_timestamp_DESC
                env s q limit c u Hopen) as (err & s' & ->).
    reflexivity.
Qed.

(** C3, as the code has it.  When the store opens and some selected record
    has an embedding whose length differs from the query's, the search
    returns the empty sequence: the error leaves the loop and is caught for
    the search as a whole. *)
Theorem search_empty_on_dimension_mismatch `{!OrderBy ORDER_BY_timestamp_DESC}
    env s q (limit : option Z) (c u : option string) :
  store_opens env s = true ->
  Exists (fun row => WHERE c u row = true /\
                     length (col_embedding row) <> length q)
         (memories (open_database s)) ->
  VectorStore_searchSimilar appConfig ORDER_BY_timestamp_DESC q limit c u env s
  = (Normal [], opened s).
Proof.
  intros Hopen Hbad. rewrite searchSimilar_run by exact Hopen.
  unfold search_rows. rewrite scan_mismatch; [reflexivity|].
  apply List.Exists_exists in Hbad as (row & Hin & Hw & Hlen).
  apply List.Exists_exists. exists row. split; [|exact Hlen].
  apply selected_In. auto.
Qed.

(** When every selected record has the query's dimension, the results are
    the scored records, sorted and cut. *)
Lemma search_scores_on_matching_dimensions env s q limit c u :
  store_opens env s = true ->
  Forall (fun row => length (col_embedding row) = length q)
         (selected ORDER_BY_timestamp_DESC c u s) ->
  VectorStore_searchSimilar appConfig ORDER_BY_timestamp_DESC q limit c u env s
  = (Normal (Array_slice0
               (Array_sort (fun a b => similarity b - similarity a)%js
                  (omap (score appConfig q)
                        (selected ORDER_BY_timestamp_DESC c u s)))
               (limit_or_default appConfig limit)),
     opened s).
Proof.
  intros Hopen Hall. rewrite searchSimilar_run by exact Hopen.
  unfold search_rows. rewrite scan_matching by exact Hall. reflexivity.
Qed.

End SearchTheorems.

(** ** Running the orchestrator *)

Section ServiceRuns.
Context {N : NumOps}.
Variable appConfig : Config (N := N).
Variable ORDER_BY_timestamp_DESC : list (Row (N := N)) -> list (Row (N := N)).
Implicit Types (env : Env (N := N)) (s : State (N := N)).

Lemma initialize_returns env s :
  backend_reachable env = true -> store_opens env s = true ->
  MemoryService_initialize appConfig env s = (Normal tt, initialized s).
Proof.
  intros Hb Hopen. unfold MemoryService_initialize, EmbeddingsService_testConnection.
  run_monad. rewrite Hb. run_monad.
  rewrite getMemoryCount_run by exact Hopen.
  unfold opened, initialized, open_database, open_calls. run_monad.
  rewrite <- app_assoc. reflexivity.
Qed.

Lemma initialize_throws env s :
  backend_reachable env && store_opens env s = false ->
  exists message cs,
    MemoryService_initialize appConfig env s =
    (Throw (Error message),
     {| vs_db := vs_db s; vs_initialized := vs_initialized s;
        ms_initialized := ms_initialized s; disk := disk s;
        calls := calls s ++ GET_models :: cs |}).
Proof.
  intros H. unfold MemoryService_initialize, EmbeddingsService_testConnection.
  run_monad. destruct (backend_reachable env); run_monad.
  - simpl in H.
    match goal with
    | |- context [VectorStore_getMemoryCount env ?s1] =>
        destruct (getMemoryCount_throws env s1 H) as (err & cs & ->)
    end.
    cbn [vs_db vs_initialized ms_initialized disk calls].
    rewrite <- app_assoc. eauto.
  - eauto.
Qed.

Lemma initialize_if_needed_returns env s :
  starts env s = true ->
  initialize_if_needed appConfig env s = (Normal tt, started s).
Proof.
  unfold starts, started, initialize_if_needed. run_monad.
  destruct (ms_initialized s); cbn [negb orb]; [reflexivity|].
  intros [Hb Hopen]%andb_true_iff. now apply initialize_returns.
Qed.

Lemma initialize_if_needed_throws env s :
  starts env s = false ->
  exists message cs,
    initialize_if_needed appConfig env s =
    (Throw (Error message),
     {| vs_db := vs_db s; vs_initialized := vs_initialized s;
        ms_initialized := ms_initialized s; disk := disk s;
        calls := calls s ++ GET_models :: cs |}).
Proof.
  unfold starts, initialize_if_needed. intros H. run_monad.
  destruct (ms_initialized s) eqn:Hms; cbn [negb orb] in *; [discriminate|].
  rewrite <- Hms. now apply initialize_throws.
Qed.

Lemma generateEmbedding_run env s text :
  EmbeddingsService_generateEmbedding text env s =
  (match backend_embedding env (truncated text) with
   | Vector v => Normal v
   | Failure code => Throw (ApiError code)
   end,
   record_call (POST_embeddings (truncated text)) s).
Proof.
  unfold EmbeddingsService_generateEmbedding, truncated. run_monad.
  destruct (backend_embedding env _); reflexivity.
Qed.

Lemma store_opens_started env s :
  starts env s = true -> store_opens env s = true ->
  store_opens env (started s) = true.
Proof.
  unfold started. destruct (ms_initialized s); [auto | reflexivity].
Qed.

Lemma store_opens_record_call env s call :
  store_opens env (record_call call s) = store_opens env s.
Proof. reflexivity. Qed.

End ServiceRuns.

(** ** The orchestrator's retrieval path *)

Section Retrieval.
Context {N : NumOps}.
Variable appConfig : Config (N := N).
Variable ORDER_BY_timestamp_DESC : list (Row (N := N)) -> list (Row (N := N)).
Variable Number_toFixed : N -> nat -> string.
Variable ISO_8601 : Z -> string.
Implicit Types (env : Env (N := N)) (s : State (N := N)).

Lemma open_database_started s : open_database (started s) = open_database s.
Proof. unfold started. destruct (ms_initialized s); reflexivity. Qed.

Lemma searchMemories_run env s query c u limit :
  exists s',
    MemoryService_searchMemories appConfig ORDER_BY_timestamp_DESC
      query c u limit env s
    = (Normal (searchMemories_results appConfig ORDER_BY_timestamp_DESC env s query c u limit), s').
Proof.
  unfold MemoryService_searchMemories, searchMemories_results.
  unfold try_catch, bind at 1.
  destruct (starts env s) eqn:Hstart.
  - rewrite initialize_if_needed_returns by exact Hstart.
    unfold bind at 1. rewrite generateEmbedding_run.
    destruct (backend_embedding env (truncated query)) as [v|code].
    + unfold bind, ret. destruct (store_opens env s) eqn:Hopen.
      * rewrite searchSimilar_run
          by (rewrite store_opens_record_call; now apply store_opens_started).
        unfold selected at 1.
        replace (open_database _) with (open_database s)
          by (symmetry; apply (open_database_started s)).
        eauto.
      * match goal with
        | |- context [VectorStore_searchSimilar _ _ ?v ?l ?c ?u ?e ?s1] =>
            destruct (searchSimilar_throws appConfig ORDER_BY_timestamp_DESC
                        e s1 v l c u) as (err & s' & ->)
        end; [|eauto].
        rewrite store_opens_record_call. unfold started.
        destruct (ms_initialized s) eqn:Hms; [exact Hopen|].
        unfold starts in Hstart. rewrite Hms, Hopen, andb_false_r in Hstart.
        discriminate.
    + rewrite andb_comm. destruct (store_opens env s); unfold ret; eauto.
  - destruct (initialize_if_needed_throws appConfig env s Hstart)
      as (message & cs & ->).
    unfold ret. eauto.
Qed.

(** C4. [searchMemories] always returns, and it returns the empty sequence
    when self-initialization fails (the backend cannot be reached or the
    store cannot be opened), when the embedding request fails, and when the
    store's search throws. *)
Theorem searchMemories_never_throws env s (query : string)
    (c u : option string) (limit : option Z) :
  exists results s',
    MemoryService_searchMemories appConfig ORDER_BY_timestamp_DESC
      query c u limit env s = (Normal results, s') /\
    (ms_initialized s = false /\ backend_reachable env = false -> results = []) /\
    ((exists code, backend_embedding env (truncated query) = Failure code) ->
     results = []) /\
    (store_opens env s = false -> results = []).
Proof.
  destruct (searchMemories_run env s query c u limit) as (s' & Hrun).
  exists (searchMemories_results appConfig ORDER_BY_timestamp_DESC env s query c u limit), s'.
  split; [exact Hrun|]. unfold searchMemories_results, starts. repeat split.
  - intros [-> ->]. reflexivity.
  - intros [code ->]. destruct (_ && _); reflexivity.
  - intros ->. now rewrite andb_false_r.
Qed.

Lemma string_append_assoc (a b c : string) :
  ((a ++ b) ++ c = a ++ b ++ c)%string.
Proof.
  induction a as [|x a IH]; [reflexivity|].
  change (String x ((a ++ b) ++ c)%string = String x (a ++ b ++ c)%string).
  now rewrite IH.
Qed.

Lemma memories_header_nonempty (rest : string) :
  (memories_header ++ rest)%string <> "".
Proof. unfold memories_header, LF. simpl. discriminate. Qed.

Lemma formatMemoriesForLLM_nonempty
    (memories : list (MemorySearchResult (N := N))) (block : string) :
  memories <> [] ->
  MemoryService_formatMemoriesForLLM Number_toFixed ISO_8601 memories
  = Normal block ->
  block <> "".
Proof.
  intros Hne. unfold MemoryService_formatMemoriesForLLM.
  destruct memories as [|r [|r' rest]]; [contradiction| |].
  - destruct (Date_toISOString _ _); [|discriminate].
    intros [= <-]. apply memories_header_nonempty.
  - destruct (format_each _ _ _ _); [|discriminate].
    intros [= <-]. apply memories_header_nonempty.
Qed.

(** C7, as the code has it.  [getEnhancedContext] always returns.  It
    returns the query when self-initialization or the formatting throws;
    with memories, their formatted block (which is not empty) followed by
    the current question, the question carrying the display name when one is
    known; without memories, which is also what [searchMemories] gives when
    the embedding request or the store fails, the display name and the query
    when a name is known, and the query otherwise. *)
Theorem getEnhancedContext_cases env s (query : string)
    (c u name : option string) :
  exists out s',
    MemoryService_getEnhancedContext appConfig ORDER_BY_timestamp_DESC
      Number_toFixed ISO_8601 query c u name env s = (Normal out, s') /\
    match initialize_if_needed appConfig env s with
    | (Throw _, _) => out = query
    | (Normal _, s1) =>
        match fst (MemoryService_searchMemories appConfig
                     ORDER_BY_timestamp_DESC query c u None env s1) with
        | Throw _ => False
        | Normal memories =>
            match MemoryService_formatMemoriesForLLM
                    Number_toFixed ISO_8601 memories,
                  memories, or_null name with
            | Throw _, _, _ => out = query
            | Normal block, _ :: _, Some n =>
                block <> "" /\
                out = (block ++ LF ++ "Current Question: "
                         ++ n ++ " asks: " ++ query)%string
            | Normal block, _ :: _, None =>
                block <> "" /\
                out = (block ++ LF ++ "Current Question: " ++ query)%string
            | Normal _, [], Some n => out = (n ++ " asks: " ++ query)%string
            | Normal _, [], None => out = query
            end
        end
    end.
Proof.
  unfold MemoryService_getEnhancedContext. unfold try_catch, bind at 1.
  destruct (initialize_if_needed appConfig env s) as [[[]|err] s1].
  2: { unfold ret. eauto. }
  unfold bind at 1.
  destruct (searchMemories_run env s1 query c u None) as (s2 & ->).
  cbn [fst]. set (memories := searchMemories_results appConfig ORDER_BY_timestamp_DESC env s1 query c u None).
  unfold bind, lift, ret.
  destruct (MemoryService_formatMemoriesForLLM _ _ memories) as [block|err] eqn:Hf.
  2: { eauto. }
  destruct memories as [|r rest] eqn:Hm.
  - cbn in Hf. injection Hf as <-. cbn [String.eqb negb].
    destruct (or_null name); eauto.
  - assert (Hne : block <> "").
    { eapply formatMemoriesForLLM_nonempty; [|exact Hf]. discriminate. }
    destruct (String.eqb_spec block ""); [contradiction|]. cbn [negb].
    destruct (or_null name) as [n'|]; [|eauto].
    eexists _, _. split; [reflexivity|]. split; [exact Hne|].
    now rewrite string_append_assoc.
Qed.

Lemma storeMemory_starts env s (userInput botResponse : string)
    (c u : option string) (md : option (gmap string jsval)) :
  ms_initialized s = false ->
  let s' := snd (MemoryService_storeMemory appConfig userInput botResponse
                   c u md env s) in
  (exists rest, calls s' = calls s ++ GET_models :: rest) /\
  (backend_reachable env = true -> store_opens env s = true ->
   ms_initialized s' = true).
Proof.
  intros Hms. unfold MemoryService_storeMemory.
  rewrite try_catch_run, bind_run.
  destruct (starts env s) eqn:Hstart.
  - rewrite (initialize_if_needed_returns appConfig env s Hstart).
    unfold started. rewrite Hms.
    unfold starts in Hstart. rewrite Hms in Hstart. cbn [orb] in Hstart.
    apply andb_true_iff in Hstart as [Hb Hopen].
    rewrite bind_run, generateEmbedding_run.
    destruct (backend_embedding env (truncated userInput)) as [v|code].
    + rewrite bind_run. unfold ask. rewrite bind_run.
      rewrite storeMemory_run by reflexivity.
      cbn [snd calls stored initialized record_call open_calls
           vs_initialized vs_db ms_initialized ret].
      split; [|reflexivity]. rewrite <- !app_assoc. cbn [app]. eauto.
    + cbn [snd throw calls initialized record_call ms_initialized].
      split; [|reflexivity]. rewrite <- !app_assoc. cbn [app]. eauto.
  - destruct (initialize_if_needed_throws appConfig env s Hstart)
      as (message & cs & ->).
    cbn [snd throw calls ms_initialized]. split; [eauto|].
    intros Hb Hopen. unfold starts in Hstart.
    rewrite Hms, Hb, Hopen in Hstart. discriminate.
Qed.

Lemma searchMemories_starts env s (query : string) (c u : option string)
    (limit : option Z) :
  ms_initialized s = false ->
  let s' := snd (MemoryService_searchMemories appConfig ORDER_BY_timestamp_DESC
                   query c u limit env s) in
  (exists rest, calls s' = calls s ++ GET_models :: rest) /\
  (backend_reachable env = true -> store_opens env s = true ->
   ms_initialized s' = true).
Proof.
  intros Hms. unfold MemoryService_searchMemories.
  rewrite try_catch_run, bind_run.
  destruct (starts env s) eqn:Hstart.
  - rewrite (initialize_if_needed_returns appConfig env s Hstart).
    unfold started. rewrite Hms.
    unfold starts in Hstart. rewrite Hms in Hstart. cbn [orb] in Hstart.
    apply andb_true_iff in Hstart as [Hb Hopen].
    rewrite bind_run, generateEmbedding_run.
    destruct (backend_embedding env (truncated query)) as [v|code].
    + rewrite bind_run. rewrite searchSimilar_run by reflexivity.
      cbn [snd calls opened initialized record_call open_calls
           vs_initialized vs_db ms_initialized ret].
      split; [|reflexivity]. rewrite <- !app_assoc. cbn [app]. eauto.
    + cbn [snd ret calls initialized record_call ms_initialized].
      split; [|reflexivity]. rewrite <- !app_assoc. cbn [app]. eauto.
  - destruct (initialize_if_needed_throws appConfig env s Hstart)
      as (message & cs & ->).
    cbn [snd ret calls ms_initialized]. split; [eauto|].
    intros Hb Hopen. unfold starts in Hstart.
    rewrite Hms, Hb, Hopen in Hstart. discriminate.
Qed.

(** C8. While [initialized] is false, [deleteMemory], [getStats] and
    [performMaintenance] throw the not-initialized error and leave every
    field, the file and the list of requests as they were; [storeMemory] and
    [searchMemories] start by calling [initialize] (its connection test is
    their first request), which makes the service initialized when the
    backend answers and the store opens. *)
Theorem maintenance_requires_initialize env s (id : Z)
    (userInput botResponse query : string) (c u : option string)
    (md : option (gmap string jsval)) (limit : option Z) :
  ms_initialized s = false ->
  let not_initialized :=
    Error "Memory service not initialized. Call initialize() first." in
  let after_store :=
    snd (MemoryService_storeMemory appConfig userInput botResponse
           c u md env s) in
  let after_search :=
    snd (MemoryService_searchMemories appConfig ORDER_BY_timestamp_DESC
           query c u limit env s) in
  MemoryService_deleteMemory id env s = (Throw not_initialized, s) /\
  MemoryService_getStats appConfig env s = (Throw not_initialized, s) /\
  MemoryService_performMaintenance env s = (Throw not_initialized, s) /\
  (exists rest, calls after_store = calls s ++ GET_models :: rest) /\
  (exists rest, calls after_search = calls s ++ GET_models :: rest) /\
  (backend_reachable env = true -> store_opens env s = true ->
   ms_initialized after_store = true /\ ms_initialized after_search = true).
Proof.
  intros Hms not_initialized after_store after_search.
  assert (Hthrow : MemoryService_ensureInitialized env s
                   = (Throw not_initialized, s)).
  { unfold MemoryService_ensureInitialized. run_monad. now rewrite Hms. }
  destruct (storeMemory_starts env s userInput botResponse c u md Hms)
    as [Hstore Hstore'].
  destruct (searchMemories_starts env s query c u limit Hms)
    as [Hsearch Hsearch'].
  repeat split; auto.
  - unfold MemoryService_deleteMemory. now rewrite bind_run, Hthrow.
  - unfold MemoryService_getStats. now rewrite bind_run, Hthrow.
  - unfold MemoryService_performMaintenance. now rewrite bind_run, Hthrow.
Qed.

End Retrieval.

(** ** The write path *)

Section Writing.
Context {N : NumOps}.
Variable appConfig : Config (N := N).
Variable ORDER_BY_timestamp_DESC : list (Row (N := N)) -> list (Row (N := N)).
Implicit Types (env : Env (N := N)) (s : State (N := N)).
Implicit Types (e : MemoryEntry (N := N)) (row : Row (N := N)).

(** C5, as the code has it.  An entry has an integer timestamp and metadata
    values that JSON writes, so the INSERT goes through.  When the store
    opens, [storeMemory] returns the entry with its new id and the in-memory
    table holds the new row; the file holds the new database when the write
    succeeded, and what the failed write left of it when the write failed:
    the call returns normally all the same. *)
Theorem put_survives_failed_write env s e :
  store_opens env s = true ->
  let db := open_database s in
  let rowid := next_rowid db in
  let db' := {| memories := memories db ++ [row_of_entry rowid e];
                sqlite_sequence := rowid |} in
  exists s',
    VectorStore_storeMemory e env s = (Normal (with_id e rowid), s') /\
    vs_db s' = Some db' /\
    disk s' = (if writeFile_succeeds env then Some (SqliteImage db')
               else writeFile_failure env db' (disk s)).
Proof.
  intros Hopen db rowid db'. exists (stored env s e).
  split; [now apply storeMemory_run|]. split; reflexivity.
Qed.

Lemma or_null_idem (x : option string) : or_null (or_null x) = or_null x.
Proof.
  destruct x as [v|]; [|reflexivity]. unfold or_null.
  destruct (String.eqb v "") eqn:Hv; [reflexivity | now rewrite Hv].
Qed.

Lemma opened_stored env s e : opened (stored env s e) = stored env s e.
Proof. unfold opened, stored. cbn. now rewrite app_nil_r. Qed.

Lemma memories_stored env s e :
  memories (open_database (stored env s e)) =
  memories (open_database s) ++ [row_of_entry (next_rowid (open_database s)) e].
Proof. reflexivity. Qed.

Lemma sorted_head_is_newest row (old : list (Row (N := N))) (sorted : list Row) :
  Forall (fun r => col_timestamp r < col_timestamp row) old ->
  Permutation (old ++ [row]) sorted ->
  StronglySorted (fun a b : Row => col_timestamp b <= col_timestamp a) sorted ->
  firstn 1 sorted = [row].
Proof.
  intros Hold Hperm Hsorted.
  destruct sorted as [|h t].
  { apply Permutation_sym, Permutation_nil in Hperm.
    now destruct old. }
  cbn. f_equal.
  assert (Hh : In h (old ++ [row])).
  { eapply Permutation_in; [symmetry; exact Hperm | now left]. }
  apply in_app_or in Hh as [Hh|[Hh|[]]]; [|now symmetry].
  exfalso. rewrite List.Forall_forall in Hold. specialize (Hold h Hh).
  assert (Hrow : In row (h :: t)).
  { eapply Permutation_in; [exact Hperm|]. apply in_or_app. right. now left. }
  destruct Hrow as [->|Hrow]; [lia|].
  inversion Hsorted as [|? ? _ Ht]; subst.
  rewrite List.Forall_forall in Ht. specialize (Ht row Hrow). lia.
Qed.

Lemma JSON_numbers_kept (v : list N) :
  Forall (fun x => JSON_number x = x) v -> map JSON_number v = v.
Proof.
  induction 1 as [|x v Hx _ IH]; [reflexivity|].
  cbn [map]. now rewrite Hx, IH.
Qed.

(** C9, as the code has it.  For an entry whose embedding is made of numbers
    that JSON writes and reads back unchanged (finite, and not [-0]), whose
    texts hold no NUL character, whose optional texts are absent or
    non-empty, whose metadata values are strings or [null] (none is
    [undefined]), and whose timestamp is newer than every stored one: [storeMemory] followed by [getRecentMemories]
    with limit 1, under a filter that selects the entry, returns exactly the
    entry with its new id. *)
Theorem put_then_recent `{!OrderBy ORDER_BY_timestamp_DESC} env s e
    (c u : option string) :
  store_opens env s = true ->
  Forall (fun row => col_timestamp row < timestamp e)
         (memories (open_database s)) ->
  Forall (fun x => JSON_number x = x) (embedding e) ->
  UTF8ToString (userInput e) = userInput e ->
  UTF8ToString (botResponse e) = botResponse e ->
  UTF8ToString <$> channelId e = channelId e ->
  UTF8ToString <$> userId e = userId e ->
  UTF8ToString <$> userName e = userName e ->
  or_null (channelId e) = channelId e ->
  or_null (userId e) = userId e ->
  or_null (userName e) = userName e ->
  JSON_roundtrip <$> metadata e = metadata e ->
  selects c u e = true ->
  exists rowid s1 s2,
    VectorStore_storeMemory e env s = (Normal (with_id e rowid), s1) /\
    VectorStore_getRecentMemories appConfig ORDER_BY_timestamp_DESC
      (Some 1) c u env s1 = (Normal [with_id e rowid], s2).
Proof.
  intros Hopen Hnew Hjson Hti Htb Htc Htu Htn Hc Hu Hn Hm Hsel.
  exists (next_rowid (open_database s)), (stored env s e), (stored env s e).
  split; [now apply storeMemory_run|].
  rewrite getRecentMemories_run by reflexivity.
  rewrite opened_stored. f_equal. f_equal.
  unfold LIMIT, limit_or_default. cbn [Z.ltb Z.compare Z.to_nat Pos.to_nat
                                       Pos.iter_op Init.Nat.add].
  set (row := row_of_entry (next_rowid (open_database s)) e).
  assert (Hw : WHERE c u row = true) by exact Hsel.
  rewrite (sorted_head_is_newest row
             (List.filter (WHERE c u) (memories (open_database s)))).
  - cbn [map]. unfold entry_of_row, row, row_of_entry, with_id.
    cbn [col_id col_timestamp col_user_input col_bot_response col_embedding
         col_channel_id col_user_id col_user_name col_metadata].
    now rewrite Hc, Hu, Hn, Htc, Htu, Htn, Hc, Hu, Hn, Hm, Hti, Htb,
      (JSON_numbers_kept _ Hjson).
  - rewrite List.Forall_forall in Hnew |- *.
    intros r [Hr _]%filter_In. exact (Hnew r Hr).
  - unfold selected. rewrite memories_stored.
    rewrite <- order_by_permutation, List.filter_app. cbn [List.filter].
    fold row. now rewrite Hw.
  - unfold selected. apply order_by_sorted.
Qed.

Lemma service_storeMemory_run env s (userInput botResponse : string)
    (c u : option string) (md : option (gmap string jsval)) (v : list N) :
  starts env s = true -> store_opens env s = true ->
  backend_embedding env (truncated userInput) = Vector v ->
  let entry := memoryEntry (Date_now env) userInput botResponse v c u md in
  MemoryService_storeMemory appConfig userInput botResponse c u md env s =
  (Normal (with_id entry (next_rowid (open_database s))),
   stored env (record_call (POST_embeddings (truncated userInput)) (started s))
          entry).
Proof.
  intros Hstart Hopen Hv entry. unfold MemoryService_storeMemory.
  rewrite try_catch_run, bind_run.
  rewrite (initialize_if_needed_returns appConfig env s Hstart).
  rewrite bind_run, generateEmbedding_run, Hv.
  rewrite bind_run. unfold ask. rewrite bind_run.
  rewrite storeMemory_run
    by (rewrite store_opens_record_call; now apply store_opens_started).
  unfold ret.
  replace (next_rowid (open_database s))
    with (next_rowid (open_database
            (record_call (POST_embeddings (truncated userInput)) (started s))));
    [reflexivity|].
  f_equal. exact (open_database_started s).
Qed.

(** C10, as the code has it.  For a metadata object with a [userName] key,
    when the call goes through: the returned entry and the inserted row
    carry the value as [userName] when it is a non-empty string and no
    [userName] otherwise; their metadata never has a [userName] key, and is
    absent when the object has no other key. *)
Theorem storeMemory_promotes_userName env s (userInput botResponse : string)
    (c u : option string) (md : gmap string jsval) (value : jsval)
    (v : list N) :
  md !! "userName" = Some value ->
  starts env s = true -> store_opens env s = true ->
  backend_embedding env (truncated userInput) = Vector v ->
  exists entry s' db' row,
    MemoryService_storeMemory appConfig userInput botResponse c u (Some md) env s
    = (Normal entry, s') /\
    vs_db s' = Some db' /\ last (memories db') = Some row /\
    (forall name, value = JString name -> name <> "" ->
       userName entry = Some name /\ col_user_name row = Some name) /\
    (truthy_string value = None ->
       userName entry = None /\ col_user_name row = None) /\
    (forall m, metadata entry = Some m -> m !! "userName" = None) /\
    (forall m, col_metadata row = Some m -> m !! "userName" = None) /\
    (delete "userName" md = ∅ ->
       metadata entry = None /\ col_metadata row = None).
Proof.
  intros Hvalue Hstart Hopen Hv.
  pose proof (service_storeMemory_run env s userInput botResponse c u
                (Some md) v Hstart Hopen Hv) as Hrun.
  cbv zeta in Hrun.
  set (entry := memoryEntry (Date_now env) userInput botResponse v c u (Some md))
    in Hrun.
  eexists _, _, _, _. split; [exact Hrun|].
  split; [reflexivity|]. split; [apply last_snoc|].
  assert (Hname : userName entry = truthy_string value).
  { unfold entry, memoryEntry. cbn [userName]. now rewrite Hvalue. }
  assert (Hmd : metadata entry =
                if (0 <? size (delete "userName" md))%nat
                then Some (delete "userName" md) else None) by reflexivity.
  assert (Hmeta : forall m, metadata entry = Some m -> m = delete "userName" md).
  { rewrite Hmd. intros m. destruct (_ <? _)%nat; congruence. }
  cbn [with_id userName metadata row_of_entry col_user_name col_metadata].
  rewrite Hname.
  split; [|split; [|split; [|split]]].
  - intros name -> Hne. unfold truthy_string, or_null.
    destruct (String.eqb_spec name ""); [contradiction|].
    cbn. destruct (String.eqb_spec name ""); [contradiction|]. auto.
  - intros ->. auto.
  - intros m ->%Hmeta. apply lookup_delete_eq.
  - intros m. destruct (metadata entry) as [m'|] eqn:Hm'; [|discriminate].
    cbn. intros [= <-]. rewrite (Hmeta m' eq_refl).
    apply map_lookup_filter_None. left. apply lookup_delete_eq.
  - intros Hempty. rewrite Hmd, Hempty, map_size_empty. auto.
Qed.

End Writing.

(** ** The cosine formula *)

Section CosineFormula.
Context {N : NumOps}.



End CosineFormula.

Section CosineBinary64.

Implicit Types (a b : list float) (x acc : float).




End CosineBinary64.

Section CosineNegation.

Implicit Types (a : list float) (x acc : float).




End CosineNegation.

Section CosineTheorem.


End CosineTheorem.

(** ** Further properties of the store and the services *)

Lemma In_firstn {A : Type} (x : A) (n : nat) (l : list A) :
  In x (firstn n l) -> In x l.
Proof.
  intros Hin. rewrite <- (firstn_skipn n l). apply in_or_app. now left.
Qed.

Section Recent.
Context {N : NumOps}.
Variable appConfig : Config (N := N).
Variable ORDER_BY_timestamp_DESC : list (Row (N := N)) -> list (Row (N := N)).
Implicit Types (env : Env (N := N)) (s : State (N := N)).
Implicit Types (row : Row (N := N)) (rows : list (Row (N := N))).

Lemma LIMIT_firstn rows (k : Z) :
  LIMIT rows k = firstn (if (k <? 0)%Z then length rows else Z.to_nat k) rows.
Proof.
  unfold LIMIT. destruct (k <? 0)%Z; [|reflexivity].
  symmetry. apply firstn_all.
Qed.

(** X1.  [VectorStore.getRecentMemories] returns the most recent records
    that pass the filter, newest first: the selected rows can be arranged by
    non-increasing timestamp so that the result is an initial part of the
    arrangement.  For a limit [k >= 0] there are at most [k] entries, and a
    selected record is left out only when [k] are returned (a negative
    limit, as in SQLite, leaves none out). *)
Theorem getRecentMemories_newest_first `{!OrderBy ORDER_BY_timestamp_DESC}
    env s (k : Z) (c u : option string) :
  store_opens env s = true ->
  exists rows older,
    fst (VectorStore_getRecentMemories appConfig ORDER_BY_timestamp_DESC
           (Some k) c u env s)
    = Normal (map entry_of_row rows) /\
    Permutation (List.filter (WHERE c u) (memories (open_database s)))
                (rows ++ older) /\
    StronglySorted (fun r1 r2 => col_timestamp r2 <= col_timestamp r1)
                   (rows ++ older) /\
    (0 <= k -> Z.of_nat (length rows) <= k) /\
    (older <> [] -> Z.of_nat (length rows) = k).
Proof.
  intros Hopen. rewrite getRecentMemories_run by exact Hopen. cbn [fst].
  set (sorted := selected ORDER_BY_timestamp_DESC c u s).
  cbn [limit_or_default]. rewrite LIMIT_firstn.
  set (n := if (k <? 0)%Z then length sorted else Z.to_nat k).
  assert (Hn : n = if (k <? 0)%Z then length sorted else Z.to_nat k)
    by reflexivity.
  clearbody n.
  exists (firstn n sorted), (skipn n sorted). split; [reflexivity|].
  rewrite firstn_skipn. subst sorted. unfold selected.
  split; [apply order_by_permutation|].
  split; [apply order_by_sorted|].
  fold (selected ORDER_BY_timestamp_DESC c u s) in *.
  set (sorted := selected ORDER_BY_timestamp_DESC c u s) in *. split.
  - intros Hk. rewrite length_firstn. subst n.
    destruct (Z.ltb_spec k 0); lia.
  - intros Hrest. rewrite length_firstn. subst n.
    destruct (Z.ltb_spec k 0).
    + exfalso. apply Hrest. apply skipn_all.
    + assert (Z.to_nat k < length sorted)%nat.
      { destruct (Nat.lt_ge_cases (Z.to_nat k) (length sorted)); [assumption|].
        exfalso. apply Hrest. now apply skipn_all2. }
      lia.
Qed.

End Recent.

Section Deleting.
Context {N : NumOps}.
Variable appConfig : Config (N := N).
Variable ORDER_BY_timestamp_DESC : list (Row (N := N)) -> list (Row (N := N)).
Implicit Types (env : Env (N := N)) (s : State (N := N)).
Implicit Types (row : Row (N := N)) (rows : list (Row (N := N))).

Lemma without_id_length rows (id : Z) :
  (length (without_id id rows) <= length rows)%nat.
Proof.
  unfold without_id. induction rows as [|row rows IH]; [reflexivity|].
  cbn [List.filter length]. destruct (col_id row =? id)%Z; cbn [negb length]; lia.
Qed.

Lemma changes_positive rows (id : Z) :
  (0 <? length rows - length (without_id id rows))%nat = has_id id rows.
Proof.
  induction rows as [|row rows IH]; [reflexivity|].
  pose proof (without_id_length rows id) as Hle.
  unfold without_id, has_id in *. cbn [List.filter existsb length].
  destruct (col_id row =? id)%Z; cbn [negb orb length].
  - apply Nat.ltb_lt. lia.
  - exact IH.
Qed.

Lemma deleteMemory_run env s (id : Z) :
  store_opens env s = true ->
  VectorStore_deleteMemory id env s
  = (Normal (has_id id (memories (open_database s))), deleted env s id).
Proof.
  intros Hopen. unfold VectorStore_deleteMemory.
  unfold bind at 1. rewrite (ensureInitialized_opens env s Hopen).
  unfold VectorStore_saveDatabase, deleted, opened.
  run_monad. fold (without_id id (memories (open_database s))).
  rewrite changes_positive.
  destruct (has_id id (memories (open_database s))); run_monad.
  - destruct (writeFile_succeeds env); run_monad;
      rewrite <- app_assoc; reflexivity.
  - rewrite app_nil_r. reflexivity.
Qed.

Lemma has_id_In rows (id : Z) :
  has_id id rows = true <-> In id (map col_id rows).
Proof.
  unfold has_id. rewrite existsb_exists, in_map_iff. split.
  - intros (r & Hin & Heq). exists r. split; [lia | exact Hin].
  - intros (r & Heq & Hin). exists r. split; [exact Hin | lia].
Qed.

Lemma without_id_In rows (id : Z) row :
  In row (without_id id rows) <-> In row rows /\ col_id row <> id.
Proof.
  unfold without_id. rewrite filter_In. split; intros [H1 H2]; (split; [exact H1|]).
  - intros Heq. rewrite Heq, Z.eqb_refl in H2. discriminate.
  - destruct (Z.eqb_spec (col_id row) id); [contradiction | reflexivity].
Qed.

Lemma has_id_without_id rows (id : Z) : has_id id (without_id id rows) = false.
Proof.
  apply not_true_is_false. rewrite has_id_In, in_map_iff.
  intros (r & Heq & Hin). apply without_id_In in Hin. tauto.
Qed.

(** X2.  When the store opens, [VectorStore.deleteMemory] returns whether a
    row has the id; afterwards the in-memory table holds the rows of any
    other id and no row of that id.  The file is written only when a row
    was deleted; when nothing was deleted the table and the file are
    untouched. *)
Theorem deleteMemory_removes_the_id env s (id : Z) :
  store_opens env s = true ->
  exists found s',
    VectorStore_deleteMemory id env s = (Normal found, s') /\
    (found = true <-> In id (map col_id (memories (open_database s)))) /\
    (forall row, In row (rows_in_memory s') <->
                 In row (memories (open_database s)) /\ col_id row <> id) /\
    (found = false ->
     rows_in_memory s' = memories (open_database s) /\
     disk s' = disk s /\ calls s' = calls s ++ open_calls s) /\
    (found = true ->
     calls s' = calls s ++ open_calls s ++ [Call_writeFile] /\
     (writeFile_succeeds env = true -> disk s' = SqliteImage <$> vs_db s')).
Proof.
  intros Hopen. rewrite deleteMemory_run by exact Hopen.
  eexists _, _. split; [reflexivity|].
  split; [apply has_id_In|]. split; [intros row; apply without_id_In|].
  unfold deleted, rows_in_memory. cbn [vs_db disk calls memories]. split.
  - intros Hfound. rewrite Hfound. rewrite app_nil_r.
    split; [|split; reflexivity].
    unfold without_id. apply forallb_filter_id.
    rewrite forallb_forall. intros r Hin.
    destruct (Z.eqb_spec (col_id r) id) as [Heq|]; [|reflexivity].
    apply not_true_iff_false in Hfound. exfalso. apply Hfound.
    apply has_id_In, in_map_iff. eauto.
  - intros Hfound. rewrite Hfound. split; [reflexivity|].
    intros ->. reflexivity.
Qed.

Lemma store_opens_deleted env s (id : Z) : store_opens env (deleted env s id) = true.
Proof. reflexivity. Qed.

Lemma store_opens_stored env s (e : MemoryEntry (N := N)) :
  store_opens env (stored env s e) = true.
Proof. reflexivity. Qed.

Lemma open_database_deleted env s (id : Z) :
  open_database (deleted env s id)
  = {| memories := without_id id (memories (open_database s));
       sqlite_sequence := sqlite_sequence (open_database s) |}.
Proof. reflexivity. Qed.

Lemma open_database_stored env s (e : MemoryEntry (N := N)) :
  open_database (stored env s e)
  = {| memories := memories (open_database s)
                   ++ [row_of_entry (next_rowid (open_database s)) e];
       sqlite_sequence := next_rowid (open_database s) |}.
Proof. reflexivity. Qed.

Lemma search_rows_In (q : list N) (limit : option Z) rows r :
  In r (search_rows appConfig q limit rows) ->
  exists row, In row rows /\ entry r = entry_of_row row.
Proof.
  unfold search_rows. destruct (scan _ _ _ _) as [results|] eqn:Hscan; [|intros []].
  intros Hin.
  destruct (Array_slice0_firstn
              (Array_sort (fun a b => similarity b - similarity a)%js results)
              (limit_or_default appConfig limit)) as [n Hn].
  rewrite Hn in Hin. apply In_firstn in Hin.
  eapply Permutation_in in Hin; [|symmetry; apply Array_sort_perm].
  apply scan_returns in Hscan. subst results. cbn [app] in Hin.
  apply list_elem_of_In, list_elem_of_omap in Hin as (row & Hrow & Hscore).
  exists row. split; [now apply list_elem_of_In|].
  apply score_Some in Hscore as (-> & _). reflexivity.
Qed.

(** X3.  After [deleteMemory], neither [getRecentMemories] nor
    [searchSimilar] returns a record with the deleted id, and deleting the
    same id again returns [false]. *)
Theorem deleted_memory_is_not_returned `{!OrderBy ORDER_BY_timestamp_DESC}
    env s (rowid : Z) (q : list N) (limit : option Z) (c u : option string) :
  store_opens env s = true ->
  exists s' entries results,
    snd (VectorStore_deleteMemory rowid env s) = s' /\
    fst (VectorStore_getRecentMemories appConfig ORDER_BY_timestamp_DESC
           limit c u env s') = Normal entries /\
    Forall (fun e => id e <> Some rowid) entries /\
    fst (VectorStore_searchSimilar appConfig ORDER_BY_timestamp_DESC
           q limit c u env s') = Normal results /\
    Forall (fun r => id (entry r) <> Some rowid) results /\
    fst (VectorStore_deleteMemory rowid env s') = Normal false.
Proof.
  intros Hopen. rewrite deleteMemory_run by exact Hopen. cbn [snd].
  eexists _, _, _. split; [reflexivity|].
  rewrite getRecentMemories_run, searchSimilar_run, deleteMemory_run
    by apply store_opens_deleted.
  cbn [fst].
  assert (Hsel : forall row,
             In row (selected ORDER_BY_timestamp_DESC c u (deleted env s rowid)) ->
             col_id row <> rowid).
  { intros row Hin. apply selected_In in Hin as [Hin _]; [|assumption].
    rewrite open_database_deleted in Hin. cbn [memories] in Hin.
    now apply without_id_In in Hin. }
  split; [reflexivity|]. split.
  { apply List.Forall_forall. intros e Hin.
    apply in_map_iff in Hin as (row & <- & Hin).
    rewrite LIMIT_firstn in Hin. apply In_firstn in Hin.
    cbn [entry_of_row id]. intros [= Heq]. now apply (Hsel row). }
  split; [reflexivity|]. split.
  { apply List.Forall_forall. intros r Hin.
    apply search_rows_In in Hin as (row & Hin & ->).
    cbn [entry_of_row id]. intros [= Heq]. now apply (Hsel row). }
  rewrite open_database_deleted. cbn [memories].
  now rewrite has_id_without_id.
Qed.

Lemma next_rowid_above rows (seq : Z) row :
  In row rows ->
  col_id row < next_rowid {| memories := rows; sqlite_sequence := seq |}.
Proof.
  unfold next_rowid. cbn [memories sqlite_sequence]. intros Hin.
  enough (col_id row <= fold_right Z.max 0 (map col_id rows)) by lia.
  induction rows as [|r rows IH]; [destruct Hin|].
  cbn [map fold_right]. destruct Hin as [->|Hin]; [lia|].
  specialize (IH Hin). lia.
Qed.



Lemma NoDup_without_id rows (rowid : Z) :
  NoDup (map col_id rows) -> NoDup (map col_id (without_id rowid rows)).
Proof.
  unfold without_id. induction rows as [|row rows IH]; [trivial|].
  cbn [map List.filter]. intros [Hnotin Hnd]%NoDup_cons.
  destruct (negb _); [|auto].
  cbn [map]. apply NoDup_cons. split; [|auto].
  intros Hin. apply Hnotin. apply list_elem_of_In.
  apply list_elem_of_In, in_map_iff in Hin as (r & Heq & Hin). apply in_map_iff.
  exists r. split; [exact Heq|]. now apply filter_In in Hin as [Hin _].
Qed.

Lemma without_id_length_found rows (rowid : Z) :
  NoDup (map col_id rows) -> In rowid (map col_id rows) ->
  S (length (without_id rowid rows)) = length rows.
Proof.
  unfold without_id. induction rows as [|row rows IH]; [intros _ []|].
  cbn [map List.filter length]. intros [Hnotin Hnd']%NoDup_cons Hin.
  destruct (Z.eqb_spec (col_id row) rowid) as [Heq|Hne]; cbn [negb length].
  - f_equal. f_equal. apply forallb_filter_id, forallb_forall.
    intros r Hr. destruct (Z.eqb_spec (col_id r) rowid) as [Heq'|]; [|reflexivity].
    exfalso. apply Hnotin, list_elem_of_In, in_map_iff. exists r. split; [congruence | exact Hr].
  - f_equal. apply IH; [exact Hnd'|]. destruct Hin as [Heq|Hin]; [contradiction | exact Hin].
Qed.

(** X5.  [storeMemory] and [deleteMemory] keep the ids of the table distinct;
    with distinct ids, deleting an id that is present removes exactly one
    row. *)
Theorem ids_stay_unique env s (e : MemoryEntry (N := N)) (rowid : Z) :
  store_opens env s = true ->
  ids_unique (open_database s) ->
  (exists db', vs_db (snd (VectorStore_storeMemory e env s)) = Some db' /\
               ids_unique db') /\
  (exists db', vs_db (snd (VectorStore_deleteMemory rowid env s)) = Some db' /\
               ids_unique db' /\
               (In rowid (map col_id (memories (open_database s))) ->
                S (length (memories db')) = length (memories (open_database s)))).
Proof.
  intros Hopen Hnd. unfold ids_unique in *. split.
  - rewrite storeMemory_run by exact Hopen. eexists. split; [reflexivity|].
    cbn [memories]. rewrite map_app. cbn [map row_of_entry col_id].
    apply NoDup_app. split; [exact Hnd|]. split.
    + intros x Hx [Heq|[]]%list_elem_of_In. subst x.
      apply list_elem_of_In, in_map_iff in Hx as (row & Heq & Hin).
      destruct (open_database s) as [rows seq]. cbn [memories] in *.
      pose proof (next_rowid_above rows seq row Hin). lia.
    + apply NoDup_singleton.
  - rewrite deleteMemory_run by exact Hopen. eexists. split; [reflexivity|].
    cbn [memories]. split; [now apply NoDup_without_id|].
    now apply without_id_length_found.
Qed.

(** X6.  [getMemoryCount] after a [storeMemory] is one more than before. *)
Theorem storeMemory_adds_one_to_count env s (e : MemoryEntry (N := N)) :
  store_opens env s = true ->
  exists n stored_entry s1,
    fst (VectorStore_getMemoryCount env s) = Normal n /\
    VectorStore_storeMemory e env s = (Normal stored_entry, s1) /\
    fst (VectorStore_getMemoryCount env s1) = Normal (n + 1).
Proof.
  intros Hopen. eexists _, _, _.
  rewrite getMemoryCount_run by exact Hopen.
  split; [reflexivity|]. split; [apply storeMemory_run; exact Hopen|].
  rewrite getMemoryCount_run by apply store_opens_stored.
  cbn [fst]. rewrite open_database_stored. cbn [memories].
  rewrite length_app. cbn [length]. f_equal. lia.
Qed.

Lemma store_opens_restart env s :
  initSqlJs_error env = None ->
  store_opens env (restart s) = match disk s with Some Garbage => false | _ => true end.
Proof. intros H. unfold store_opens, restart. cbn. rewrite H. reflexivity. Qed.

(** X7.  A record stored while the file can be written survives a restart:
    a new process, which opens the file again, works on the same database,
    and [getRecentMemories] and [searchSimilar] return there what they
    return in the process that stored the record. *)
Theorem stored_memory_survives_restart env s (e : MemoryEntry (N := N))
    (q : list N) (limit : option Z) (c u : option string) :
  store_opens env s = true ->
  writeFile_succeeds env = true ->
  initSqlJs_error env = None ->
  exists stored_entry s1,
    VectorStore_storeMemory e env s = (Normal stored_entry, s1) /\
    open_database (restart s1) = open_database s1 /\
    fst (VectorStore_getRecentMemories appConfig ORDER_BY_timestamp_DESC
           limit c u env (restart s1))
    = fst (VectorStore_getRecentMemories appConfig ORDER_BY_timestamp_DESC
             limit c u env s1) /\
    fst (VectorStore_searchSimilar appConfig ORDER_BY_timestamp_DESC
           q limit c u env (restart s1))
    = fst (VectorStore_searchSimilar appConfig ORDER_BY_timestamp_DESC
             q limit c u env s1).
Proof.
  intros Hopen Hw Hsql. eexists _, _.
  split; [apply storeMemory_run; exact Hopen|].
  assert (Hdb : open_database (restart (stored env s e))
                = open_database (stored env s e)).
  { unfold restart, stored, open_database. cbn. rewrite Hw. reflexivity. }
  assert (Hre : store_opens env (restart (stored env s e)) = true).
  { rewrite store_opens_restart by exact Hsql.
    unfold stored. cbn [disk]. rewrite Hw. reflexivity. }
  split; [exact Hdb|].
  rewrite !getRecentMemories_run, !searchSimilar_run
    by (exact Hre || apply store_opens_stored).
  cbn [fst]. unfold selected. rewrite Hdb. split; reflexivity.
Qed.

End Deleting.

(** ** Methods that only read *)

Section ReadOnly.
Context {N : NumOps}.
Variable appConfig : Config (N := N).
Variable ORDER_BY_timestamp_DESC : list (Row (N := N)) -> list (Row (N := N)).
Variable Number_toFixed : N -> nat -> string.
Variable ISO_8601 : Z -> string.
Implicit Types (env : Env (N := N)) (s : State (N := N)).



























End ReadOnly.

Section Best.
Context {N : NumOps}.
Variable appConfig : Config (N := N).
Variable ORDER_BY_timestamp_DESC : list (Row (N := N)) -> list (Row (N := N)).
Implicit Types (env : Env (N := N)) (s : State (N := N)).

(** X10.  [searchSimilar] returns the best matches.  When every selected
    record has the query's dimension and the limit is [k >= 0], the scored
    records that reach the threshold can be arranged in ranked order
    (similarity descending, newer first among equals) so that the result is
    an initial part of the arrangement, and one is left out only when [k]
    are returned. *)
Theorem search_returns_the_best `{!NumOrder N} `{!OrderBy ORDER_BY_timestamp_DESC}
    env s (q : list N) (k : Z) (c u : option string) :
  store_opens env s = true ->
  0 <= k ->
  Forall (fun row => WHERE c u row = true ->
                     length (col_embedding row) = length q)
         (memories (open_database s)) ->
  exists results missed,
    fst (VectorStore_searchSimilar appConfig ORDER_BY_timestamp_DESC
           q (Some k) c u env s) = Normal results /\
    Permutation
      (omap (score appConfig q)
            (List.filter (WHERE c u) (memories (open_database s))))
      (results ++ missed) /\
    StronglySorted ranked (results ++ missed) /\
    (missed <> [] -> Z.of_nat (length results) = k).
Proof.
  intros Hopen Hk Hdim.
  assert (Hall : Forall (fun row => length (col_embedding row) = length q)
                        (selected ORDER_BY_timestamp_DESC c u s)).
  { apply List.Forall_forall. intros row Hin.
    apply selected_In in Hin as [Hin Hw]; [|assumption].
    rewrite List.Forall_forall in Hdim. auto. }
  rewrite (search_scores_on_matching_dimensions appConfig ORDER_BY_timestamp_DESC
             env s q (Some k) c u Hopen Hall).
  cbn [fst limit_or_default].
  set (sorted := Array_sort (fun a b => similarity b - similarity a)%js
                   (omap (score appConfig q)
                         (selected ORDER_BY_timestamp_DESC c u s))).
  unfold Array_slice0. destruct (Z.ltb_spec k 0) as [?|_]; [lia|].
  exists (firstn (Z.to_nat k) sorted), (skipn (Z.to_nat k) sorted).
  split; [reflexivity|]. rewrite firstn_skipn. split; [|split].
  - subst sorted. rewrite <- Array_sort_perm. unfold selected.
    apply omap_Permutation, order_by_permutation.
  - subst sorted. apply Array_sort_ranked.
    + apply omap_score_Forall. intros row r _ Hr.
      apply score_Some in Hr as (_ & _ & Hge). exact (geb_number _ _ Hge).
    + apply omap_score_sorted. unfold selected. apply order_by_sorted.
  - intros Hmissed. rewrite length_firstn.
    destruct (Nat.lt_ge_cases (Z.to_nat k) (length sorted)); [lia|].
    exfalso. apply Hmissed. now apply skipn_all2.
Qed.

End Best.

Section Formatting.
Context {N : NumOps}.
Variable Number_toFixed : N -> nat -> string.
Variable ISO_8601 : Z -> string.
Implicit Types (results : list (MemorySearchResult (N := N))).

Lemma format_each_returns (index : nat) results :
  Forall (fun r => Z.abs (timestamp (entry r)) <= 8640000000000000) results ->
  exists text, format_each Number_toFixed ISO_8601 index results = Normal text.
Proof.
  intros H. revert index. induction H as [|r results Hr _ IH]; intros index.
  - eexists. reflexivity.
  - cbn [format_each]. unfold Date_toISOString.
    destruct (Z.leb_spec (Z.abs (timestamp (entry r))) 8640000000000000); [|lia].
    destruct (IH (S index)) as [text ->]. eexists. reflexivity.
Qed.

Lemma format_each_throws (index : nat) results :
  Exists (fun r => 8640000000000000 < Z.abs (timestamp (entry r))) results ->
  format_each Number_toFixed ISO_8601 index results
  = Throw (RangeError "Invalid time value").
Proof.
  intros H. revert index. induction H as [r results Hr|r results _ IH]; intros index;
    cbn [format_each]; unfold Date_toISOString.
  - destruct (Z.leb_spec (Z.abs (timestamp (entry r))) 8640000000000000); [lia|].
    reflexivity.
  - destruct (Z.abs (timestamp (entry r)) <=? 8640000000000000)%Z; [|reflexivity].
    now rewrite IH.
Qed.

(** X13.  [formatMemoriesForLLM] returns a text when every timestamp is a
    valid time value (at most 8.64e15 in magnitude), and the text is empty
    exactly when there are no results; with a timestamp out of that range it
    throws the [RangeError] of [toISOString]. *)
Theorem formatMemoriesForLLM_outcome results :
  (Forall (fun r => Z.abs (timestamp (entry r)) <= 8640000000000000) results ->
   exists text,
     MemoryService_formatMemoriesForLLM Number_toFixed ISO_8601 results
     = Normal text /\
     (text = "" <-> results = [])) /\
  (Exists (fun r => 8640000000000000 < Z.abs (timestamp (entry r))) results ->
   MemoryService_formatMemoriesForLLM Number_toFixed ISO_8601 results
   = Throw (RangeError "Invalid time value")).
Proof.
  split.
  - intros H. destruct results as [|r [|r' rest]].
    + exists "". split; [reflexivity|]. tauto.
    + cbn [MemoryService_formatMemoriesForLLM]. unfold Date_toISOString.
      inversion H as [|? ? Hr _]; subst.
      destruct (Z.leb_spec (Z.abs (timestamp (entry r))) 8640000000000000); [|lia].
      eexists. split; [reflexivity|]. split; [|discriminate].
      intros Hempty. now apply memories_header_nonempty in Hempty.
    + cbn [MemoryService_formatMemoriesForLLM].
      destruct (format_each_returns 0 (r :: r' :: rest) H) as [text ->].
      eexists. split; [reflexivity|]. split; [|discriminate].
      intros Hempty. now apply memories_header_nonempty in Hempty.
  - intros H. destruct results as [|r [|r' rest]].
    + inversion H.
    + cbn [MemoryService_formatMemoriesForLLM]. unfold Date_toISOString.
      inversion H as [? ? Hr|? ? Hr]; subst; [|inversion Hr].
      destruct (Z.leb_spec (Z.abs (timestamp (entry r))) 8640000000000000); [lia|].
      reflexivity.
    + cbn [MemoryService_formatMemoriesForLLM].
      now rewrite (format_each_throws 0 (r :: r' :: rest) H).
Qed.

End Formatting.

Section ServiceOutcomes.
Context {N : NumOps}.
Variable appConfig : Config (N := N).
Variable ORDER_BY_timestamp_DESC : list (Row (N := N)) -> list (Row (N := N)).
Implicit Types (env : Env (N := N)) (s : State (N := N)).


(** X12.  [MemoryService.getRecentMemories] does not initialize the service:
    while [initialized] is false it throws the not-initialized [Error] and
    changes nothing.  On an initialized service it is the store's
    [getRecentMemories] with the default limit filled in, and a store that
    cannot be opened gives an [Error] with the method's prefix. *)
Theorem recent_memories_require_initialize env s (c u : option string)
    (limit : option Z) :
  (ms_initialized s = false ->
   MemoryService_getRecentMemories appConfig ORDER_BY_timestamp_DESC
     c u limit env s
   = (Throw (Error "Memory service not initialized. Call initialize() first."),
      s)) /\
  (ms_initialized s = true -> store_opens env s = true ->
   MemoryService_getRecentMemories appConfig ORDER_BY_timestamp_DESC
     c u limit env s
   = VectorStore_getRecentMemories appConfig ORDER_BY_timestamp_DESC
       (Some (limit_or_default appConfig limit)) c u env s) /\
  (ms_initialized s = true -> store_opens env s = false ->
   exists message s',
     MemoryService_getRecentMemories appConfig ORDER_BY_timestamp_DESC
       c u limit env s
     = (Throw (Error ("Failed to get recent memories: " ++ message)), s')).
Proof.
  unfold MemoryService_getRecentMemories, MemoryService_ensureInitialized.
  split; [|split].
  - intros Hms. run_monad. rewrite Hms. reflexivity.
  - intros Hms Hopen. run_monad. rewrite Hms. cbn [negb]. run_monad.
    rewrite getRecentMemories_run by exact Hopen. reflexivity.
  - intros Hms Hopen. run_monad. rewrite Hms. cbn [negb]. run_monad.
    destruct (ensureInitialized_fails env s Hopen) as (err & cs & H).
    unfold VectorStore_getRecentMemories. rewrite bind_run, H.
    eexists _, _. reflexivity.
Qed.

End ServiceOutcomes.

(** ** Error codes *)

Section ErrorCodes.

Lemma pretty_N_go_head (x : N) (s : string) :
  String.get 0%nat s <> Some "M"%char ->
  String.get 0%nat (pretty_N_go x s) <> Some "M"%char.
Proof.
  revert s. induction (N.lt_wf_0 x) as [x _ IH]; intros s Hs.
  destruct (N.eq_dec x 0%N) as [->|Hx]; [now rewrite pretty_N_go_0|].
  rewrite pretty_N_go_step by lia. apply IH.
  - apply N.div_lt; lia.
  - cbn [String.get]. unfold pretty_N_char.
    repeat case_match; discriminate.
Qed.

Lemma pretty_Z_head (z : Z) : String.get 0%nat (pretty z) <> Some "M"%char.
Proof.
  assert (Hp : forall p : positive, String.get 0%nat (pretty p) <> Some "M"%char).
  { intros p. unfold pretty, pretty_positive, pretty, pretty_N.
    destruct (decide (N.pos p = 0%N)); [discriminate|].
    now apply pretty_N_go_head. }
  destruct z as [|p|p]; [discriminate | apply Hp | discriminate].
Qed.

(** X15.  [handleError] always yields an [ApiError] whose code is
    [CONNECTION_REFUSED], [TIMEOUT], [UNKNOWN_ERROR] or the decimal numeral
    of an HTTP status; it is never [MODEL_NOT_FOUND]; and a refused
    connection is reported as such even when a response is attached. *)
Theorem handleError_codes (error : unknown) :
  exists code,
    handleError error = ApiError code /\
    (code = "CONNECTION_REFUSED" \/ code = "TIMEOUT" \/ code = "UNKNOWN_ERROR" \/
     exists status : Z, code = pretty status) /\
    code <> "MODEL_NOT_FOUND" /\
    (forall axiosError,
       error = IsAxiosError axiosError ->
       axios_code axiosError = Some "ECONNREFUSED" ->
       code = "CONNECTION_REFUSED").
Proof.
  destruct error as [axiosError|e]; cbn [handleError].
  - destruct (bool_decide_reflect (axios_code axiosError = Some "ECONNREFUSED"))
      as [Hr|Hr].
    { eexists. split; [reflexivity|]. split; [auto|]. split; [discriminate|auto]. }
    destruct (bool_decide_reflect (axios_code axiosError = Some "ECONNABORTED"))
      as [Ha|Ha].
    { eexists. split; [reflexivity|]. split; [auto|]. split; [discriminate|].
      intros ? [= <-] H. congruence. }
    destruct (axios_response_status axiosError) as [status|].
    + eexists. split; [reflexivity|]. split; [eauto 6|]. split.
      * intros Heq. apply (pretty_Z_head status). now rewrite Heq.
      * intros ? [= <-] H. congruence.
    + eexists. split; [reflexivity|]. split; [auto|]. split; [discriminate|].
      intros ? [= <-] H. congruence.
  - eexists. split; [reflexivity|]. split; [auto|]. split; discriminate.
Qed.

End ErrorCodes.

Section BatchOutcome.
Context {N : NumOps}.
Implicit Types (env : Env (N := N)) (s : State (N := N)).



End BatchOutcome.

(** ** The chat service *)

Section ChatOutcomes.
Context {N : NumOps}.
Variable appConfig : Config (N := N).
Variable chatConfig : ChatConfig.
Variable ORDER_BY_timestamp_DESC : list (Row (N := N)) -> list (Row (N := N)).
Variable Number_toFixed : N -> nat -> string.
Variable ISO_8601 : Z -> string.
Implicit Types (env : ChatEnv (N := N)) (s : ChatState (N := N)).

Lemma and_then_run {A B : Type} (m : Promise (N := N) A) (k : A -> Promise B) env s :
  and_then m k env s =
  match m env s with
  | (Fulfilled a, s') => k a env s'
  | (RejectedWith reason, s') => (RejectedWith reason, s')
  end.
Proof. reflexivity. Qed.

Lemma catch_run {A : Type} (body : Promise (N := N) A) handler env s :
  catch body handler env s =
  match body env s with
  | (Fulfilled a, s') => (Fulfilled a, s')
  | (RejectedWith reason, s') => handler reason env s'
  end.
Proof. reflexivity. Qed.

Lemma executeThinkingPhase_run env s messages phaseName :
  LLMService_executeThinkingPhase chatConfig messages phaseName env s =
  (match client env (requests s) (completion_request chatConfig messages) with
   | Responded content =>
       match or_null content with
       | Some response => Fulfilled response
       | None => RejectedWith
                   (NotAxiosError
                      (Error (match llmProvider chatConfig with
                              | docker_model_runner =>
                                  "Invalid response format from Docker Model Runner"
                              | ollama => "Invalid response format from Ollama"
                              end)))
       end
   | Failed axiosError => RejectedWith (IsAxiosError axiosError)
   end,
   record_request (completion_request chatConfig messages) s).
Proof.
  unfold LLMService_executeThinkingPhase, completion_request,
    LLMService_chatWithDockerModelRunner, LLMService_chatWithOllama.
  destruct (llmProvider chatConfig); rewrite !and_then_run; unfold request;
    (destruct (client env (requests s) _) as [content|e]; [|reflexivity]);
    destruct (or_null content); reflexivity.
Qed.

Lemma context_lookup_run env s userMessage c u name :
  catch (await (MemoryService_getEnhancedContext appConfig
                  ORDER_BY_timestamp_DESC Number_toFixed ISO_8601
                  userMessage c u name))
        (fun _ => resolve userMessage) env s =
  (Fulfilled (enhanced_message appConfig ORDER_BY_timestamp_DESC
                Number_toFixed ISO_8601 env s userMessage c u name),
   set_memory (memory_after_lookup appConfig ORDER_BY_timestamp_DESC
                 Number_toFixed ISO_8601 env s userMessage c u name) s).
Proof.
  rewrite catch_run. unfold await, enhanced_message, memory_after_lookup.
  destruct (MemoryService_getEnhancedContext _ _ _ _ _ _ _ _ _ _)
    as [[out|err] m]; reflexivity.
Qed.

Lemma or_null_Some (v : string) : v <> "" -> or_null (Some v) = Some v.
Proof.
  intros Hv. unfold or_null. now destruct (String.eqb_spec v "").
Qed.

Lemma or_null_not_empty (x : option string) (v : string) :
  or_null x = Some v -> v <> "".
Proof.
  destruct x as [w|]; [|discriminate]. unfold or_null.
  destruct (String.eqb_spec w ""); [discriminate|]. now intros [= <-].
Qed.

(** X16.  [chat] returns the answer of the third phase.  When the backend
    gives a non-empty text to each of the three requests, the planning one
    built from the enhanced message, the reasoning one from that and the
    plan, the summary one from those and the reasoning, [chat] returns the
    third text, whatever the memory service did during the lookup; it has
    made these three requests and no other, and has started, without
    awaiting it, one promise that stores the message as the user wrote it
    with that answer. *)
Theorem chat_returns_the_summary env s (userMessage : string)
    (history : list ChatMessage) (c u name : option string)
    (planning reasoning summary : string) :
  let enhanced :=
    enhanced_message appConfig ORDER_BY_timestamp_DESC Number_toFixed ISO_8601
      env s userMessage c u name in
  let phase1 := planning_request chatConfig enhanced history in
  let phase2 := reasoning_request chatConfig enhanced history planning in
  let phase3 :=
    summary_request chatConfig enhanced history planning reasoning in
  planning <> "" -> reasoning <> "" -> summary <> "" ->
  client env (requests s) phase1 = Responded (Some planning) ->
  client env (requests s ++ [phase1]) phase2 = Responded (Some reasoning) ->
  client env (requests s ++ [phase1; phase2]) phase3
    = Responded (Some summary) ->
  exists s',
    LLMService_chat appConfig chatConfig ORDER_BY_timestamp_DESC Number_toFixed
      ISO_8601 userMessage history c u name env s = (Fulfilled summary, s') /\
    requests s' = requests s ++ [phase1; phase2; phase3] /\
    detached s' = detached s
                    ++ [storeMemory_promise appConfig userMessage summary
                          c u name].
Proof.
  intros enhanced phase1 phase2 phase3 Hp Hr Hs H1 H2 H3.
  unfold LLMService_chat.
  rewrite catch_run, and_then_run, context_lookup_run.
  fold enhanced. rewrite and_then_run.
  unfold LLMService_processWithStructuredThinking.
  rewrite and_then_run, executeThinkingPhase_run.
  cbn [requests set_memory]. fold phase1. unfold planning_request in phase1.
  fold phase1. rewrite H1, (or_null_Some _ Hp).
  rewrite and_then_run, executeThinkingPhase_run.
  cbn [requests record_request set_memory].
  unfold reasoning_request in phase2. fold phase2.
  rewrite H2, (or_null_Some _ Hr).
  rewrite and_then_run, executeThinkingPhase_run.
  cbn [requests record_request set_memory].
  unfold summary_request in phase3. fold phase3.
  rewrite <- app_assoc. cbn [app]. rewrite H3, (or_null_Some _ Hs).
  unfold resolve, LLMService_storeMemoryAsync, detach, record_detached,
    and_then.
  cbn [requests detached memory record_request set_memory].
  eexists. split; [reflexivity|]. cbn [requests detached].
  rewrite <- ?app_assoc. split; reflexivity.
Qed.

Lemma processWithStructuredThinking_cases env s (userMessage : string)
    (history : list ChatMessage) :
  match LLMService_processWithStructuredThinking chatConfig userMessage
          history env s with
  | (Fulfilled answer, s') =>
      answer <> "" /\
      (exists phase1 phase2 phase3,
         requests s' = requests s ++ [phase1; phase2; phase3]) /\
      detached s' = detached s /\ memory s' = memory s
  | (RejectedWith reason, s') =>
      (exists earlier last,
         requests s' = requests s ++ earlier ++ [last] /\
         (length earlier <= 2)%nat /\
         match client env (requests s ++ earlier) last with
         | Failed axiosError => reason = IsAxiosError axiosError
         | Responded content =>
             or_null content = None /\ exists e, reason = NotAxiosError e
         end) /\
      detached s' = detached s /\ memory s' = memory s
  end.
Proof.
  unfold LLMService_processWithStructuredThinking.
  rewrite and_then_run, executeThinkingPhase_run.
  set (phase1 := completion_request _ _).
  destruct (client env (requests s) phase1) as [content1|e1] eqn:H1.
  2: { split; [|auto]. exists [], phase1.
       split; [reflexivity|]. split; [cbn; lia|].
       rewrite app_nil_r, H1. reflexivity. }
  destruct (or_null content1) as [planning|] eqn:Hc1.
  2: { split; [|auto]. exists [], phase1.
       split; [reflexivity|]. split; [cbn; lia|].
       rewrite app_nil_r, H1. eauto. }
  rewrite and_then_run, executeThinkingPhase_run.
  cbn [requests record_request].
  set (phase2 := completion_request _ _).
  destruct (client env (requests s ++ [phase1]) phase2) as [content2|e2] eqn:H2.
  2: { split; [|auto]. exists [phase1], phase2.
       split; [cbn [requests record_request]; now rewrite <- ?app_assoc|].
       split; [cbn; lia|]. rewrite H2. reflexivity. }
  destruct (or_null content2) as [reasoning|] eqn:Hc2.
  2: { split; [|auto]. exists [phase1], phase2.
       split; [cbn [requests record_request]; now rewrite <- ?app_assoc|].
       split; [cbn; lia|]. rewrite H2. eauto. }
  rewrite and_then_run, executeThinkingPhase_run.
  cbn [requests record_request].
  set (phase3 := completion_request _ _).
  destruct (client env ((requests s ++ [phase1]) ++ [phase2]) phase3)
    as [content3|e3] eqn:H3.
  2: { split; [|auto]. exists [phase1; phase2], phase3.
       split; [cbn [requests record_request]; now rewrite <- ?app_assoc|].
       split; [cbn; lia|].
       change [phase1; phase2] with ([phase1] ++ [phase2]).
       rewrite app_assoc, H3. reflexivity. }
  destruct (or_null content3) as [answer|] eqn:Hc3.
  2: { split; [|auto]. exists [phase1; phase2], phase3.
       split; [cbn [requests record_request]; now rewrite <- ?app_assoc|].
       split; [cbn; lia|].
       change [phase1; phase2] with ([phase1] ++ [phase2]).
       rewrite app_assoc, H3. eauto. }
  unfold resolve. split; [exact (or_null_not_empty _ _ Hc3)|].
  split; [|auto]. exists phase1, phase2, phase3.
  cbn [requests record_request]. now rewrite <- ?app_assoc.
Qed.

(** X17.  Every outcome of [chat].  A returned answer is never empty: three
    requests were made and one storing promise was started.  Otherwise
    [chat] throws the plain object of [handleError], after one to three
    requests of which the last failed: with the code of the axios error when
    the request was rejected, with [UNKNOWN_ERROR] when the response carried
    no text; no storing promise is started then, and the memory service is
    as the context lookup left it. *)
Theorem chat_outcome env s (userMessage : string)
    (history : list ChatMessage) (c u name : option string) :
  match LLMService_chat appConfig chatConfig ORDER_BY_timestamp_DESC
          Number_toFixed ISO_8601 userMessage history c u name env s with
  | (Fulfilled answer, s') =>
      answer <> "" /\
      (exists phase1 phase2 phase3,
         requests s' = requests s ++ [phase1; phase2; phase3]) /\
      detached s' = detached s
                      ++ [storeMemory_promise appConfig userMessage answer
                            c u name]
  | (RejectedWith reason, s') =>
      (exists earlier last,
         requests s' = requests s ++ earlier ++ [last] /\
         (length earlier <= 2)%nat /\
         match client env (requests s ++ earlier) last with
         | Failed axiosError =>
             reason = NotAxiosError (handleError (IsAxiosError axiosError))
         | Responded content =>
             or_null content = None /\
             reason = NotAxiosError (ApiError "UNKNOWN_ERROR")
         end) /\
      detached s' = detached s /\
      memory s' = memory_after_lookup appConfig ORDER_BY_timestamp_DESC
                    Number_toFixed ISO_8601 env s userMessage c u name
  end.
Proof.
  unfold LLMService_chat.
  rewrite catch_run, and_then_run, context_lookup_run, and_then_run.
  set (enhanced := enhanced_message _ _ _ _ _ _ _ _ _ _).
  set (m := memory_after_lookup _ _ _ _ _ _ _ _ _ _).
  pose proof (processWithStructuredThinking_cases env (set_memory m s)
                enhanced history) as Hcases.
  destruct (LLMService_processWithStructuredThinking chatConfig enhanced
              history env (set_memory m s)) as [[answer|reason] s1].
  - destruct Hcases as (Hne & Hreq & Hd & _).
    unfold LLMService_storeMemoryAsync, detach, resolve, and_then.
    cbn [requests detached record_detached].
    split; [exact Hne|]. split; [exact Hreq|]. now rewrite Hd.
  - destruct Hcases as ((earlier & last & Hreq & Hlen & Hlast) & Hd & Hm).
    unfold reject. split; [|auto].
    exists earlier, last. split; [exact Hreq|]. split; [exact Hlen|].
    cbn [requests set_memory] in Hlast.
    destruct (client env (requests s ++ earlier) last) as [content|e].
    + destruct Hlast as (Hnone & e & ->). auto.
    + now rewrite Hlast.
Qed.


(** X19.  [testConnection] makes one request, for the models of the
    provider.  When the request fails it throws an [Error] that names the
    provider and the cause, and the memory service is not touched; when it
    succeeds [testConnection] returns, after running [initialize] of the
    memory service, whether or not that threw. *)
Theorem testConnection_outcome env s :
  let r := models_request chatConfig in
  LLMService_testConnection appConfig chatConfig env s =
  match client env (requests s) r with
  | Responded _ =>
      (Fulfilled tt,
       {| memory := snd (MemoryService_initialize appConfig
                           (memory_env env) (memory s));
          requests := requests s ++ [r];
          detached := detached s |})
  | Failed axiosError =>
      (RejectedWith
         (NotAxiosError
            (Error ("Failed to connect to "
                      ++ String_of_LLMProvider (llmProvider chatConfig) ++ ": "
                      ++ String_of_unknown (IsAxiosError axiosError)))),
       record_request r s)
  end.
Proof.
  intros r. unfold LLMService_testConnection, models_request in *.
  rewrite catch_run, and_then_run.
  assert (Hreq :
    (match llmProvider chatConfig with
     | ollama => request (GET "/api/tags")
     | docker_model_runner => request (GET "/engines/llama.cpp/v1/models")
     end) env s = request r env s).
  { subst r. now destruct (llmProvider chatConfig). }
  rewrite Hreq. unfold request.
  destruct (client env (requests s) r) as [content|e]; [|reflexivity].
  rewrite catch_run. unfold await. cbn [memory record_request].
  destruct (MemoryService_initialize appConfig (memory_env env) (memory s))
    as [[[]|err] m']; reflexivity.
Qed.






End ChatOutcomes.

(** ** The claims on the concrete deployment *)



(** Rounding alone moves the similarity of a vector with itself off [1]:
    by one unit in the last place below for [[1, 2]]. *)
Example cosine_binary64_rounding :
  calculateCosineSimilarity one_two one_two = Normal 0x1.ffffffffffffep-1%float.
Proof. vm_compute. reflexivity. Qed.

Lemma search_results_ranked_witness :
  match fst (VectorStore_searchSimilar config64 sort_by_timestamp_desc
               unit_x None None None healthy
               (open_store [deploy_script; release_day])) with
  | Normal results => StronglySorted ranked results
  | Throw _ => store_opens healthy (open_store [deploy_script; release_day]) = false
  end.
Proof.
  exact (search_results_ranked config64 sort_by_timestamp_desc
           (NumOrder0 := binary64_order)
           (OrderBy0 := sort_by_timestamp_desc_order)
           healthy (open_store [deploy_script; release_day])
           unit_x None None None).
Defined.

Lemma search_threshold_and_limit_witness :
  0 <= 1 /\
  match fst (VectorStore_searchSimilar config64 sort_by_timestamp_desc
               unit_x (Some 1) None None healthy
               (open_store [deploy_script; release_day])) with
  | Normal results =>
      Z.of_nat (length results) <= 1 /\
      Forall (fun r =>
                (similarity r >=? similarityThreshold config64)%js = true /\
                calculateCosineSimilarity unit_x (embedding (entry r))
                = Normal (similarity r))
             results
  | Throw _ => store_opens healthy (open_store [deploy_script; release_day]) = false
  end.
Proof.
  split; [lia|].
  apply (search_threshold_and_limit config64 sort_by_timestamp_desc healthy
           (open_store [deploy_script; release_day])
           unit_x 1 None None).
  lia.
Defined.

Example search_binary64_run :
  fst (VectorStore_searchSimilar config64 sort_by_timestamp_desc
         unit_x (Some 1) None None healthy
         (open_store [deploy_script; release_day]))
  = Normal [{| entry := entry_of_row release_day; similarity := 1%float |}].
Proof. vm_compute. reflexivity. Qed.

(** C3 fails on the code: with a record of another dimension among the
    candidates the search returns nothing, although the two other records
    match the query and are returned when that record is absent. *)
Lemma mismatch_discards_all_candidates :
  fst (VectorStore_searchSimilar config64 sort_by_timestamp_desc
         unit_x None None None healthy
         (open_store [deploy_script; release_day; other_model]))
  = Normal [] /\
  fst (VectorStore_searchSimilar config64 sort_by_timestamp_desc
         unit_x None None None healthy
         (open_store [deploy_script; release_day]))
  = Normal [{| entry := entry_of_row release_day; similarity := 1%float |};
            {| entry := entry_of_row deploy_script; similarity := 1%float |}].
Proof. split; vm_compute; reflexivity. Qed.

Lemma search_empty_on_dimension_mismatch_witness :
  VectorStore_searchSimilar config64 sort_by_timestamp_desc
    unit_x None None None healthy
    (open_store [deploy_script; release_day; other_model])
  = (Normal [], opened (open_store [deploy_script; release_day; other_model])).
Proof.
  apply (search_empty_on_dimension_mismatch config64 sort_by_timestamp_desc
           (OrderBy0 := sort_by_timestamp_desc_order)).
  - reflexivity.
  - do 2 apply Exists_cons_tl. apply Exists_cons_hd.
    split; [reflexivity | simpl; lia].
Defined.

(** C7 fails on the code: the embedding request times out inside
    [searchMemories], which swallows the failure; with a display name known,
    [getEnhancedContext] returns the name and the query, not the query
    unchanged. *)
Lemma display_name_is_kept_on_failure :
  (exists code,
     backend_embedding embeddings_time_out (truncated "hello") = Failure code) /\
  (forall (Number_toFixed : binary64 -> nat -> string) (ISO_8601 : Z -> string),
     fst (MemoryService_getEnhancedContext config64 sort_by_timestamp_desc
            Number_toFixed ISO_8601 "hello" (Some "C1") (Some "U1")
            (Some "Ada") embeddings_time_out fresh)
     = Normal "Ada asks: hello") /\
  "Ada asks: hello" <> "hello".
Proof.
  split; [eexists; reflexivity|]. split; [|discriminate].
  intros Number_toFixed ISO_8601. vm_compute. reflexivity.
Qed.

(** On a full disk the record is in memory and the file is no longer a
    database: a new process cannot open the store. *)
Example put_on_full_disk :
  exists s',
    VectorStore_storeMemory greeting disk_full
      (open_store [deploy_script; release_day])
    = (Normal (with_id greeting 3), s') /\
    disk s' = Some Garbage /\
    store_opens disk_full (restart s') = false.
Proof. eexists. split; [vm_compute; reflexivity|]. split; reflexivity. Qed.

(** C5 fails on the code: on a disk that refuses the write, [storeMemory]
    returns normally; the new row is in memory and no file was written. *)
Lemma put_returns_when_write_fails :
  writeFile_succeeds write_protected = false /\
  exists s',
    VectorStore_storeMemory greeting write_protected fresh
    = (Normal (with_id greeting 1), s') /\
    (memories <$> vs_db s') = Some [row_of_entry 1 greeting] /\
    disk s' = None.
Proof.
  split; [reflexivity|]. eexists. split; [vm_compute; reflexivity|].
  split; reflexivity.
Qed.

Lemma put_survives_failed_write_witness :
  exists s',
    VectorStore_storeMemory greeting write_protected fresh
    = (Normal (with_id greeting (next_rowid (open_database fresh))), s') /\
    vs_db s' =
    Some {| memories := memories (open_database fresh)
                        ++ [row_of_entry (next_rowid (open_database fresh)) greeting];
            sqlite_sequence := next_rowid (open_database fresh) |} /\
    disk s' = (if writeFile_succeeds write_protected
               then Some (SqliteImage
                            {| memories := memories (open_database fresh)
                                 ++ [row_of_entry (next_rowid (open_database fresh))
                                                  greeting];
                               sqlite_sequence := next_rowid (open_database fresh) |})
               else writeFile_failure write_protected
                      {| memories := memories (open_database fresh)
                           ++ [row_of_entry (next_rowid (open_database fresh))
                                            greeting];
                         sqlite_sequence := next_rowid (open_database fresh) |}
                      (disk fresh)).
Proof.
  apply (put_survives_failed_write write_protected fresh greeting).
  reflexivity.
Defined.

(** C9 fails on the code: an entry stored with an empty channel id comes
    back without a channel id. *)
Lemma blank_channel_is_not_returned :
  channelId greeting_blank_channel = Some "" /\
  exists r,
    fst (VectorStore_getRecentMemories config64 sort_by_timestamp_desc
           (Some 1) None None healthy
           (snd (VectorStore_storeMemory greeting_blank_channel healthy
                   (open_store [deploy_script; release_day]))))
    = Normal [r] /\
    channelId r = None.
Proof.
  split; [reflexivity|]. eexists. split; [vm_compute; reflexivity | reflexivity].
Qed.

Lemma put_then_recent_witness :
  exists rowid s1 s2,
    VectorStore_storeMemory greeting healthy
      (open_store [deploy_script; release_day])
    = (Normal (with_id greeting rowid), s1) /\
    VectorStore_getRecentMemories config64 sort_by_timestamp_desc
      (Some 1) (Some "C1") None healthy s1
    = (Normal [with_id greeting rowid], s2).
Proof.
  apply (put_then_recent config64 sort_by_timestamp_desc
           (OrderBy0 := sort_by_timestamp_desc_order) healthy
           (open_store [deploy_script; release_day]) greeting (Some "C1") None).
  - reflexivity.
  - repeat constructor.
  - repeat (constructor; [vm_compute; reflexivity|]). constructor.
  - reflexivity.
  - reflexivity.
  - reflexivity.
  - reflexivity.
  - reflexivity.
  - reflexivity.
  - reflexivity.
  - reflexivity.
  - vm_compute. reflexivity.
  - reflexivity.
Defined.

(** C10 fails on the code: a [userName] key holding the empty string is
    removed from the metadata and not promoted. *)
Lemma blank_userName_is_dropped :
  ({[ "userName" := JString "" ]} : gmap string jsval) !! "userName"
  = Some (JString "") /\
  exists entry s',
    MemoryService_storeMemory config64 "hello" "hi" (Some "C1") (Some "U1")
      (Some {[ "userName" := JString "" ]}) healthy fresh
    = (Normal entry, s') /\
    userName entry = None.
Proof.
  split; [reflexivity|]. eexists _, _. split; [vm_compute; reflexivity|].
  reflexivity.
Qed.

Lemma storeMemory_promotes_userName_witness :
  exists entry s' db' row,
    MemoryService_storeMemory config64 "hello" "hi" (Some "C1") (Some "U1")
      (Some {[ "userName" := JString "Ada" ]}) healthy fresh
    = (Normal entry, s') /\
    vs_db s' = Some db' /\ last (memories db') = Some row /\
    (forall name, JString "Ada" = JString name -> name <> "" ->
       userName entry = Some name /\ col_user_name row = Some name) /\
    (truthy_string (JString "Ada") = None ->
       userName entry = None /\ col_user_name row = None) /\
    (forall m, metadata entry = Some m -> m !! "userName" = None) /\
    (forall m, col_metadata row = Some m -> m !! "userName" = None) /\
    (delete "userName" ({[ "userName" := JString "Ada" ]} : gmap string jsval) = ∅ ->
       metadata entry = None /\ col_metadata row = None).
Proof.
  apply (storeMemory_promotes_userName config64 healthy fresh "hello" "hi"
           (Some "C1") (Some "U1") {[ "userName" := JString "Ada" ]}
           (JString "Ada") unit_x); reflexivity.
Defined.

Lemma maintenance_requires_initialize_witness :
  MemoryService_deleteMemory 1 healthy fresh
  = (Throw (Error "Memory service not initialized. Call initialize() first."),
     fresh) /\
  MemoryService_getStats config64 healthy fresh
  = (Throw (Error "Memory service not initialized. Call initialize() first."),
     fresh) /\
  MemoryService_performMaintenance healthy fresh
  = (Throw (Error "Memory service not initialized. Call initialize() first."),
     fresh) /\
  (exists rest,
     calls (snd (MemoryService_storeMemory config64 "hello" "hi" None None None
                   healthy fresh))
     = calls fresh ++ GET_models :: rest) /\
  (exists rest,
     calls (snd (MemoryService_searchMemories config64 sort_by_timestamp_desc
                   "hello" None None None healthy fresh))
     = calls fresh ++ GET_models :: rest) /\
  (backend_reachable healthy = true -> store_opens healthy fresh = true ->
   ms_initialized (snd (MemoryService_storeMemory config64 "hello" "hi" None
                          None None healthy fresh)) = true /\
   ms_initialized (snd (MemoryService_searchMemories config64
                          sort_by_timestamp_desc "hello" None None None
                          healthy fresh)) = true).
Proof.
  apply (maintenance_requires_initialize config64 sort_by_timestamp_desc
           healthy fresh 1 "hello" "hi" "hello" None None None None).
  reflexivity.
Defined.


(** ** The further properties on the concrete deployment *)

Lemma getRecentMemories_newest_first_witness :
  exists rows older,
    fst (VectorStore_getRecentMemories config64 sort_by_timestamp_desc
           (Some 1) (Some "C1") None healthy
           (open_store [deploy_script; release_day]))
    = Normal (map entry_of_row rows) /\
    Permutation
      (List.filter (WHERE (Some "C1") None)
         (memories (open_database (open_store [deploy_script; release_day]))))
      (rows ++ older) /\
    StronglySorted (fun r1 r2 => col_timestamp r2 <= col_timestamp r1)
                   (rows ++ older) /\
    (0 <= 1 -> Z.of_nat (length rows) <= 1) /\
    (older <> [] -> Z.of_nat (length rows) = 1).
Proof.
  apply (getRecentMemories_newest_first config64 sort_by_timestamp_desc
           (OrderBy0 := sort_by_timestamp_desc_order) healthy
           (open_store [deploy_script; release_day]) 1 (Some "C1") None).
  reflexivity.
Defined.

Lemma deleteMemory_removes_the_id_witness :
  exists found s',
    VectorStore_deleteMemory 1 healthy (open_store [deploy_script; release_day])
    = (Normal found, s') /\
    (found = true <->
     In 1 (map col_id
             (memories (open_database (open_store [deploy_script; release_day]))))) /\
    (forall row,
       In row (rows_in_memory s') <->
       In row (memories (open_database (open_store [deploy_script; release_day])))
       /\ col_id row <> 1) /\
    (found = false ->
     rows_in_memory s'
     = memories (open_database (open_store [deploy_script; release_day])) /\
     disk s' = disk (open_store [deploy_script; release_day]) /\
     calls s' = calls (open_store [deploy_script; release_day])
                ++ open_calls (open_store [deploy_script; release_day])) /\
    (found = true ->
     calls s' = calls (open_store [deploy_script; release_day])
                ++ open_calls (open_store [deploy_script; release_day])
                ++ [Call_writeFile] /\
     (writeFile_succeeds healthy = true -> disk s' = SqliteImage <$> vs_db s')).
Proof.
  apply (deleteMemory_removes_the_id healthy
           (open_store [deploy_script; release_day]) 1).
  reflexivity.
Defined.

Lemma deleted_memory_is_not_returned_witness :
  exists s' entries results,
    snd (VectorStore_deleteMemory 2 healthy
           (open_store [deploy_script; release_day])) = s' /\
    fst (VectorStore_getRecentMemories config64 sort_by_timestamp_desc
           None None None healthy s') = Normal entries /\
    Forall (fun e => id e <> Some 2) entries /\
    fst (VectorStore_searchSimilar config64 sort_by_timestamp_desc
           unit_x None None None healthy s') = Normal results /\
    Forall (fun r => id (entry r) <> Some 2) results /\
    fst (VectorStore_deleteMemory 2 healthy s') = Normal false.
Proof.
  apply (deleted_memory_is_not_returned config64 sort_by_timestamp_desc
           (OrderBy0 := sort_by_timestamp_desc_order) healthy
           (open_store [deploy_script; release_day]) 2 unit_x None None None).
  reflexivity.
Defined.


Lemma ids_stay_unique_witness :
  (exists db',
     vs_db (snd (VectorStore_storeMemory greeting healthy
                   (open_store [deploy_script; release_day]))) = Some db' /\
     ids_unique db') /\
  (exists db',
     vs_db (snd (VectorStore_deleteMemory 1 healthy
                   (open_store [deploy_script; release_day]))) = Some db' /\
     ids_unique db' /\
     (In 1 (map col_id
              (memories (open_database (open_store [deploy_script; release_day])))) ->
      S (length (memories db'))
      = length (memories (open_database (open_store [deploy_script; release_day]))))).
Proof.
  apply (ids_stay_unique healthy (open_store [deploy_script; release_day])
           greeting 1).
  - reflexivity.
  - unfold ids_unique. apply (bool_decide_unpack _). vm_compute. reflexivity.
Defined.

Lemma storeMemory_adds_one_to_count_witness :
  exists n stored_entry s1,
    fst (VectorStore_getMemoryCount healthy
           (open_store [deploy_script; release_day])) = Normal n /\
    VectorStore_storeMemory greeting healthy
      (open_store [deploy_script; release_day]) = (Normal stored_entry, s1) /\
    fst (VectorStore_getMemoryCount healthy s1) = Normal (n + 1).
Proof.
  apply (storeMemory_adds_one_to_count healthy
           (open_store [deploy_script; release_day]) greeting).
  reflexivity.
Defined.

Lemma stored_memory_survives_restart_witness :
  exists stored_entry s1,
    VectorStore_storeMemory greeting healthy fresh = (Normal stored_entry, s1) /\
    open_database (restart s1) = open_database s1 /\
    fst (VectorStore_getRecentMemories config64 sort_by_timestamp_desc
           None None None healthy (restart s1))
    = fst (VectorStore_getRecentMemories config64 sort_by_timestamp_desc
             None None None healthy s1) /\
    fst (VectorStore_searchSimilar config64 sort_by_timestamp_desc
           unit_x None None None healthy (restart s1))
    = fst (VectorStore_searchSimilar config64 sort_by_timestamp_desc
             unit_x None None None healthy s1).
Proof.
  apply (stored_memory_survives_restart config64 sort_by_timestamp_desc
           healthy fresh greeting unit_x None None None); reflexivity.
Defined.

Lemma search_returns_the_best_witness :
  exists results missed,
    fst (VectorStore_searchSimilar config64 sort_by_timestamp_desc
           unit_x (Some 1) None None healthy
           (open_store [deploy_script; release_day])) = Normal results /\
    Permutation
      (omap (score config64 unit_x)
            (List.filter (WHERE None None)
               (memories (open_database (open_store [deploy_script; release_day])))))
      (results ++ missed) /\
    StronglySorted ranked (results ++ missed) /\
    (missed <> [] -> Z.of_nat (length results) = 1).
Proof.
  apply (search_returns_the_best config64 sort_by_timestamp_desc
           (NumOrder0 := binary64_order)
           (OrderBy0 := sort_by_timestamp_desc_order) healthy
           (open_store [deploy_script; release_day]) unit_x 1 None None).
  - reflexivity.
  - lia.
  - repeat constructor.
Defined.

Lemma chat_returns_the_summary_witness :
  let enhanced :=
    enhanced_message config64 sort_by_timestamp_desc unused_toFixed
      unused_ISO_8601 answering idle "hello" (Some "C1") (Some "U1")
      (Some "Ada") in
  let phase1 := planning_request aidan enhanced [] in
  let phase2 := reasoning_request aidan enhanced [] "Greet the user." in
  let phase3 :=
    summary_request aidan enhanced [] "Greet the user." "A greeting is due." in
  enhanced = "Ada asks: hello" /\
  exists s',
    LLMService_chat config64 aidan sort_by_timestamp_desc unused_toFixed
      unused_ISO_8601 "hello" [] (Some "C1") (Some "U1") (Some "Ada")
      answering idle = (Fulfilled "Hi.", s') /\
    requests s' = requests idle ++ [phase1; phase2; phase3] /\
    detached s' = detached idle
                    ++ [storeMemory_promise config64 "hello" "Hi."
                          (Some "C1") (Some "U1") (Some "Ada")].
Proof.
  split; [vm_compute; reflexivity|].
  apply (chat_returns_the_summary config64 aidan sort_by_timestamp_desc
           unused_toFixed unused_ISO_8601 answering idle "hello" []
           (Some "C1") (Some "U1") (Some "Ada")
           "Greet the user." "A greeting is due." "Hi.");
    first [discriminate | reflexivity].
Defined.


(** The exchange on the deployment, once the promise has run: the table
    holds the question as it was asked. *)
Example chat_on_the_deployment :
  let s' :=
    snd (LLMService_chat config64 aidan sort_by_timestamp_desc unused_toFixed
           unused_ISO_8601 "hello" [] (Some "C1") (Some "U1") (Some "Ada")
           answering idle) in
  rows_in_memory (memory (settle answering s')) =
  [ {| col_id := 1; col_timestamp := 1700000000000;
       col_user_input := "hello"; col_bot_response := "Hi.";
       col_embedding := unit_x;
       col_channel_id := Some "C1"; col_user_id := Some "U1";
       col_user_name := Some "Ada"; col_metadata := None |} ].
Proof. vm_compute. reflexivity. Qed.

(** A backend that stays silent, as the default system prompt asks for a
    request to remember something, makes [chat] throw, and the request is
    not stored. *)
Example silent_answer_is_an_error :
  exists s',
    LLMService_chat config64 aidan sort_by_timestamp_desc unused_toFixed
      unused_ISO_8601 "remember that the deploy script is in /ops" []
      (Some "C1") (Some "U1") (Some "Ada") silent idle
    = (RejectedWith (NotAxiosError (ApiError "UNKNOWN_ERROR")), s') /\
    detached s' = [] /\
    rows_in_memory (memory (settle silent s')) = [].
Proof. eexists. split; [vm_compute; reflexivity|]. split; reflexivity. Qed.

(** With the backend down, [chat] reports a refused connection after one
    request, and [testConnection] names the provider and the cause. *)
Example chat_with_the_backend_down :
  fst (LLMService_chat config64 aidan sort_by_timestamp_desc unused_toFixed
         unused_ISO_8601 "hello" [] (Some "C1") (Some "U1") (Some "Ada")
         llm_down idle)
  = RejectedWith (NotAxiosError (ApiError "CONNECTION_REFUSED")) /\
  fst (LLMService_testConnection config64 aidan llm_down idle)
  = RejectedWith
      (NotAxiosError
         (Error "Failed to connect to ollama: AxiosError: connect ECONNREFUSED 127.0.0.1:11434")).
Proof. split; vm_compute; reflexivity. Qed.
